(** * The OData service writer: artifact synchronisation of a UI5 project

    A shallow embedding of [packages/odata-service-writer/src/index.ts]:
    [findProjectFiles], [ensureExists], [extendBackendMiddleware],
    [getEDMXAnnotationPaths], [writeLocalServiceFiles],
    [writeEDMXServiceFiles], [generate] and [remove], over a staged
    file system (the mem-fs editor) kept as a finite map from paths to
    documents.  The collaborators that [index.ts] imports from [./data],
    [./updates], [./delete], [@sap-ux/ui5-config] and
    [@sap-ux/mockserver-config-writer] are modelled from the specification
    and are marked as such. *)

From stdpp Require Import base option list strings gmap.
From Stdlib Require Import String Ascii.

Local Open Scope string_scope.
Local Open Scope list_scope.

(** ** Paths

    A path is kept as the list of its segments, the way [basePath.split(sep)]
    produces it.  [parts.join(sep)] followed by [join(path, name)] is
    [join parts [name]]: Node's [join] skips an empty first argument, so the
    level reached when only the leading empty segment of an absolute path is
    left yields a relative path.  Paths are taken as already normalised (no
    dot segments, no doubled separators). *)

Abbreviation Path := (list string).

Definition sep : ascii := "/"%char.

Fixpoint split (s : string) : Path :=
  match s with
  | EmptyString => [""]
  | String c r =>
      if Ascii.eqb c sep then "" :: split r
      else match split r with
           | h :: t => String c h :: t
           | [] => [String c ""]
           end
  end.

Definition join (dir : Path) (names : list string) : Path :=
  if decide (dir = [] ∨ dir = [""]) then names else dir ++ names.

Definition dirname (p : Path) : Path := removelast p.

(** ** The service descriptor *)

Inductive ServiceType := EDMX | CDS.
Inductive OdataVersion := v2 | v4.

(** [FioriToolsProxyConfigBackend]; [previewSettings] is a partial one. *)
Record ProxyBackend := {
  b_path : option string;
  b_url : option string;
  b_client : option string;
  b_destination : option string;
  b_apiHub : option bool;
  b_scp : option bool;
  b_pathPrefix : option string
}.

Record EdmxAnnotationsInfo := {
  a_name : option string;
  a_technicalName : string;
  a_xml : option string
}.

(** [annotations] is one annotation or an array of them in the source; a
    single annotation is kept as a one-element list. *)
Record OdataService := {
  s_name : option string;
  s_url : string;
  s_path : option string;
  s_client : option string;
  s_version : OdataVersion;
  s_model : option string;
  s_metadata : option string;
  s_annotations : list EdmxAnnotationsInfo;
  s_localAnnotationsName : option string;
  s_destination : option string;
  s_previewSettings : option ProxyBackend;
  s_ignoreCertError : option bool;
  s_type : option ServiceType
}.

(** ** The manifest *)

Inductive DataSourceType := OData | ODataAnnotation.

Record DataSource := {
  ds_uri : string;
  ds_type : DataSourceType;
  ds_localUri : option Path;          (* settings.localUri *)
  ds_annotations : list string;       (* settings.annotations *)
  ds_odataVersion : option OdataVersion
}.

(** [sap.app.id], [sap.app.dataSources] (insertion order kept) and
    [sap.ui5.models] (model name, bound data source).  An absent table is the
    empty table. *)
Record Manifest := {
  m_id : option string;
  m_dataSources : list (string * DataSource);
  m_models : list (string * option string)
}.

(** ** The YAML configuration documents *)

Record FioriToolsProxy := {
  p_backend : list ProxyBackend;
  p_ignoreCertError : option bool
}.

Record MockService := { serviceName : string; servicePath : string }.

Record MockServer := {
  k_services : list MockService;
  k_annotations : list string          (* urlPath of each entry *)
}.

(** [server.customMiddleware]: absent, or holding the two named blocks this
    engine edits. *)
Record Middlewares := {
  fioriToolsProxy : option FioriToolsProxy;
  sapFeMockserver : option MockServer
}.

Record UI5Config := { customMiddleware : option Middlewares }.

Record PackageJson := { ui5Tooling : bool; mockserverDependency : bool }.

(** ** The staged file system *)

Inductive File :=
| FManifest (m : Manifest)
| FYaml (c : UI5Config)
| FPackage (p : PackageJson)
| FText (s : string)
| FTemplate (template : Path) (context : OdataService).

Abbreviation Editor := (gmap Path File).

Inductive yamlErrorCode := nodeNotFound | yamlParsing | otherYamlCode (c : string).

Inductive Error :=
| RequiredProjectFileNotFound (path : string)
| RequiredProjectPropertyNotFound (property : string) (path : Path)
| YAMLError (message : string) (code : yamlErrorCode)
| JsError (message : string).

#[global] Instance ServiceType_eq_dec : EqDecision ServiceType.
Proof. solve_decision. Defined.
#[global] Instance OdataVersion_eq_dec : EqDecision OdataVersion.
Proof. solve_decision. Defined.
#[global] Instance DataSourceType_eq_dec : EqDecision DataSourceType.
Proof. solve_decision. Defined.
#[global] Instance ProxyBackend_eq_dec : EqDecision ProxyBackend.
Proof. solve_decision. Defined.
#[global] Instance yamlErrorCode_eq_dec : EqDecision yamlErrorCode.
Proof. solve_decision. Defined.

(** ** A state and exception monad over the editor

    Every function of [index.ts] reads and writes the one shared editor and
    may throw; a computation takes the editor and returns the editor it
    leaves behind together with the thrown error or the result. *)

Definition M (A : Type) : Type := Editor → Editor * (Error + A).

#[global] Instance M_ret : MRet M := λ A x fs, (fs, inr x).
#[global] Instance M_bind : MBind M := λ A B f c fs,
  match c fs with
  | (fs', inr x) => f x fs'
  | (fs', inl e) => (fs', inl e)
  end.

Definition throw {A} (e : Error) : M A := λ fs, (fs, inl e).
Definition get : M Editor := λ fs, (fs, inr fs).
Definition modify (f : Editor → Editor) : M unit := λ fs, (f fs, inr tt).

Definition fs_exists (p : Path) : M bool := λ fs, (fs, inr (bool_decide (is_Some (fs !! p)))).
Definition fs_write (p : Path) (f : File) : M unit := modify (<[p := f]>).
Definition fs_delete (p : Path) : M unit := modify (delete p).
Definition fs_read (p : Path) : M File := λ fs,
  match fs !! p with
  | Some f => (fs, inr f)
  | None => (fs, inl (JsError "file does not exist"))
  end.

Definition exists_in (fs : Editor) (p : Path) : bool := bool_decide (is_Some (fs !! p)).

(** [fs.readJSON] of the manifest: [undefined] when the file is absent. *)
Definition readManifest (fs : Editor) (p : Path) : option Manifest :=
  match fs !! p with
  | Some (FManifest m) => Some m
  | _ => None
  end.

(** [UI5Config.newInstance(fs.read(path))]: reading an absent file throws, and
    so does parsing a file that holds no YAML document. *)
Definition readConfig (p : Path) : M UI5Config :=
  f ← fs_read p;
  match f with
  | FYaml c => mret c
  | _ => throw (YAMLError "yaml parsing error" yamlParsing)
  end.

(** ** [findProjectFiles] *)

Record ProjectPaths := {
  packageJson : option Path;
  ui5Yaml : option Path;
  ui5LocalYaml : option Path;
  ui5MockYaml : option Path
}.

Definition noPaths : ProjectPaths :=
  {| packageJson := None; ui5Yaml := None; ui5LocalYaml := None; ui5MockYaml := None |}.

Definition allFound (files : ProjectPaths) : bool :=
  bool_decide (is_Some (packageJson files)) && bool_decide (is_Some (ui5Yaml files))
  && bool_decide (is_Some (ui5LocalYaml files)) && bool_decide (is_Some (ui5MockYaml files)).

(** One guarded assignment of the loop body:
    [if (!files.x && fs.exists(join(path, name))) files.x = join(path, name)]. *)
Definition locate (fs : Editor) (parts : Path) (name : string) (known : option Path) : option Path :=
  match known with
  | Some p => Some p
  | None => if exists_in fs (join parts [name]) then Some (join parts [name]) else None
  end.

(** The [while] loop.  [parts.pop()] removes the last segment, so the loop
    recurses on the reversed segment list; it stops when no segment is left
    or when the four files are known. *)
Fixpoint findLoop (fs : Editor) (rparts : list string) (files : ProjectPaths) : ProjectPaths :=
  match rparts with
  | [] => files
  | _ :: rest =>
      if allFound files then files
      else
        let parts := rev rparts in
        findLoop fs rest
          {| packageJson := locate fs parts "package.json" (packageJson files);
             ui5Yaml := locate fs parts "ui5.yaml" (ui5Yaml files);
             ui5LocalYaml := locate fs parts "ui5-local.yaml" (ui5LocalYaml files);
             ui5MockYaml := locate fs parts "ui5-mock.yaml" (ui5MockYaml files) |}
  end.

Definition findProjectFiles (basePath : string) (fs : Editor) : ProjectPaths :=
  findLoop fs (rev (split basePath)) noPaths.

(** ** [ensureExists] *)

Fixpoint ensureExists (basePath : string) (files : list string) : M unit :=
  match files with
  | [] => mret tt
  | path :: rest =>
      b ← fs_exists (join (split basePath) (split path));
      if b : bool then ensureExists basePath rest
      else throw (RequiredProjectFileNotFound path)
  end.

(** [getWebappPath] of [@sap-ux/project-access], an external collaborator:
    the default [webapp] folder of the project. *)
Definition getWebappPath (basePath : string) : Path := join (split basePath) ["webapp"].

Definition manifestPath (basePath : string) : Path := join (getWebappPath basePath) ["manifest.json"].

(** ** The descriptor enhancer *)

Definition DEFAULT_DATASOURCE_NAME : string := "mainService".

Definition isOData (e : string * DataSource) : bool := bool_decide (ds_type e.2 = OData).

Definition dataSourcesOf (fs : Editor) (basePath : string) : list (string * DataSource) :=
  from_option m_dataSources [] (readManifest fs (manifestPath basePath)).

Definition modelsOf (fs : Editor) (basePath : string) : list (string * option string) :=
  from_option m_models [] (readManifest fs (manifestPath basePath)).

Fixpoint endsWithSep (s : string) : bool :=
  match s with
  | EmptyString => false
  | String c EmptyString => Ascii.eqb c sep
  | String _ r => endsWithSep r
  end.

Definition withTrailingSep (s : string) : string := if endsWithSep s then s else s +:+ "/".

(** The first non-empty segment of the service path, behind a separator. *)
Definition previewPath (path : string) : string :=
  "/" +:+ default "" (head (filter (λ seg, seg ≠ "") (split path))).

Definition set_name (n : option string) (s : OdataService) : OdataService :=
  {| s_name := n; s_url := s_url s; s_path := s_path s; s_client := s_client s;
     s_version := s_version s; s_model := s_model s; s_metadata := s_metadata s;
     s_annotations := s_annotations s; s_localAnnotationsName := s_localAnnotationsName s;
     s_destination := s_destination s; s_previewSettings := s_previewSettings s;
     s_ignoreCertError := s_ignoreCertError s; s_type := s_type s |}.

Definition set_path (p : option string) (s : OdataService) : OdataService :=
  {| s_name := s_name s; s_url := s_url s; s_path := p; s_client := s_client s;
     s_version := s_version s; s_model := s_model s; s_metadata := s_metadata s;
     s_annotations := s_annotations s; s_localAnnotationsName := s_localAnnotationsName s;
     s_destination := s_destination s; s_previewSettings := s_previewSettings s;
     s_ignoreCertError := s_ignoreCertError s; s_type := s_type s |}.

Definition set_model (m : option string) (s : OdataService) : OdataService :=
  {| s_name := s_name s; s_url := s_url s; s_path := s_path s; s_client := s_client s;
     s_version := s_version s; s_model := m; s_metadata := s_metadata s;
     s_annotations := s_annotations s; s_localAnnotationsName := s_localAnnotationsName s;
     s_destination := s_destination s; s_previewSettings := s_previewSettings s;
     s_ignoreCertError := s_ignoreCertError s; s_type := s_type s |}.

Definition set_annotations (a : list EdmxAnnotationsInfo) (s : OdataService) : OdataService :=
  {| s_name := s_name s; s_url := s_url s; s_path := s_path s; s_client := s_client s;
     s_version := s_version s; s_model := s_model s; s_metadata := s_metadata s;
     s_annotations := a; s_localAnnotationsName := s_localAnnotationsName s;
     s_destination := s_destination s; s_previewSettings := s_previewSettings s;
     s_ignoreCertError := s_ignoreCertError s; s_type := s_type s |}.

Definition set_previewSettings (b : option ProxyBackend) (s : OdataService) : OdataService :=
  {| s_name := s_name s; s_url := s_url s; s_path := s_path s; s_client := s_client s;
     s_version := s_version s; s_model := s_model s; s_metadata := s_metadata s;
     s_annotations := s_annotations s; s_localAnnotationsName := s_localAnnotationsName s;
     s_destination := s_destination s; s_previewSettings := b;
     s_ignoreCertError := s_ignoreCertError s; s_type := s_type s |}.

Definition set_type (t : option ServiceType) (s : OdataService) : OdataService :=
  {| s_name := s_name s; s_url := s_url s; s_path := s_path s; s_client := s_client s;
     s_version := s_version s; s_model := s_model s; s_metadata := s_metadata s;
     s_annotations := s_annotations s; s_localAnnotationsName := s_localAnnotationsName s;
     s_destination := s_destination s; s_previewSettings := s_previewSettings s;
     s_ignoreCertError := s_ignoreCertError s; s_type := t |}.

(** [service.name ?? 'mainService'], as [index.ts] resolves the name. *)
Definition serviceNameOf (s : OdataService) : string :=
  default DEFAULT_DATASOURCE_NAME (s_name s).

(** The manifest key of an annotation. *)
Definition annotationKey (a : EdmxAnnotationsInfo) : string :=
  default (a_technicalName a) (a_name a).

Definition lookupKey {V} (k : string) (l : list (string * V)) : option V :=
  snd <$> List.find (λ e, bool_decide (e.1 = k)) l.

(** Insert or overwrite in an ordered table: an existing key keeps its
    position, a new key goes to the end. *)
Fixpoint upsert {V} (k : string) (v : V) (l : list (string * V)) : list (string * V) :=
  match l with
  | [] => [(k, v)]
  | e :: r => if decide (e.1 = k) then (k, v) :: r else e :: upsert k v r
  end.

(** Modelled from the spec: [setDefaultServiceName] of [./data] is missing
    from the sources.  Rule 1 of the enhancer with the convention of the data
    model that the first service added when none exists becomes
    [mainService]; the unit test "Valid OData V4 service" shows that a first
    service that carries a name is stored under [mainService] as well. *)
Definition setDefaultServiceName (ds : list (string * DataSource)) (s : OdataService) : OdataService :=
  if bool_decide (filter (λ e, isOData e = true) ds = []) then set_name (Some DEFAULT_DATASOURCE_NAME) s
  else s.

(** Modelled from the spec: [setDefaultServicePath] of [./data] is missing
    from the sources.  Rules 2 and 6: the path ends with a separator, an
    absent path becomes the separator alone. *)
Definition setDefaultServicePath (s : OdataService) : OdataService :=
  set_path (Some (withTrailingSep (default "" (s_path s)))) s.

Definition noPreviewSettings : ProxyBackend :=
  {| b_path := None; b_url := None; b_client := None; b_destination := None;
     b_apiHub := None; b_scp := None; b_pathPrefix := None |}.

Definition orElse {A} (x y : option A) : option A :=
  match x with Some _ => x | None => y end.

(** Modelled from the spec: [setDefaultPreviewSettings] of [./data] is missing
    from the sources.  Rule 3: path and url of the preview settings derive
    from the service unless the caller supplied them; [apiHub], [scp] and
    [pathPrefix] pass through; client and destination of the service become
    part of the backend entry. *)
Definition setDefaultPreviewSettings (s : OdataService) : OdataService :=
  let ps := default noPreviewSettings (s_previewSettings s) in
  set_previewSettings
    (Some {| b_path := Some (default (previewPath (default "" (s_path s))) (b_path ps));
             b_url := Some (default (s_url s) (b_url ps));
             b_client := orElse (b_client ps) (s_client s);
             b_destination := orElse (b_destination ps) (s_destination s);
             b_apiHub := b_apiHub ps; b_scp := b_scp ps; b_pathPrefix := b_pathPrefix ps |}) s.

(** An existing manifest key collides with an annotation when it is the
    service's own name, the key of a service, or the key of another
    annotation: one that the service's own entry does not list yet. *)
Definition collides (ds : list (string * DataSource)) (name : string) (key : string) : bool :=
  bool_decide (key = name) ||
  match lookupKey key ds with
  | None => false
  | Some e =>
      match ds_type e with
      | OData => true
      | ODataAnnotation =>
          negb (bool_decide (key ∈ from_option ds_annotations [] (lookupKey name ds)))
      end
  end.

Definition ANNOTATION_SUFFIX : string := "_Annotation".

Definition renameAnnotation (ds : list (string * DataSource)) (name : string)
    (a : EdmxAnnotationsInfo) : EdmxAnnotationsInfo :=
  if collides ds name (annotationKey a)
  then {| a_name := Some (annotationKey a +:+ ANNOTATION_SUFFIX);
          a_technicalName := a_technicalName a; a_xml := a_xml a |}
  else a.

(** Modelled from the spec: [setDefaultAnnotationsName] of [./data] is
    missing from the sources.  Rule 4; the unit test "Enhance unspecified
    input data with defaults" renames an annotation named as its service. *)
Definition setDefaultAnnotationsName (ds : list (string * DataSource)) (s : OdataService) : OdataService :=
  set_annotations (renameAnnotation ds (serviceNameOf s) <$> s_annotations s) s.

(** Modelled from the spec: [setDefaultServiceModel] of [./data] is missing
    from the sources.  Rule 5: a model the caller names is kept; otherwise the
    model that already binds the data source of this name is reused, and the
    default model (the empty string) is the fallback. *)
Definition setDefaultServiceModel (models : list (string * option string)) (s : OdataService) : OdataService :=
  match s_model s with
  | Some _ => s
  | None =>
      set_model
        (Some (default "" (fst <$> List.find (λ e, bool_decide (e.2 = Some (serviceNameOf s))) models))) s
  end.

(** Modelled from the spec: [enhanceData] of [./data] is missing from the
    sources.  The rules of the enhancer, applied in order; the descriptor is
    mutated in place in the source and returned here. *)
Definition enhance (ds : list (string * DataSource)) (models : list (string * option string))
    (s : OdataService) : OdataService :=
  let s1 := setDefaultServiceName ds s in
  let s2 := setDefaultServicePath s1 in
  let s3 := setDefaultPreviewSettings s2 in
  let s4 := setDefaultAnnotationsName ds s3 in
  let s5 := setDefaultServiceModel models s4 in
  set_type (Some (default EDMX (s_type s5))) s5.

Definition enhanceData (basePath : string) (service : OdataService) : M OdataService :=
  fs ← get;
  mret (enhance (dataSourcesOf fs basePath) (modelsOf fs basePath) service).

(** ** Annotation paths *)

Definition hexDigit (n : N) : ascii :=
  nth (N.to_nat n) (list_ascii_of_string "0123456789ABCDEF") "0"%char.

Definition isUnreserved (c : ascii) : bool :=
  let n := N_of_ascii c in
  ((65 <=? n) && (n <=? 90) || (97 <=? n) && (n <=? 122) || (48 <=? n) && (n <=? 57))%N
  || bool_decide (c ∈ list_ascii_of_string "-_.!~*'()").

(** JavaScript's [encodeURIComponent] on the bytes of the string. *)
Fixpoint encodeURIComponent (s : string) : string :=
  match s with
  | EmptyString => EmptyString
  | String c r =>
      if isUnreserved c then String c (encodeURIComponent r)
      else String "%" (String (hexDigit (N_of_ascii c / 16))
                         (String (hexDigit (N_of_ascii c mod 16)) (encodeURIComponent r)))
  end.

(** How annotation paths are stored in the manifest for [ODataAnnotation]
    entries. *)
Definition annotationPath (technicalName : string) : string :=
  "/sap/opu/odata/IWFND/CATALOGSERVICE;v=2/Annotations(TechnicalName='"
  +:+ encodeURIComponent technicalName +:+ "',Version='0001')/$value/".

Definition getEDMXAnnotationPaths (edmxAnnotations : list EdmxAnnotationsInfo) : list string :=
  (λ annotation, annotationPath (a_technicalName annotation)) <$> edmxAnnotations.

(** ** The manifest data-source merger *)

Definition LOCAL_SERVICE : string := "localService".

(** A local URI of the flat legacy layout names a file directly inside
    [localService/]. *)
Definition flatFile (u : option Path) : option string :=
  match u with
  | Some [d; f] => if decide (d = LOCAL_SERVICE) then Some f else None
  | _ => None
  end.

Definition set_localUri (u : option Path) (d : DataSource) : DataSource :=
  {| ds_uri := ds_uri d; ds_type := ds_type d; ds_localUri := u;
     ds_annotations := ds_annotations d; ds_odataVersion := ds_odataVersion d |}.

Definition namespaced (k : string) (d : DataSource) : DataSource :=
  match flatFile (ds_localUri d) with
  | Some f => set_localUri (Some [LOCAL_SERVICE; k; f]) d
  | None => d
  end.

(** The one existing [OData] service in flat layout, when the service about
    to be merged is a second one. *)
Definition loneFlatService (ds : list (string * DataSource)) (name : string)
    : option (string * DataSource) :=
  match filter (λ e, isOData e = true) ds with
  | [e] =>
      if bool_decide (e.1 ≠ name) && bool_decide (is_Some (flatFile (ds_localUri e.2)))
      then Some e else None
  | _ => None
  end.

(** The entries the migration touches: the lone service and the annotation
    entries its [settings.annotations] lists. *)
Definition migrates (k : string) (d : DataSource) (e : string * DataSource) : bool :=
  bool_decide (e.1 = k)
  || (bool_decide (e.1 ∈ ds_annotations d) && bool_decide (ds_type e.2 = ODataAnnotation)).

Definition migrateTable (k : string) (d : DataSource) (ds : list (string * DataSource))
    : list (string * DataSource) :=
  (λ e, if migrates k d e then (e.1, namespaced k e.2) else e) <$> ds.

(** The flat files to move, as names inside [localService/]. *)
Definition migratedFiles (k : string) (d : DataSource) (ds : list (string * DataSource))
    : list string :=
  omap (λ e, if migrates k d e then flatFile (ds_localUri e.2) else None) ds.

(** [fs.move] of one existing flat file into the folder of its service. *)
Definition moveIntoNamespace (webappPath : Path) (k : string) (fs : Editor) (f : string) : Editor :=
  match fs !! (webappPath ++ [LOCAL_SERVICE; f]) with
  | Some content =>
      <[webappPath ++ [LOCAL_SERVICE; k; f] := content]> (delete (webappPath ++ [LOCAL_SERVICE; f]) fs)
  | None => fs
  end.

Definition appendAbsent (new old : list string) : list string :=
  fold_left (λ acc k, if bool_decide (k ∈ acc) then acc else acc ++ [k]) new old.

Definition serviceEntry (s : OdataService) (old : option DataSource) : DataSource :=
  {| ds_uri := default "" (s_path s);
     ds_type := OData;
     ds_localUri := Some [LOCAL_SERVICE; serviceNameOf s; "metadata.xml"];
     ds_annotations := appendAbsent (annotationKey <$> s_annotations s)
                         (from_option ds_annotations [] old);
     ds_odataVersion := Some (s_version s) |}.

Definition annotationEntry (name : string) (a : EdmxAnnotationsInfo) : DataSource :=
  {| ds_uri := annotationPath (a_technicalName a);
     ds_type := ODataAnnotation;
     ds_localUri := Some [LOCAL_SERVICE; name; a_technicalName a +:+ ".xml"];
     ds_annotations := [];
     ds_odataVersion := None |}.

Definition mergeDataSources (s : OdataService) (ds : list (string * DataSource))
    : list (string * DataSource) :=
  let name := serviceNameOf s in
  fold_left (λ acc a, upsert (annotationKey a) (annotationEntry name a) acc)
    (s_annotations s)
    (upsert name (serviceEntry s (lookupKey name ds)) ds).

Definition mergeModels (s : OdataService) (models : list (string * option string))
    : list (string * option string) :=
  upsert (default "" (s_model s)) (Some (serviceNameOf s)) models.

(** The table after the migration, when one is due. *)
Definition migratedDataSources (ds : list (string * DataSource)) (name : string)
    : list (string * DataSource) :=
  match loneFlatService ds name with
  | Some (k, d) => migrateTable k d ds
  | None => ds
  end.

Definition mergeManifest (s : OdataService) (manifest : Manifest) : Manifest :=
  {| m_id := m_id manifest;
     m_dataSources :=
       mergeDataSources s (migratedDataSources (m_dataSources manifest) (serviceNameOf s));
     m_models := mergeModels s (m_models manifest) |}.

(** Modelled from the spec: [updateManifest] of [./updates] is missing from
    the sources.  The merger: the manifest must carry [sap.app.id]; a lone
    service in flat layout is migrated (files moved, local URIs rewritten)
    when a second service arrives; the service's entry, its annotation
    entries and its model binding are inserted or overwritten.  The entry of
    every service points into [localService/<name>/], where
    [writeLocalServiceFiles] of [index.ts] puts the payload. *)
Definition updateManifest (basePath : string) (service : OdataService) : M unit :=
  fs ← get;
  let webappPath := getWebappPath basePath in
  match fs !! manifestPath basePath with
  | Some (FManifest manifest) =>
      match m_id manifest with
      | None => throw (RequiredProjectPropertyNotFound "'sap.app'.id" (manifestPath basePath))
      | Some appid =>
          match loneFlatService (m_dataSources manifest) (serviceNameOf service) with
          | Some (k, d) =>
              modify (λ fs, fold_left (moveIntoNamespace webappPath k)
                              (migratedFiles k d (m_dataSources manifest)) fs)
          | None => mret tt
          end;;
          fs_write (manifestPath basePath) (FManifest (mergeManifest service manifest))
      end
  | Some _ => throw (JsError "manifest.json is not a JSON manifest")
  | None => throw (RequiredProjectPropertyNotFound "'sap.app'.id" (manifestPath basePath))
  end.

(** ** The manifest data-source remover *)

(** A local annotation: its [uri] is its own local file. *)
Definition isLocalAnnotation (d : DataSource) : bool :=
  bool_decide (ds_localUri d = Some (split (ds_uri d))).

Definition referencedElsewhere (name : string) (ds : list (string * DataSource)) (a : string) : bool :=
  bool_decide (Exists (λ e, e.1 ≠ name ∧ ds_type e.2 = OData ∧ a ∈ ds_annotations e.2) ds).

(** The annotation entries that go with a removed service. *)
Definition removable (name : string) (d : DataSource) (ds : list (string * DataSource))
    (e : string * DataSource) : bool :=
  bool_decide (e.1 ∈ ds_annotations d) && bool_decide (ds_type e.2 = ODataAnnotation)
  && negb (isLocalAnnotation e.2) && negb (referencedElsewhere name ds e.1).

Definition deleteService (name : string) (manifest : Manifest) : Manifest :=
  match lookupKey name (m_dataSources manifest) with
  | None => manifest
  | Some d =>
      {| m_id := m_id manifest;
         m_dataSources :=
           filter (λ e, e.1 ≠ name ∧ removable name d (m_dataSources manifest) e = false)
             (m_dataSources manifest);
         m_models := filter (λ e, e.2 ≠ Some name) (m_models manifest) |}
  end.

(** Modelled from the spec: [deleteServiceFromManifest] of [./delete] is
    missing from the sources.  An unknown name is a no-op; for a known
    service its entry, the annotation entries it lists (unless another
    remaining service lists them too) and the models bound to it are deleted.
    The unit test "Remove an existing service" keeps the local annotation,
    whose [uri] is its own local file. *)
Definition deleteServiceFromManifest (basePath : string) (serviceName : option string) : M unit :=
  fs ← get;
  match readManifest fs (manifestPath basePath), serviceName with
  | Some manifest, Some name =>
      if bool_decide (is_Some (lookupKey name (m_dataSources manifest)))
      then fs_write (manifestPath basePath) (FManifest (deleteService name manifest))
      else mret tt
  | _, _ => mret tt
  end.

(** ** The YAML document model *)

Definition noMiddlewares : Middlewares := {| fioriToolsProxy := None; sapFeMockserver := None |}.
Definition emptyConfig : UI5Config := {| customMiddleware := None |}.

Definition set_proxy (p : option FioriToolsProxy) (c : UI5Config) : UI5Config :=
  let mw := default noMiddlewares (customMiddleware c) in
  {| customMiddleware := Some {| fioriToolsProxy := p; sapFeMockserver := sapFeMockserver mw |} |}.

Definition set_mockserver (k : option MockServer) (c : UI5Config) : UI5Config :=
  let mw := default noMiddlewares (customMiddleware c) in
  {| customMiddleware := Some {| fioriToolsProxy := fioriToolsProxy mw; sapFeMockserver := k |} |}.

(** Update-or-append of a backend entry, keyed by its path. *)
Fixpoint upsertBackend (b : ProxyBackend) (l : list ProxyBackend) : list ProxyBackend :=
  match l with
  | [] => [b]
  | e :: r => if decide (b_path e = b_path b) then b :: r else e :: upsertBackend b r
  end.

Definition COULD_NOT_FIND_PROXY : string := "Could not find fiori-tools-proxy".

(** Modelled from the spec: [addBackendToFioriToolsProxydMiddleware] of
    [@sap-ux/ui5-config] is missing from the sources.  The backend
    synchroniser: replace the entry of the same path in place or append; an
    absent middleware list is a node-not-found condition of the document
    model, an absent proxy block is reported by message. *)
Definition addBackendToFioriToolsProxydMiddleware (b : ProxyBackend) (c : UI5Config)
    : Error + UI5Config :=
  match customMiddleware c with
  | None => inl (YAMLError "Node not found at path server.customMiddleware" nodeNotFound)
  | Some mw =>
      match fioriToolsProxy mw with
      | None => inl (JsError COULD_NOT_FIND_PROXY)
      | Some p =>
          inr (set_proxy (Some {| p_backend := upsertBackend b (p_backend p);
                                  p_ignoreCertError := p_ignoreCertError p |}) c)
      end
  end.

(** Modelled from the spec: [addFioriToolsProxydMiddleware] of
    [@sap-ux/ui5-config] is missing from the sources.  It creates the proxy
    block with the given backend list. *)
Definition addFioriToolsProxydMiddleware (backend : list ProxyBackend)
    (ignoreCertError : option bool) (c : UI5Config) : UI5Config :=
  set_proxy (Some {| p_backend := backend; p_ignoreCertError := ignoreCertError |}) c.

(** Modelled from the spec: [removeBackendFromFioriToolsProxydMiddleware] of
    [@sap-ux/ui5-config] is missing from the sources.  Every backend entry of
    the given url is deleted; nothing happens without a match or a block. *)
Definition removeBackendFromFioriToolsProxydMiddleware (url : string) (c : UI5Config) : UI5Config :=
  match customMiddleware c with
  | Some mw =>
      match fioriToolsProxy mw with
      | Some p =>
          set_proxy (Some {| p_backend := filter (λ e, b_url e ≠ Some url) (p_backend p);
                             p_ignoreCertError := p_ignoreCertError p |}) c
      | None => c
      end
  | None => c
  end.

(** [findCustomMiddleware('sap-fe-mockserver')]. *)
Definition findMockserverMiddleware (c : UI5Config) : option MockServer :=
  mw ← customMiddleware c; sapFeMockserver mw.

(** [updateCustomMiddleware] for the mock-server block. *)
Definition updateMockserverMiddleware (k : MockServer) (c : UI5Config) : UI5Config :=
  set_mockserver (Some k) c.

(** Modelled from the spec: [removeServiceFromMockServerMiddleware] of
    [@sap-ux/ui5-config] is missing from the sources.  The service entries of
    the given path and the annotation entries of the given url paths are
    deleted; nothing happens without a block. *)
Definition removeServiceFromMockServerMiddleware (path : option string)
    (annotationPaths : list string) (c : UI5Config) : UI5Config :=
  match findMockserverMiddleware c with
  | Some k =>
      set_mockserver
        (Some {| k_services := filter (λ e, Some (servicePath e) ≠ path) (k_services k);
                 k_annotations := filter (λ u, u ∉ annotationPaths) (k_annotations k) |}) c
  | None => c
  end.

Fixpoint upsertService (e : MockService) (l : list MockService) : list MockService :=
  match l with
  | [] => [e]
  | x :: r => if decide (serviceName x = serviceName e) then e :: r else x :: upsertService e r
  end.

(** The mock-server block brought up to date with the data sources of the
    manifest: services keyed by name, annotations keyed by url path. *)
Definition refreshMockserver (ds : list (string * DataSource)) (k : MockServer) : MockServer :=
  {| k_services :=
       fold_left (λ acc e, upsertService {| serviceName := e.1; servicePath := ds_uri e.2 |} acc)
         (filter (λ e, isOData e = true) ds) (k_services k);
     k_annotations :=
       appendAbsent (ds_uri ∘ snd <$> filter (λ e, isOData e = false) ds) (k_annotations k) |}.

(** Modelled from the spec: [generateMockserverConfig] of
    [@sap-ux/mockserver-config-writer] is missing from the sources.  It
    generates or refreshes [ui5-mock.yaml] in the project folder: a mock YAML
    that does not exist yet is derived from the primary YAML of that folder,
    and the mock-server block is filled from the data sources of the
    manifest. *)
Definition generateMockserverConfig (basePath : string) (webappPath : Path) : M unit :=
  fs ← get;
  let mockPath := join (split basePath) ["ui5-mock.yaml"] in
  let primaryPath := join (split basePath) ["ui5.yaml"] in
  base ← (if exists_in fs mockPath then readConfig mockPath
          else if exists_in fs primaryPath then readConfig primaryPath
          else mret emptyConfig);
  let ds := from_option m_dataSources [] (readManifest fs (join webappPath ["manifest.json"])) in
  let k := default {| k_services := []; k_annotations := [] |} (findMockserverMiddleware base) in
  fs_write mockPath (FYaml (updateMockserverMiddleware (refreshMockserver ds k) base)).

(** Modelled from the spec: [updatePackageJson] of [./updates] is missing
    from the sources.  It marks the package as a UI5 application, and as one
    that uses the mock server when metadata is present. *)
Definition updatePackageJson (path : Path) (addMockServer : bool) : M unit :=
  f ← fs_read path;
  match f with
  | FPackage p =>
      fs_write path (FPackage {| ui5Tooling := true;
                                 mockserverDependency := mockserverDependency p || addMockServer |})
  | _ => throw (JsError "package.json is not a JSON document")
  end.

Definition annotationFile (webappPath : Path) (serviceName : string) (a : EdmxAnnotationsInfo) : Path :=
  join webappPath [LOCAL_SERVICE; serviceName; a_technicalName a +:+ ".xml"].

(** Modelled from the spec: [writeAnnotationXmlFiles] of [./updates] is
    missing from the sources.  Every annotation that carries XML is written
    into the folder of its service. *)
Fixpoint writeAnnotationXmlFiles (basePath : string) (serviceName : string)
    (annotations : list EdmxAnnotationsInfo) : M unit :=
  match annotations with
  | [] => mret tt
  | a :: rest =>
      match a_xml a with
      | Some xml => fs_write (annotationFile (getWebappPath basePath) serviceName a) (FText xml)
      | None => mret tt
      end;;
      writeAnnotationXmlFiles basePath serviceName rest
  end.

(** Modelled from the spec: [removeAnnotationXmlFiles] of [./delete] is
    missing from the sources.  The local annotation files of the service are
    deleted where they exist. *)
Fixpoint removeAnnotationXmlFiles (basePath : string) (serviceName : string)
    (annotations : list EdmxAnnotationsInfo) : M unit :=
  match annotations with
  | [] => mret tt
  | a :: rest =>
      fs_delete (annotationFile (getWebappPath basePath) serviceName a);;
      removeAnnotationXmlFiles basePath serviceName rest
  end.

(** Modelled from the spec: [updateCdsFilesWithAnnotations] of [./updates]
    and [removeAnnotationsFromCDSFiles] of [./delete] are missing from the
    sources.  They edit CDS source files, which the specification leaves out
    of scope and which the staged documents modelled here do not include. *)
Definition updateCdsFilesWithAnnotations (annotations : list EdmxAnnotationsInfo) : M unit :=
  mret tt.

Definition removeAnnotationsFromCDSFiles (annotations : list EdmxAnnotationsInfo) : M unit :=
  mret tt.

(** ** [index.ts] *)

Definition hasMessage (error : Error) (message : string) : bool :=
  match error with
  | YAMLError m _ | JsError m => bool_decide (m = message)
  | _ => false
  end.

(** The condition of the [catch] block of [extendBackendMiddleware]. *)
Definition middlewareNotFound (error : Error) : bool :=
  match error with
  | YAMLError _ code => bool_decide (code = nodeNotFound)
  | _ => false
  end
  || hasMessage error COULD_NOT_FIND_PROXY.

Definition previewSettingsOf (service : OdataService) : ProxyBackend :=
  default noPreviewSettings (s_previewSettings service).

Section ExtendBackendMiddleware.
(** The call into the YAML document model inside the [try] block; it
    returns the updated configuration or throws. *)
Variable addBackend : ProxyBackend → UI5Config → Error + UI5Config.

(** [extendBackendMiddleware]; the configuration object is mutated in place
    in the source and returned here. *)
Definition extendBackendMiddlewareVia (service : OdataService) (ui5Config : UI5Config)
    (ui5ConfigPath : Path) : M UI5Config :=
  match addBackend (previewSettingsOf service) ui5Config with
  | inr updated => fs_write ui5ConfigPath (FYaml updated);; mret updated
  | inl error =>
      if middlewareNotFound error
      then
        let created :=
          addFioriToolsProxydMiddleware [previewSettingsOf service]
            (s_ignoreCertError service) ui5Config in
        fs_write ui5ConfigPath (FYaml created);; mret created
      else throw error
  end.
End ExtendBackendMiddleware.

Definition extendBackendMiddleware : OdataService → UI5Config → Path → M UI5Config :=
  extendBackendMiddlewareVia addBackendToFioriToolsProxydMiddleware.

(** [generateMockserverMiddlewareBasedOnUi5MockYaml]; returns the local
    configuration object, updated in place in the source. *)
Definition generateMockserverMiddlewareBasedOnUi5MockYaml (ui5YamlPath : Path)
    (ui5LocalConfigPath : option Path) (ui5LocalConfig : option UI5Config)
    : M (option UI5Config) :=
  let ui5MockYamlPath := join (dirname ui5YamlPath) ["ui5-mock.yaml"] in
  ui5MockYamlConfig ← readConfig ui5MockYamlPath;
  fs ← get;
  match ui5LocalConfigPath, ui5LocalConfig, findMockserverMiddleware ui5MockYamlConfig with
  | Some localPath, Some localConfig, Some mockserverMiddlewareFromUi5Mock =>
      if exists_in fs localPath
      then mret (Some (updateMockserverMiddleware mockserverMiddlewareFromUi5Mock localConfig))
      else mret ui5LocalConfig
  | _, _, _ => mret ui5LocalConfig
  end.

(** [prettifyXml], an external collaborator; the layout of the XML text is
    outside the model. *)
Definition prettifyXml (xml : string) : string := xml.

Definition writeLocalServiceFiles (basePath : string) (webappPath : Path) (templateRoot : Path)
    (service : OdataService) : M unit :=
  fs_write (join webappPath [LOCAL_SERVICE; serviceNameOf service; "metadata.xml"])
    (FText (prettifyXml (default "" (s_metadata service))));;
  match s_localAnnotationsName service with
  | Some localAnnotationsName =>
      fs_write
        (join (split basePath) ["webapp"; "annotations"; localAnnotationsName +:+ ".xml"])
        (FTemplate (join templateRoot ["add"; "annotation.xml"]) service)
  | None => mret tt
  end.

Definition writeEDMXServiceFiles (basePath : string) (paths : ProjectPaths) (templateRoot : Path)
    (service : OdataService) : M unit :=
  configs ← match ui5Yaml paths with
            | Some ui5YamlPath =>
                ui5Config ← readConfig ui5YamlPath;
                ui5Config ← extendBackendMiddleware service ui5Config ui5YamlPath;
                ui5LocalConfig ← match ui5LocalYaml paths with
                                  | Some ui5LocalYamlPath =>
                                      ui5LocalConfig ← readConfig ui5LocalYamlPath;
                                      ui5LocalConfig ← extendBackendMiddleware service ui5LocalConfig
                                                         ui5LocalYamlPath;
                                      mret (Some ui5LocalConfig)
                                  | None => mret None
                                  end;
                mret (Some ui5Config, ui5LocalConfig)
            | None => mret (None, None)
            end;
  ui5LocalConfig ←
    match s_metadata service with
    | Some _ =>
        let webappPath := getWebappPath basePath in
        ui5LocalConfig ←
          match ui5Yaml paths, configs.1 with
          | Some ui5YamlPath, Some _ =>
              generateMockserverConfig basePath webappPath;;
              ui5LocalConfig ← generateMockserverMiddlewareBasedOnUi5MockYaml ui5YamlPath
                                 (ui5LocalYaml paths) configs.2;
              match ui5MockYaml paths with
              | Some ui5MockYamlPath =>
                  ui5MockConfig ← readConfig ui5MockYamlPath;
                  extendBackendMiddleware service ui5MockConfig ui5MockYamlPath;; mret tt
              | None => mret tt
              end;;
              mret ui5LocalConfig
          | _, _ => mret configs.2
          end;
        writeLocalServiceFiles basePath webappPath templateRoot service;;
        mret ui5LocalConfig
    | None => mret configs.2
    end;
  match packageJson paths, ui5Yaml paths with
  | Some packageJsonPath, Some _ =>
      updatePackageJson packageJsonPath (bool_decide (is_Some (s_metadata service)))
  | _, _ => mret tt
  end;;
  match ui5LocalYaml paths, ui5LocalConfig with
  | Some ui5LocalYamlPath, Some localConfig => fs_write ui5LocalYamlPath (FYaml localConfig)
  | _, _ => mret tt
  end;;
  writeAnnotationXmlFiles basePath (serviceNameOf service) (s_annotations service).

Definition templateRoot : Path := ["templates"].

(** [generate]; the editor is the state of the monad, and the descriptor,
    enhanced in place in the source, is the result. *)
Definition generate (basePath : string) (service : OdataService) : M OdataService :=
  fs ← get;
  let paths := findProjectFiles basePath fs in
  ensureExists basePath ["webapp/manifest.json"];;
  service ← enhanceData basePath service;
  let isServiceTypeEdmx := bool_decide (s_type service = Some EDMX) in
  updateManifest basePath service;;
  (if isServiceTypeEdmx then writeEDMXServiceFiles basePath paths templateRoot service
   else if bool_decide (s_annotations service ≠ []) then updateCdsFilesWithAnnotations (s_annotations service)
   else mret tt);;
  mret service.

(** One YAML file of [remove]: read, edit, write back. *)
Definition editConfig (path : option Path) (edit : UI5Config → UI5Config) : M unit :=
  match path with
  | Some p => ui5Config ← readConfig p; fs_write p (FYaml (edit ui5Config))
  | None => mret tt
  end.

Definition remove (basePath : string) (service : OdataService) : M unit :=
  fs ← get;
  let paths := findProjectFiles basePath fs in
  deleteServiceFromManifest basePath (s_name service);;
  let isServiceTypeEdmx := bool_decide (s_type service = Some EDMX) in
  if isServiceTypeEdmx then
    editConfig (ui5Yaml paths) (removeBackendFromFioriToolsProxydMiddleware (s_url service));;
    let serviceAnnotationPaths := getEDMXAnnotationPaths (s_annotations service) in
    editConfig (ui5LocalYaml paths)
      (λ c, removeServiceFromMockServerMiddleware (s_path service) serviceAnnotationPaths
              (removeBackendFromFioriToolsProxydMiddleware (s_url service) c));;
    editConfig (ui5MockYaml paths)
      (λ c, removeServiceFromMockServerMiddleware (s_path service) serviceAnnotationPaths
              (removeBackendFromFioriToolsProxydMiddleware (s_url service) c));;
    removeAnnotationXmlFiles basePath (serviceNameOf service) (s_annotations service)
  else removeAnnotationsFromCDSFiles (s_annotations service).

#[global] Instance EdmxAnnotationsInfo_eq_dec : EqDecision EdmxAnnotationsInfo.
Proof. solve_decision. Defined.
#[global] Instance OdataService_eq_dec : EqDecision OdataService.
Proof. solve_decision. Defined.
#[global] Instance DataSource_eq_dec : EqDecision DataSource.
Proof. solve_decision. Defined.
#[global] Instance Manifest_eq_dec : EqDecision Manifest.
Proof. solve_decision. Defined.
#[global] Instance FioriToolsProxy_eq_dec : EqDecision FioriToolsProxy.
Proof. solve_decision. Defined.
#[global] Instance MockService_eq_dec : EqDecision MockService.
Proof. solve_decision. Defined.
#[global] Instance MockServer_eq_dec : EqDecision MockServer.
Proof. solve_decision. Defined.
#[global] Instance Middlewares_eq_dec : EqDecision Middlewares.
Proof. solve_decision. Defined.
#[global] Instance UI5Config_eq_dec : EqDecision UI5Config.
Proof. solve_decision. Defined.
#[global] Instance PackageJson_eq_dec : EqDecision PackageJson.
Proof. solve_decision. Defined.
#[global] Instance File_eq_dec : EqDecision File.
Proof. solve_decision. Defined.
#[global] Instance Error_eq_dec : EqDecision Error.
Proof. solve_decision. Defined.

(** ** The upward search as the specification words it

    Walking upward from the base path, the closest level that holds the file
    wins, for each file on its own. *)
Fixpoint closestLevel (fs : Editor) (rparts : list string) (name : string) : option Path :=
  match rparts with
  | [] => None
  | _ :: rest =>
      if exists_in fs (join (rev rparts) [name]) then Some (join (rev rparts) [name])
      else closestLevel fs rest name
  end.

(** A descriptor as the unit tests build it: url, path and metadata. *)
Definition edmxService (name : option string) (url path : string) (metadata : option string)
    : OdataService :=
  {| s_name := name; s_url := url; s_path := Some path; s_client := None; s_version := v2;
     s_model := None; s_metadata := metadata; s_annotations := [];
     s_localAnnotationsName := None; s_destination := None; s_previewSettings := None;
     s_ignoreCertError := None; s_type := Some EDMX |}.

Definition appManifest (ds : list (string * DataSource)) : Manifest :=
  {| m_id := Some "testappid"; m_dataSources := ds; m_models := [] |}.

(** A computation preserves a path when it leaves the file there as it is,
    whatever its outcome. *)
Definition preserves {A} (p : Path) (c : M A) : Prop :=
  ∀ fs, (c fs).1 !! p = fs !! p.

(** A file found at a level of the base path: it carries the name searched
    for, and its path is no longer than the path of the [webapp] folder. *)
Definition atLevel (basePath : string) (name : string) (p : Path) : Prop :=
  last p = Some name ∧ (List.length p ≤ List.length (getWebappPath basePath))%nat.

(** The editor after the file moves of the migration, when one is due. *)
Definition migratedEditor (basePath : string) (s : OdataService) (manifest : Manifest)
    (fs : Editor) : Editor :=
  match loneFlatService (m_dataSources manifest) (serviceNameOf s) with
  | Some (k, d) =>
      fold_left (moveIntoNamespace (getWebappPath basePath) k)
        (migratedFiles k d (m_dataSources manifest)) fs
  | None => fs
  end.

(** ** The blocks of [writeEDMXServiceFiles]

    The three parts of the function body, named for the proofs: the backend
    updates of [ui5.yaml] and [ui5-local.yaml], the block guarded by
    [service.metadata], and the closing writes. *)
Definition backendStep (paths : ProjectPaths) (service : OdataService)
    : M (option UI5Config * option UI5Config) :=
  match ui5Yaml paths with
  | Some ui5YamlPath =>
      ui5Config ← readConfig ui5YamlPath;
      ui5Config ← extendBackendMiddleware service ui5Config ui5YamlPath;
      ui5LocalConfig ← match ui5LocalYaml paths with
                        | Some ui5LocalYamlPath =>
                            ui5LocalConfig ← readConfig ui5LocalYamlPath;
                            ui5LocalConfig ← extendBackendMiddleware service ui5LocalConfig
                                               ui5LocalYamlPath;
                            mret (Some ui5LocalConfig)
                        | None => mret None
                        end;
      mret (Some ui5Config, ui5LocalConfig)
  | None => mret (None, None)
  end.

Definition mockserverStep (basePath : string) (paths : ProjectPaths)
    (configs : option UI5Config * option UI5Config) (service : OdataService)
    : M (option UI5Config) :=
  match ui5Yaml paths, configs.1 with
  | Some ui5YamlPath, Some _ =>
      generateMockserverConfig basePath (getWebappPath basePath);;
      ui5LocalConfig ← generateMockserverMiddlewareBasedOnUi5MockYaml ui5YamlPath
                         (ui5LocalYaml paths) configs.2;
      match ui5MockYaml paths with
      | Some ui5MockYamlPath =>
          ui5MockConfig ← readConfig ui5MockYamlPath;
          extendBackendMiddleware service ui5MockConfig ui5MockYamlPath;; mret tt
      | None => mret tt
      end;;
      mret ui5LocalConfig
  | _, _ => mret configs.2
  end.

Definition closingWrites (basePath : string) (paths : ProjectPaths) (service : OdataService)
    (ui5LocalConfig : option UI5Config) : M unit :=
  match packageJson paths, ui5Yaml paths with
  | Some packageJsonPath, Some _ =>
      updatePackageJson packageJsonPath (bool_decide (is_Some (s_metadata service)))
  | _, _ => mret tt
  end;;
  match ui5LocalYaml paths, ui5LocalConfig with
  | Some ui5LocalYamlPath, Some localConfig => fs_write ui5LocalYamlPath (FYaml localConfig)
  | _, _ => mret tt
  end;;
  writeAnnotationXmlFiles basePath (serviceNameOf service) (s_annotations service).

(** The configuration that [extendBackendMiddleware] writes. *)
Definition extended (s : OdataService) (c : UI5Config) : UI5Config :=
  match addBackendToFioriToolsProxydMiddleware (previewSettingsOf s) c with
  | inr updated => updated
  | inl _ => addFioriToolsProxydMiddleware [previewSettingsOf s] (s_ignoreCertError s) c
  end.

Definition backendsOf (c : UI5Config) : list ProxyBackend :=
  from_option p_backend [] (customMiddleware c ≫= fioriToolsProxy).

(** ** Specifications of computations

    [hoare P c Q E]: from an editor that satisfies [P], the computation [c]
    ends in an editor that satisfies [Q] with its result, or throws in an
    editor that satisfies [E]. *)
Definition hoare {A : Type} (P : Editor → Prop) (c : M A) (Q : A → Editor → Prop)
    (E : Editor → Prop) : Prop :=
  ∀ fs, P fs → match c fs with
               | (fs', inr x) => Q x fs'
               | (fs', inl _) => E fs'
               end.

(** The four located files lie at levels of the base path. *)
Definition levelPaths (basePath : string) (paths : ProjectPaths) : Prop :=
  (∀ p, packageJson paths = Some p → atLevel basePath "package.json" p)
  ∧ (∀ p, ui5Yaml paths = Some p → atLevel basePath "ui5.yaml" p)
  ∧ (∀ p, ui5LocalYaml paths = Some p → atLevel basePath "ui5-local.yaml" p)
  ∧ (∀ p, ui5MockYaml paths = Some p → atLevel basePath "ui5-mock.yaml" p).

(** The editor that the merger leaves to the rest of [generate]. *)
Definition mergedEditor (basePath : string) (s : OdataService) (manifest : Manifest)
    (fs : Editor) : Editor :=
  <[manifestPath basePath := FManifest (mergeManifest s manifest)]>
    (migratedEditor basePath s manifest fs).

(** A file that holds a YAML document with a mock-server block. *)
Definition hasMockserver (o : option File) : Prop :=
  ∃ c, o = Some (FYaml c) ∧ is_Some (findMockserverMiddleware c).

(** The project of the unit tests "different valid input": a manifest with an
    application id, a [ui5.yaml] and a [ui5-local.yaml] without middleware,
    and a [package.json], all in [/tmp]. *)
Definition testProject : Editor :=
  <[ ["";"tmp";"ui5.yaml"] := FYaml emptyConfig ]>
  (<[ ["";"tmp";"ui5-local.yaml"] := FYaml emptyConfig ]>
   (<[ ["";"tmp";"package.json"] := FPackage {| ui5Tooling := false; mockserverDependency := false |} ]>
    {[ ["";"tmp";"webapp";"manifest.json"] := FManifest (appManifest []) ]})).

(** The service of the unit test "Valid service with neither metadata nor
    annotations". *)
Definition northwind : OdataService :=
  edmxService None "https://services.odata.org" "/V2/Northwind/Northwind.svc" None.

Definition northwindBackend : ProxyBackend :=
  {| b_path := Some "/V2"; b_url := Some "https://services.odata.org"; b_client := None;
     b_destination := None; b_apiHub := None; b_scp := None; b_pathPrefix := None |}.

Definition proxyOnly (backend : list ProxyBackend) : UI5Config :=
  {| customMiddleware :=
       Some {| fioriToolsProxy := Some {| p_backend := backend; p_ignoreCertError := None |};
               sapFeMockserver := None |} |}.

(** The project of the unit tests of [remove]: the three YAML files carry one
    backend, the mock-server files one service and one annotation, and the
    manifest the service [mainService] with two annotations. *)
Definition sepmraAnnotationPath : string := annotationPath "SEPMRA_PROD_MAN".

Definition localhostProxy : option FioriToolsProxy :=
  Some {| p_backend := [ {| b_path := Some "/sap"; b_url := Some "https://localhost";
                            b_client := None; b_destination := None; b_apiHub := None;
                            b_scp := None; b_pathPrefix := None |} ];
          p_ignoreCertError := None |}.

Definition mainMockserver : option MockServer :=
  Some {| k_services := [ {| serviceName := "mainService"; servicePath := "/sap" |} ];
          k_annotations := [sepmraAnnotationPath] |}.

Definition removeManifest : Manifest :=
  {| m_id := Some "testappid";
     m_dataSources :=
       [ ("mainService",
          {| ds_uri := "/sap"; ds_type := OData; ds_localUri := Some ["annotations"; "annotation.xml"];
             ds_annotations := ["SEPMRA_PROD_MAN"; "annotation"]; ds_odataVersion := None |});
         ("SEPMRA_PROD_MAN",
          {| ds_uri := sepmraAnnotationPath; ds_type := ODataAnnotation;
             ds_localUri := Some ["localService"; "SEPMRA_PROD_MAN.xml"];
             ds_annotations := []; ds_odataVersion := None |});
         ("annotation",
          {| ds_uri := "annotations/annotation.xml"; ds_type := ODataAnnotation;
             ds_localUri := Some ["annotations"; "annotation.xml"];
             ds_annotations := []; ds_odataVersion := None |}) ];
     m_models := [("", Some "mainService")] |}.

Definition removeProject : Editor :=
  <[ ["";"tmp";"ui5.yaml"]
     := FYaml {| customMiddleware :=
                   Some {| fioriToolsProxy := localhostProxy; sapFeMockserver := None |} |} ]>
  (<[ ["";"tmp";"ui5-local.yaml"]
      := FYaml {| customMiddleware :=
                    Some {| fioriToolsProxy := localhostProxy;
                            sapFeMockserver := mainMockserver |} |} ]>
   (<[ ["";"tmp";"ui5-mock.yaml"]
       := FYaml {| customMiddleware :=
                     Some {| fioriToolsProxy := localhostProxy;
                             sapFeMockserver := mainMockserver |} |} ]>
    (<[ ["";"tmp";"package.json"]
        := FPackage {| ui5Tooling := false; mockserverDependency := false |} ]>
     {[ ["";"tmp";"webapp";"manifest.json"] := FManifest removeManifest ]}))).

(** The descriptor of an unknown service, as in the unit test "Try to remove
    an unexisting service", with the url given. *)
Definition dummyService (url : string) : OdataService :=
  {| s_name := Some "dummyService"; s_url := url; s_path := Some "/dummyPath";
     s_client := None; s_version := v2; s_model := None; s_metadata := None;
     s_annotations := [ {| a_name := None; a_technicalName := "dummy-technical-name";
                           a_xml := None |} ];
     s_localAnnotationsName := None; s_destination := None; s_previewSettings := None;
     s_ignoreCertError := None; s_type := Some EDMX |}.

(** No entry of the YAML document matches the descriptor: no backend has its
    url, no mock service its path, no mock annotation one of its annotation
    paths. *)
Definition backendFree (s : OdataService) (c : UI5Config) : Prop :=
  Forall (λ e, b_url e ≠ Some (s_url s)) (backendsOf c).

Definition mockFree (s : OdataService) (c : UI5Config) : Prop :=
  ∀ k, findMockserverMiddleware c = Some k →
       Forall (λ e, Some (servicePath e) ≠ s_path s) (k_services k)
       ∧ Forall (λ u, u ∉ getEDMXAnnotationPaths (s_annotations s)) (k_annotations k).

(** The name of the descriptor is no key of the data-source table. *)
Definition unknownService (basePath : string) (s : OdataService) (fs : Editor) : Prop :=
  ∀ manifest name, fs !! manifestPath basePath = Some (FManifest manifest) →
                   s_name s = Some name → lookupKey name (m_dataSources manifest) = None.

(** The project of the unit test "Existing services - files are restructurized
    and updated": one service in flat layout with one annotation. *)
Definition flatManifest : Manifest :=
  appManifest
    [ ("mainService",
       {| ds_uri := "/sap/opu/odata/sap/SEPMRA_PROD_MAN/"; ds_type := OData;
          ds_localUri := Some ["localService"; "metadata.xml"];
          ds_annotations := ["SEPMRA_PROD_MAN"]; ds_odataVersion := None |});
      ("SEPMRA_PROD_MAN",
       {| ds_uri := sepmraAnnotationPath; ds_type := ODataAnnotation;
          ds_localUri := Some ["localService"; "SEPMRA_PROD_MAN.xml"];
          ds_annotations := []; ds_odataVersion := None |}) ].

Definition flatProject : Editor :=
  <[ ["";"tmp";"nested";"webapp";"localService";"metadata.xml"] := FText "" ]>
  (<[ ["";"tmp";"nested";"webapp";"localService";"SEPMRA_PROD_MAN.xml"] := FText "" ]>
   (<[ ["";"tmp";"nested";"package.json"]
       := FPackage {| ui5Tooling := false; mockserverDependency := false |} ]>
    {[ ["";"tmp";"nested";"webapp";"manifest.json"] := FManifest flatManifest ]})).

Definition secondService : OdataService :=
  edmxService (Some "secondService") "http://localhost" "/sap/odata/testme" (Some "<XML />").

(** The invariant of the data-source table: every annotation that a data
    source lists has an entry of its own. *)
Definition referencesResolved (ds : list (string * DataSource)) : Prop :=
  Forall (λ e, Forall (λ a, is_Some (lookupKey a ds)) (ds_annotations e.2)) ds.

(** A manifest that held a service before [generate] overwrote it. *)
Definition oldManifest : Manifest :=
  {| m_id := Some "testappid";
     m_dataSources :=
       [ ("mainService",
          {| ds_uri := "/old/"; ds_type := OData;
             ds_localUri := Some ["localService"; "mainService"; "metadata.xml"];
             ds_annotations := []; ds_odataVersion := Some v2 |}) ];
     m_models := [("", Some "mainService")] |}.

Definition oldProject : Editor :=
  {[ ["";"tmp";"webapp";"manifest.json"] := FManifest oldManifest ]}.

(** The service of the unit test "Valid OData V2 service": metadata and one
    annotation. *)
Definition annotatedService : OdataService :=
  set_annotations
    [ {| a_name := None; a_technicalName := "TEST_ME"; a_xml := Some "<HELLO WORLD />" |} ]
    (edmxService None "http://localhost" "/sap/odata/testme" (Some "<HELLO WORLD />")).

(** Update-or-append keyed by [key], the pattern behind [upsert],
    [upsertBackend] and [upsertService]. *)
Fixpoint upsertBy {E K : Type} `{EqDecision K} (key : E → K) (e : E) (l : list E) : list E :=
  match l with
  | [] => [e]
  | x :: r => if decide (key x = key e) then e :: r else x :: upsertBy key e r
  end.

(** ** A second call of [generate]

    The documents that the first call leaves and a second call must keep:
    the manifest, and the package and YAML files at the levels of the base
    path. *)
Definition configNames : list string :=
  ["package.json"; "ui5.yaml"; "ui5-local.yaml"; "ui5-mock.yaml"].

Definition document (basePath : string) (p : Path) : Prop :=
  p = manifestPath basePath ∨ ∃ name, name ∈ configNames ∧ atLevel basePath name p.

(** Two editors hold the same documents. *)
Definition agree (basePath : string) (fs1 fs2 : Editor) : Prop :=
  ∀ p, document basePath p → fs2 !! p = fs1 !! p.

(** The mock YAML that [generateMockserverMiddlewareBasedOnUi5MockYaml] reads:
    the one next to the located [ui5.yaml]. *)
Definition mockYamlOf (ui5YamlPath : Path) : Path := join (dirname ui5YamlPath) ["ui5-mock.yaml"].

(** The local configuration carries the mock-server block of the mock YAML
    next to [ui5.yaml]. *)
Definition blockTaken (fs : Editor) (y : Path) (c : UI5Config) : Prop :=
  ∀ mockConfig k, fs !! mockYamlOf y = Some (FYaml mockConfig) →
                  findMockserverMiddleware mockConfig = Some k →
                  findMockserverMiddleware c = Some k.

(** The mock YAML of the project folder holds the backend entry and the
    mock-server block that the data sources give. *)
Definition mockHeld (basePath : string) (s : OdataService) (ds : list (string * DataSource))
    (fs : Editor) : Prop :=
  ∃ c k, fs !! join (split basePath) ["ui5-mock.yaml"] = Some (FYaml c) ∧ extended s c = c
         ∧ findMockserverMiddleware c = Some k
         ∧ refreshMockserver ds k = k.

(** The package is marked as a UI5 application, and with metadata as one
    that uses the mock server. *)
Definition marked (s : OdataService) (fs : Editor) (packageJsonPath : Path) : Prop :=
  ∃ p, fs !! packageJsonPath = Some (FPackage p) ∧ ui5Tooling p = true
       ∧ (is_Some (s_metadata s) → mockserverDependency p = true).

(** The configuration files hold the service: its backend entry is in the
    located [ui5.yaml] and [ui5-local.yaml], the local YAML carries the
    mock-server block of the mock YAML next to [ui5.yaml], with metadata the
    mock YAML of the project folder is up to date, and the package is
    marked. *)
Definition written (basePath : string) (s : OdataService) (paths : ProjectPaths)
    (ds : list (string * DataSource)) (fs : Editor) : Prop :=
  (∀ y, ui5Yaml paths = Some y → ∃ c, fs !! y = Some (FYaml c) ∧ extended s c = c)
  ∧ (∀ y l, ui5Yaml paths = Some y → ui5LocalYaml paths = Some l →
       ∃ c, fs !! l = Some (FYaml c) ∧ extended s c = c
            ∧ (is_Some (s_metadata s) → blockTaken fs y c))
  ∧ (∀ y, ui5Yaml paths = Some y → is_Some (s_metadata s) →
       mockHeld basePath s ds fs ∧ ∃ c, fs !! mockYamlOf y = Some (FYaml c))
  ∧ (∀ y pkg, ui5Yaml paths = Some y → packageJson paths = Some pkg → marked s fs pkg).

(** In addition the mock YAML of the project folder is the closest one. *)
Definition inPlace (basePath : string) (s : OdataService) (paths : ProjectPaths)
    (ds : list (string * DataSource)) (fs : Editor) : Prop :=
  written basePath s paths ds fs
  ∧ (∀ y, ui5Yaml paths = Some y → is_Some (s_metadata s) →
       ui5MockYaml paths = Some (join (split basePath) ["ui5-mock.yaml"])).

(** A project in which the service is in place: the descriptor carries its
    defaults, the manifest holds its entries, and so do the YAML files. *)
Definition settled (basePath : string) (s : OdataService) (fs : Editor) : Prop :=
  ∃ m, fs !! manifestPath basePath = Some (FManifest m) ∧ is_Some (m_id m)
    ∧ enhance (m_dataSources m) (m_models m) s = s
    ∧ mergeManifest s m = m
    ∧ loneFlatService (m_dataSources m) (serviceNameOf s) = None
    ∧ inPlace basePath s (findProjectFiles basePath fs) (m_dataSources m) fs.

(** The local configuration on its way to the closing write is the one that
    [ui5-local.yaml] holds already. *)
Definition pending (paths : ProjectPaths) (fs : Editor) (o : option UI5Config) : Prop :=
  ∀ l c, ui5LocalYaml paths = Some l → o = Some c → fs !! l = Some (FYaml c).

(** The configuration that [generateMockserverConfig] starts from. *)
Definition mockBase (basePath : string) (fs : Editor) (base : UI5Config) : Prop :=
  let mockPath := join (split basePath) ["ui5-mock.yaml"] in
  let primaryPath := join (split basePath) ["ui5.yaml"] in
  fs !! mockPath = Some (FYaml base)
  ∨ (fs !! mockPath = None ∧ fs !! primaryPath = Some (FYaml base))
  ∨ (fs !! mockPath = None ∧ fs !! primaryPath = None ∧ base = emptyConfig).

Definition refreshed (basePath : string) (fs : Editor) (base : UI5Config) : UI5Config :=
  updateMockserverMiddleware
    (refreshMockserver (dataSourcesOf fs basePath)
       (default {| k_services := []; k_annotations := [] |} (findMockserverMiddleware base)))
    base.

(** The result of [generateMockserverMiddlewareBasedOnUi5MockYaml] for the
    mock configuration it has read. *)
Definition localFromMock (fs : Editor) (l : option Path) (c : option UI5Config)
    (mockConfig : UI5Config) : option UI5Config :=
  match l, c, findMockserverMiddleware mockConfig with
  | Some localPath, Some localConfig, Some k =>
      if exists_in fs localPath then Some (updateMockserverMiddleware k localConfig) else c
  | _, _, _ => c
  end.

(** What is known before the closing writes of [writeEDMXServiceFiles]: the
    located [ui5.yaml] and, with metadata, the mock YAML of the project folder
    are as they will stay, and the local configuration about to be written
    carries the backend entry and the mock-server block. *)
Definition beforeClosing (basePath : string) (s : OdataService) (paths : ProjectPaths)
    (ds : list (string * DataSource)) (y : Path) (fs : Editor) (o : option UI5Config) : Prop :=
  (∃ c, fs !! y = Some (FYaml c) ∧ extended s c = c)
  ∧ (is_Some (s_metadata s) →
       mockHeld basePath s ds fs ∧ ∃ c, fs !! mockYamlOf y = Some (FYaml c))
  ∧ (∀ l, ui5LocalYaml paths = Some l →
       ∃ x, o = Some x ∧ extended s x = x ∧ (is_Some (s_metadata s) → blockTaken fs y x)).

(** What the first call needs of the editor that the merger leaves: the
    merged manifest, and no mock YAML in the project folder unless it is the
    located one. *)
Definition merged (basePath : string) (paths : ProjectPaths) (m : Manifest) (fs : Editor) : Prop :=
  fs !! manifestPath basePath = Some (FManifest m)
  ∧ (ui5MockYaml paths ≠ Some (join (split basePath) ["ui5-mock.yaml"]) →
     fs !! join (split basePath) ["ui5-mock.yaml"] = None).

(** The service of the unit test "Valid OData V2 service" without its
    annotation: metadata only. *)
Definition metadataService : OdataService :=
  edmxService None "http://localhost" "/sap/odata/testme" (Some "<HELLO WORLD />").

(** A project nested in a folder that holds the YAML files: [ui5.yaml] and
    [ui5-mock.yaml] lie one level above the base path [/p/app]. *)
Definition nestedProject : Editor :=
  <[ ["";"p";"ui5.yaml"] := FYaml emptyConfig ]>
  (<[ ["";"p";"ui5-mock.yaml"] := FYaml emptyConfig ]>
   {[ ["";"p";"app";"webapp";"manifest.json"] := FManifest (appManifest []) ]}).

(** ** The located file of a given name *)
Definition fileNamed (name : string) (paths : ProjectPaths) : option Path :=
  if decide (name = "package.json") then packageJson paths
  else if decide (name = "ui5.yaml") then ui5Yaml paths
  else if decide (name = "ui5-local.yaml") then ui5LocalYaml paths
  else if decide (name = "ui5-mock.yaml") then ui5MockYaml paths
  else None.

(** * Properties *)

(** ** The monad *)

Lemma run_bind {A B} (c : M A) (f : A → M B) (fs : Editor) :
  (c ≫= f) fs = match c fs with
                | (fs', inr x) => f x fs'
                | (fs', inl e) => (fs', inl e)
                end.
Proof. reflexivity. Qed.

Lemma run_bind_inr {A B} (c : M A) (f : A → M B) (fs fs' : Editor) (x : A) :
  c fs = (fs', inr x) → (c ≫= f) fs = f x fs'.
Proof. intros H. rewrite run_bind, H. reflexivity. Qed.

Lemma run_bind_inl {A B} (c : M A) (f : A → M B) (fs fs' : Editor) (e : Error) :
  c fs = (fs', inl e) → (c ≫= f) fs = (fs', inl e).
Proof. intros H. rewrite run_bind, H. reflexivity. Qed.

Lemma preserves_ret {A} p (x : A) : preserves p (mret x).
Proof. intros fs. reflexivity. Qed.

Lemma preserves_throw {A} p e : preserves p (@throw A e).
Proof. intros fs. reflexivity. Qed.

Lemma preserves_get p : preserves p get.
Proof. intros fs. reflexivity. Qed.

Lemma preserves_bind {A B} p (c : M A) (f : A → M B) :
  preserves p c → (∀ x, preserves p (f x)) → preserves p (c ≫= f).
Proof.
  intros Hc Hf fs. rewrite run_bind. specialize (Hc fs).
  destruct (c fs) as [fs1 [e|x]]; simpl in *; [done|].
  rewrite Hf. done.
Qed.

Lemma preserves_write p q f : q ≠ p → preserves p (fs_write q f).
Proof. intros Hne fs. unfold fs_write, modify. simpl. by rewrite lookup_insert_ne. Qed.

Lemma preserves_delete p q : q ≠ p → preserves p (fs_delete q).
Proof. intros Hne fs. unfold fs_delete, modify. simpl. by rewrite lookup_delete_ne. Qed.

Lemma preserves_read p q : preserves p (fs_read q).
Proof. intros fs. unfold fs_read. by destruct (fs !! q). Qed.

Lemma preserves_exists p q : preserves p (fs_exists q).
Proof. intros fs. reflexivity. Qed.

Lemma preserves_readConfig p q : preserves p (readConfig q).
Proof.
  apply preserves_bind; [apply preserves_read|].
  intros []; first [apply preserves_ret | apply preserves_throw].
Qed.

(** ** Paths *)

Lemma last_join (dir : Path) (names : list string) :
  names ≠ [] → last (join dir names) = last names.
Proof.
  intros Hn. destruct names as [|n names _] using rev_ind; [done|].
  rewrite last_snoc. unfold join. case_decide; [by rewrite last_snoc|].
  by rewrite app_assoc, last_snoc.
Qed.

Lemma split_not_nil (s : string) : split s ≠ [].
Proof.
  induction s as [|c r IH]; simpl; [done|].
  destruct (Ascii.eqb c sep); [done|]. by destruct (split r).
Qed.

Lemma join_not_root (dir : Path) (a : string) :
  a ≠ "" → ¬ (join dir [a] = [] ∨ join dir [a] = [""]).
Proof.
  intros Ha. unfold join. case_decide.
  - intros [|]; congruence.
  - destruct dir as [|d1 [|d2 dir]]; simpl.
    + destruct H. by left.
    + intros [|]; congruence.
    + intros [|]; [congruence|]. by destruct dir.
Qed.

Lemma join_named (dir : Path) (a : string) (names : list string) :
  a ≠ "" → join (join dir [a]) names = join dir (a :: names).
Proof.
  intros Ha. pose proof (join_not_root dir a Ha) as Hn.
  unfold join at 1. case_decide; [done|].
  unfold join. case_decide; [done|]. by rewrite <- app_assoc.
Qed.

Lemma webapp_join (basePath : string) (names : list string) :
  join (getWebappPath basePath) names = getWebappPath basePath ++ names.
Proof.
  pose proof (join_not_root (split basePath) "webapp") as Hn.
  unfold join at 1. case_decide; [|done]. by destruct Hn.
Qed.

Lemma manifestPath_webapp (basePath : string) :
  manifestPath basePath = getWebappPath basePath ++ ["manifest.json"].
Proof. apply webapp_join. Qed.

Lemma manifestPath_join (basePath : string) :
  manifestPath basePath = join (split basePath) ["webapp"; "manifest.json"].
Proof. unfold manifestPath, getWebappPath. by apply join_named. Qed.

Lemma length_join_level (parts dir : Path) (name : string) :
  parts ≠ [] → parts `prefix_of` dir →
  (List.length (join parts [name]) ≤ List.length (join dir ["webapp"]))%nat.
Proof.
  intros Hne [k ->]. unfold join. repeat case_decide; simpl; rewrite ?length_app; simpl.
  all: try (destruct parts; [done|]; simpl; lia).
  all: try lia.
  exfalso. destruct H0 as [H0|H0]; [by destruct parts|].
  destruct parts as [|p1 [|p2 parts]]; [done| |done].
  injection H0 as -> _. apply H. by right.
Qed.

(** ** The upward search *)

Lemma orElse_locate (fs : Editor) (parts : Path) (rest : list string) (name : string)
    (known : option Path) (a : string) :
  parts = rev (a :: rest) →
  orElse (locate fs parts name known) (closestLevel fs rest name)
  = orElse known (closestLevel fs (a :: rest) name).
Proof.
  intros ->. unfold locate. destruct known as [p|]; [done|]. simpl.
  by destruct (exists_in fs (join (rev rest ++ [a]) [name])).
Qed.

Lemma findLoop_closest (fs : Editor) (rparts : list string) (files : ProjectPaths) :
  packageJson (findLoop fs rparts files)
    = orElse (packageJson files) (closestLevel fs rparts "package.json")
  ∧ ui5Yaml (findLoop fs rparts files)
    = orElse (ui5Yaml files) (closestLevel fs rparts "ui5.yaml")
  ∧ ui5LocalYaml (findLoop fs rparts files)
    = orElse (ui5LocalYaml files) (closestLevel fs rparts "ui5-local.yaml")
  ∧ ui5MockYaml (findLoop fs rparts files)
    = orElse (ui5MockYaml files) (closestLevel fs rparts "ui5-mock.yaml").
Proof.
  revert files. induction rparts as [|a rest IH]; intros files.
  - simpl. by destruct files as [[] [] [] []].
  - cbn [findLoop]. destruct (allFound files) eqn:Hall.
    + destruct files as [[] [] [] []]; done.
    + destruct (IH {| packageJson := locate fs (rev (a :: rest)) "package.json" (packageJson files);
                      ui5Yaml := locate fs (rev (a :: rest)) "ui5.yaml" (ui5Yaml files);
                      ui5LocalYaml := locate fs (rev (a :: rest)) "ui5-local.yaml" (ui5LocalYaml files);
                      ui5MockYaml := locate fs (rev (a :: rest)) "ui5-mock.yaml" (ui5MockYaml files) |})
        as (H1 & H2 & H3 & H4).
      cbn [packageJson ui5Yaml ui5LocalYaml ui5MockYaml] in *.
      rewrite H1, H2, H3, H4. by rewrite !(orElse_locate _ _ _ _ _ a).
Qed.

Lemma findProjectFiles_closest (basePath : string) (fs : Editor) :
  let levels := rev (split basePath) in
  findProjectFiles basePath fs =
    {| packageJson := closestLevel fs levels "package.json";
       ui5Yaml := closestLevel fs levels "ui5.yaml";
       ui5LocalYaml := closestLevel fs levels "ui5-local.yaml";
       ui5MockYaml := closestLevel fs levels "ui5-mock.yaml" |}.
Proof.
  intros levels. unfold findProjectFiles. fold levels.
  destruct (findLoop_closest fs levels noPaths) as (H1 & H2 & H3 & H4).
  destruct (findLoop fs levels noPaths). simpl in *. by subst.
Qed.

(** What a located file is: it exists, it carries the name searched for, and
    it lies at a level of the base path, so that its path is no longer than
    the path of the [webapp] folder. *)
Lemma closestLevel_Some (fs : Editor) (dir : Path) (rparts : list string) (name : string) (p : Path) :
  rparts `suffix_of` rev dir →
  closestLevel fs rparts name = Some p →
  is_Some (fs !! p) ∧ last p = Some name
  ∧ (List.length p ≤ List.length (join dir ["webapp"]))%nat.
Proof.
  induction rparts as [|a rest IH]; intros Hsuf Hc; [done|].
  simpl in Hc. destruct (exists_in fs (join (rev rest ++ [a]) [name])) eqn:He.
  - injection Hc as <-. split; [|split].
    + unfold exists_in in He. by apply bool_decide_eq_true in He.
    + by rewrite last_join.
    + apply length_join_level; [by destruct (rev rest)|].
      destruct Hsuf as [k Hk]. exists (rev k).
      rewrite <- (rev_involutive dir), Hk, rev_app_distr. done.
  - apply IH; [|done]. destruct Hsuf as [k Hk]. exists (k ++ [a]). by rewrite <- app_assoc.
Qed.

Lemma closestLevel_None (fs : Editor) (rparts : list string) (name : string) :
  closestLevel fs rparts name = None →
  ∀ rest, rest ≠ [] → rest `suffix_of` rparts → fs !! join (rev rest) [name] = None.
Proof.
  induction rparts as [|a rparts IH]; intros Hc rest Hne Hsuf.
  - apply suffix_nil_inv in Hsuf. done.
  - simpl in Hc. destruct (exists_in fs (join (rev rparts ++ [a]) [name])) eqn:He; [done|].
    destruct rest as [|r rest]; [done|].
    apply suffix_cons_inv in Hsuf as [Heq|Hsuf].
    + injection Heq as -> ->. unfold exists_in in He. apply bool_decide_eq_false in He.
      simpl. by apply eq_None_not_Some.
    + by apply IH.
Qed.

(** ** The required manifest *)

Lemma ensureExists_manifest (basePath : string) (fs : Editor) :
  ensureExists basePath ["webapp/manifest.json"] fs =
    if exists_in fs (manifestPath basePath) then (fs, inr tt)
    else (fs, inl (RequiredProjectFileNotFound "webapp/manifest.json")).
Proof.
  rewrite manifestPath_join. unfold ensureExists. rewrite run_bind.
  change (split "webapp/manifest.json") with ["webapp"; "manifest.json"].
  unfold fs_exists, exists_in.
  by destruct (bool_decide (is_Some (fs !! join (split basePath) ["webapp"; "manifest.json"]))).
Qed.

Lemma generate_without_manifest (basePath : string) (service : OdataService) (fs : Editor) :
  fs !! manifestPath basePath = None →
  generate basePath service fs = (fs, inl (RequiredProjectFileNotFound "webapp/manifest.json")).
Proof.
  intros Hm. unfold generate. rewrite run_bind. unfold get. cbv beta iota zeta.
  rewrite run_bind, ensureExists_manifest. unfold exists_in. rewrite Hm.
  rewrite bool_decide_eq_false_2; [done|]. by intros [? ?].
Qed.

Lemma generate_with_manifest (basePath : string) (service : OdataService) (fs : Editor) :
  is_Some (fs !! manifestPath basePath) →
  generate basePath service fs =
    (let service := enhance (dataSourcesOf fs basePath) (modelsOf fs basePath) service in
     updateManifest basePath service;;
     (if bool_decide (s_type service = Some EDMX)
      then writeEDMXServiceFiles basePath (findProjectFiles basePath fs) templateRoot service
      else if bool_decide (s_annotations service ≠ [])
           then updateCdsFilesWithAnnotations (s_annotations service)
           else mret tt);;
     mret service) fs.
Proof.
  intros Hm. unfold generate. rewrite run_bind. unfold get. cbv beta iota zeta.
  rewrite run_bind, ensureExists_manifest. unfold exists_in.
  rewrite bool_decide_eq_true_2; [|done]. reflexivity.
Qed.

Lemma updateManifest_without_id (basePath : string) (service : OdataService) (fs : Editor)
    (manifest : Manifest) :
  fs !! manifestPath basePath = Some (FManifest manifest) → m_id manifest = None →
  updateManifest basePath service fs =
    (fs, inl (RequiredProjectPropertyNotFound "'sap.app'.id" (manifestPath basePath))).
Proof.
  intros Hm Hid. unfold updateManifest. rewrite run_bind. unfold get. cbv beta iota zeta.
  by rewrite Hm, Hid.
Qed.

(** C1: [generate] throws the required-project-file error when
    [webapp/manifest.json] does not exist, and the required-project-property
    error when the manifest exists without [sap.app.id]; in both cases the
    staged file system is the one the call started with. *)
Theorem generate_required_file_and_property (basePath : string) (service : OdataService)
    (fs : Editor) :
  (fs !! manifestPath basePath = None →
   generate basePath service fs
   = (fs, inl (RequiredProjectFileNotFound "webapp/manifest.json")))
  ∧ (∀ manifest, fs !! manifestPath basePath = Some (FManifest manifest) →
       m_id manifest = None →
       generate basePath service fs
       = (fs, inl (RequiredProjectPropertyNotFound "'sap.app'.id" (manifestPath basePath)))).
Proof.
  split.
  - apply generate_without_manifest.
  - intros manifest Hm Hid. rewrite generate_with_manifest by (by rewrite Hm).
    cbv zeta. rewrite run_bind.
    by rewrite (updateManifest_without_id _ _ _ manifest Hm Hid).
Qed.

Lemma generate_required_file_and_property_witness :
  let service := edmxService None "http://localhost" "/sap/odata/testme" (Some "<HELLO WORLD />") in
  let faulty : Editor :=
    {[ ["";"tmp";"webapp";"manifest.json"]
       := FManifest {| m_id := None; m_dataSources := []; m_models := [] |} ]} in
  generate "/tmp" service ∅ = (∅, inl (RequiredProjectFileNotFound "webapp/manifest.json"))
  ∧ generate "/tmp" service faulty
    = (faulty, inl (RequiredProjectPropertyNotFound "'sap.app'.id"
                      ["";"tmp";"webapp";"manifest.json"])).
Proof.
  intros service faulty. split.
  - apply (proj1 (generate_required_file_and_property "/tmp" service ∅)). reflexivity.
  - apply (proj2 (generate_required_file_and_property "/tmp" service faulty)
             {| m_id := None; m_dataSources := []; m_models := [] |}); reflexivity.
Defined.

(** C10: [generate] locates [package.json], [ui5.yaml], [ui5-local.yaml] and
    [ui5-mock.yaml] by walking upward from the base path, the closest level
    winning for each file on its own, by a loop that recurses on the segments
    of the base path; the manifest is not searched for: without
    [webapp/manifest.json] directly under the base path [generate] throws the
    required-project-file error, whatever the levels above hold. *)
Theorem generate_searches_upward_but_not_for_manifest (basePath : string)
    (service : OdataService) (fs : Editor) :
  findProjectFiles basePath fs =
    {| packageJson := closestLevel fs (rev (split basePath)) "package.json";
       ui5Yaml := closestLevel fs (rev (split basePath)) "ui5.yaml";
       ui5LocalYaml := closestLevel fs (rev (split basePath)) "ui5-local.yaml";
       ui5MockYaml := closestLevel fs (rev (split basePath)) "ui5-mock.yaml" |}
  ∧ (fs !! join (split basePath) ["webapp"; "manifest.json"] = None →
     generate basePath service fs
     = (fs, inl (RequiredProjectFileNotFound "webapp/manifest.json"))).
Proof.
  split.
  - apply findProjectFiles_closest.
  - rewrite <- manifestPath_join. apply generate_without_manifest.
Qed.

(** A project whose configuration and manifest live one level above the base
    path: the configuration files are found there, the manifest is not. *)
Lemma generate_searches_upward_but_not_for_manifest_witness :
  let service := edmxService None "http://localhost" "/sap/odata/testme" None in
  let fs : Editor :=
    <[ ["";"proj";"package.json"] := FPackage {| ui5Tooling := false; mockserverDependency := false |} ]>
    (<[ ["";"proj";"ui5.yaml"] := FYaml emptyConfig ]>
     (<[ ["";"proj";"app";"ui5-local.yaml"] := FYaml emptyConfig ]>
      (<[ ["";"proj";"ui5-local.yaml"] := FYaml emptyConfig ]>
       {[ ["";"proj";"webapp";"manifest.json"] := FManifest (appManifest []) ]}))) in
  findProjectFiles "/proj/app" fs =
    {| packageJson := Some ["";"proj";"package.json"];
       ui5Yaml := Some ["";"proj";"ui5.yaml"];
       ui5LocalYaml := Some ["";"proj";"app";"ui5-local.yaml"];
       ui5MockYaml := None |}
  ∧ generate "/proj/app" service fs
    = (fs, inl (RequiredProjectFileNotFound "webapp/manifest.json")).
Proof.
  intros service fs.
  destruct (generate_searches_upward_but_not_for_manifest "/proj/app" service fs) as [Hfind Hgen].
  split.
  - rewrite Hfind. reflexivity.
  - apply Hgen. reflexivity.
Defined.

(** ** The backend middleware *)

Lemma addBackend_without_proxy (b : ProxyBackend) (c : UI5Config) :
  customMiddleware c ≫= fioriToolsProxy = None →
  ∃ error, addBackendToFioriToolsProxydMiddleware b c = inl error
           ∧ middlewareNotFound error = true.
Proof.
  unfold addBackendToFioriToolsProxydMiddleware. destruct (customMiddleware c) as [mw|]; simpl.
  - destruct (fioriToolsProxy mw); [done|]. intros _. by eexists.
  - intros _. by eexists.
Qed.

Lemma proxy_of_created (backend : list ProxyBackend) (ignoreCertError : option bool) (c : UI5Config) :
  customMiddleware (addFioriToolsProxydMiddleware backend ignoreCertError c) ≫= fioriToolsProxy
  = Some {| p_backend := backend; p_ignoreCertError := ignoreCertError |}.
Proof. reflexivity. Qed.

(** C9: when the document model fails to add the backend because the proxy
    middleware is not there (a node-not-found error, or the message that the
    proxy could not be found), the block is created with that single backend
    entry and written; an error of any other kind is thrown on as it is, and
    nothing is written. *)
Theorem extendBackendMiddleware_creates_or_rethrows
    (addBackend : ProxyBackend → UI5Config → Error + UI5Config)
    (service : OdataService) (ui5Config : UI5Config) (ui5ConfigPath : Path) (fs : Editor) :
  let created :=
    addFioriToolsProxydMiddleware [previewSettingsOf service] (s_ignoreCertError service)
      ui5Config in
  (customMiddleware created ≫= fioriToolsProxy
   = Some {| p_backend := [previewSettingsOf service];
             p_ignoreCertError := s_ignoreCertError service |})
  ∧ (∀ error, addBackend (previewSettingsOf service) ui5Config = inl error →
       extendBackendMiddlewareVia addBackend service ui5Config ui5ConfigPath fs
       = if middlewareNotFound error
         then (<[ui5ConfigPath := FYaml created]> fs, inr created)
         else (fs, inl error))
  ∧ (∀ message, middlewareNotFound (YAMLError message nodeNotFound) = true)
  ∧ (customMiddleware ui5Config ≫= fioriToolsProxy = None →
     extendBackendMiddleware service ui5Config ui5ConfigPath fs
     = (<[ui5ConfigPath := FYaml created]> fs, inr created)).
Proof.
  intros created. split; [apply proxy_of_created|]. split; [|split].
  - intros error Herr. unfold extendBackendMiddlewareVia. rewrite Herr.
    by destruct (middlewareNotFound error).
  - done.
  - intros Hnone.
    destruct (addBackend_without_proxy (previewSettingsOf service) ui5Config Hnone)
      as (error & Herr & Hrec).
    unfold extendBackendMiddleware, extendBackendMiddlewareVia. by rewrite Herr, Hrec.
Qed.

(** An empty [ui5.yaml] gets the proxy block; a parsing error of the document
    model comes back to the caller. *)
Lemma extendBackendMiddleware_creates_or_rethrows_witness :
  let service := enhance [] [] (edmxService None "http://localhost" "/sap/odata/testme" None) in
  let backend := {| b_path := Some "/sap"; b_url := Some "http://localhost"; b_client := None;
                    b_destination := None; b_apiHub := None; b_scp := None;
                    b_pathPrefix := None |} in
  let created := {| customMiddleware :=
                      Some {| fioriToolsProxy :=
                                Some {| p_backend := [backend]; p_ignoreCertError := None |};
                              sapFeMockserver := None |} |} in
  let failing : ProxyBackend → UI5Config → Error + UI5Config :=
    λ _ _, inl (YAMLError "bad indentation" yamlParsing) in
  extendBackendMiddleware service emptyConfig ["ui5.yaml"] ∅
  = ({[ ["ui5.yaml"] := FYaml created ]}, inr created)
  ∧ extendBackendMiddlewareVia failing service emptyConfig ["ui5.yaml"] ∅
    = (∅, inl (YAMLError "bad indentation" yamlParsing)).
Proof.
  intros service backend created failing.
  destruct (extendBackendMiddleware_creates_or_rethrows failing service emptyConfig ["ui5.yaml"] ∅)
    as (_ & Hvia & _ & Hnone).
  split.
  - rewrite Hnone by reflexivity. reflexivity.
  - rewrite (Hvia (YAMLError "bad indentation" yamlParsing)) by reflexivity. reflexivity.
Defined.

(** ** Which files the steps leave alone *)

Lemma atLevel_base (basePath name : string) : atLevel basePath name (join (split basePath) [name]).
Proof.
  split; [by apply last_join|].
  apply length_join_level; [apply split_not_nil|done].
Qed.

Lemma atLevel_not_webapp (basePath name : string) (p rel : Path) :
  atLevel basePath name p → rel ≠ [] → p ≠ getWebappPath basePath ++ rel.
Proof.
  intros [_ Hlen] Hrel ->. rewrite length_app in Hlen. destruct rel; [done|]. simpl in Hlen. lia.
Qed.

Lemma atLevel_neq (basePath n1 n2 : string) (p1 p2 : Path) :
  atLevel basePath n1 p1 → atLevel basePath n2 p2 → n1 ≠ n2 → p1 ≠ p2.
Proof. intros [H1 _] [H2 _] Hn ->. congruence. Qed.

Lemma atLevel_not_manifest (basePath name : string) (p : Path) :
  atLevel basePath name p → p ≠ manifestPath basePath.
Proof. intros H. rewrite manifestPath_webapp. by eapply atLevel_not_webapp. Qed.

Lemma findProjectFiles_atLevel (basePath : string) (fs : Editor) :
  let paths := findProjectFiles basePath fs in
  (∀ p, packageJson paths = Some p → atLevel basePath "package.json" p ∧ is_Some (fs !! p))
  ∧ (∀ p, ui5Yaml paths = Some p → atLevel basePath "ui5.yaml" p ∧ is_Some (fs !! p))
  ∧ (∀ p, ui5LocalYaml paths = Some p → atLevel basePath "ui5-local.yaml" p ∧ is_Some (fs !! p))
  ∧ (∀ p, ui5MockYaml paths = Some p → atLevel basePath "ui5-mock.yaml" p ∧ is_Some (fs !! p)).
Proof.
  intros paths. unfold paths. rewrite findProjectFiles_closest. cbv zeta. simpl.
  repeat split.
  all: try (eapply (closestLevel_Some fs (split basePath)) in H as (? & ? & ?); eassumption || done).
Qed.

Lemma webapp_named (basePath : string) (names : list string) :
  join (split basePath) ("webapp" :: names) = getWebappPath basePath ++ names.
Proof. rewrite <- webapp_join. unfold getWebappPath. by rewrite join_named. Qed.

Ltac preserves_step :=
  lazymatch goal with
  | |- preserves _ (mret _) => apply preserves_ret
  | |- preserves _ (throw _) => apply preserves_throw
  | |- preserves _ get => apply preserves_get
  | |- preserves _ (readConfig _) => apply preserves_readConfig
  | |- preserves _ (fs_read _) => apply preserves_read
  | |- preserves _ (fs_exists _) => apply preserves_exists
  | |- preserves _ (_ ≫= _) => apply preserves_bind; [|intros ?]
  | |- preserves _ (match ?x with _ => _ end) => destruct x eqn:?
  | |- preserves _ (let _ := _ in _) => cbv zeta
  end.

Lemma preserves_extendBackendMiddlewareVia add p (s : OdataService) (c : UI5Config) (q : Path) :
  q ≠ p → preserves p (extendBackendMiddlewareVia add s c q).
Proof.
  intros Hne. unfold extendBackendMiddlewareVia.
  repeat preserves_step; by apply preserves_write.
Qed.

Lemma preserves_generateMockserverConfig p (basePath : string) (webappPath : Path) :
  p ≠ join (split basePath) ["ui5-mock.yaml"] →
  preserves p (generateMockserverConfig basePath webappPath).
Proof.
  intros Hne. unfold generateMockserverConfig.
  repeat preserves_step; by apply preserves_write.
Qed.

Lemma preserves_generateMockserverMiddleware p (y : Path) (l : option Path) (c : option UI5Config) :
  preserves p (generateMockserverMiddlewareBasedOnUi5MockYaml y l c).
Proof. unfold generateMockserverMiddlewareBasedOnUi5MockYaml. repeat preserves_step. Qed.

Lemma preserves_writeLocalServiceFiles p (basePath : string) (tr : Path) (s : OdataService) :
  (∀ x, p ≠ getWebappPath basePath ++ [LOCAL_SERVICE; serviceNameOf s; x]) →
  (∀ x, p ≠ getWebappPath basePath ++ ["annotations"; x]) →
  preserves p (writeLocalServiceFiles basePath (getWebappPath basePath) tr s).
Proof.
  intros H1 H2. unfold writeLocalServiceFiles. rewrite webapp_join.
  repeat preserves_step; apply preserves_write; try done.
  rewrite webapp_named. done.
Qed.

Lemma preserves_updatePackageJson p (q : Path) (b : bool) :
  q ≠ p → preserves p (updatePackageJson q b).
Proof. intros Hne. unfold updatePackageJson. repeat preserves_step; by apply preserves_write. Qed.

Lemma preserves_writeAnnotationXmlFiles p (basePath name : string) (l : list EdmxAnnotationsInfo) :
  (∀ x, p ≠ getWebappPath basePath ++ [LOCAL_SERVICE; name; x]) →
  preserves p (writeAnnotationXmlFiles basePath name l).
Proof.
  intros H. induction l as [|a l IH]; simpl; [apply preserves_ret|].
  unfold annotationFile. rewrite webapp_join.
  repeat preserves_step; try done. by apply preserves_write.
Qed.

Lemma preserves_removeAnnotationXmlFiles p (basePath name : string) (l : list EdmxAnnotationsInfo) :
  (∀ x, p ≠ getWebappPath basePath ++ [LOCAL_SERVICE; name; x]) →
  preserves p (removeAnnotationXmlFiles basePath name l).
Proof.
  intros H. induction l as [|a l IH]; simpl; [apply preserves_ret|].
  unfold annotationFile. rewrite webapp_join.
  repeat preserves_step; try done. by apply preserves_delete.
Qed.

Lemma preserves_editConfig p (q : option Path) (edit : UI5Config → UI5Config) :
  q ≠ Some p → preserves p (editConfig q edit).
Proof.
  intros Hne. unfold editConfig. repeat preserves_step. apply preserves_write. congruence.
Qed.

Lemma preserves_writeEDMXServiceFiles p (basePath : string) (paths : ProjectPaths) (tr : Path)
    (s : OdataService) :
  packageJson paths ≠ Some p → ui5Yaml paths ≠ Some p → ui5LocalYaml paths ≠ Some p →
  ui5MockYaml paths ≠ Some p → p ≠ join (split basePath) ["ui5-mock.yaml"] →
  (∀ x, p ≠ getWebappPath basePath ++ [LOCAL_SERVICE; serviceNameOf s; x]) →
  (∀ x, p ≠ getWebappPath basePath ++ ["annotations"; x]) →
  preserves p (writeEDMXServiceFiles basePath paths tr s).
Proof.
  intros Hpkg Hy Hl Hm Hmock Hls Hann. unfold writeEDMXServiceFiles.
  repeat preserves_step.
  all: try (apply preserves_extendBackendMiddlewareVia; congruence).
  all: try (by apply preserves_generateMockserverConfig).
  all: try apply preserves_generateMockserverMiddleware.
  all: try (by apply preserves_writeLocalServiceFiles).
  all: try (apply preserves_updatePackageJson; congruence).
  all: try (apply preserves_write; congruence).
  all: try (by apply preserves_writeAnnotationXmlFiles).
Qed.

(** ** The enhancer, field by field *)

Lemma enhance_name ds models s :
  s_name (enhance ds models s) = s_name (setDefaultServiceName ds s).
Proof.
  unfold enhance, setDefaultServiceModel, setDefaultAnnotationsName, setDefaultPreviewSettings,
    setDefaultServicePath. cbv zeta. simpl.
  by destruct (s_model (setDefaultServiceName ds s)).
Qed.

Lemma setDefaultServiceName_fields ds s :
  s_path (setDefaultServiceName ds s) = s_path s
  ∧ s_annotations (setDefaultServiceName ds s) = s_annotations s
  ∧ s_metadata (setDefaultServiceName ds s) = s_metadata s
  ∧ s_type (setDefaultServiceName ds s) = s_type s
  ∧ s_url (setDefaultServiceName ds s) = s_url s.
Proof. unfold setDefaultServiceName. by case_bool_decide. Qed.

Lemma enhance_serviceNameOf ds models s :
  serviceNameOf (enhance ds models s) = serviceNameOf (setDefaultServiceName ds s).
Proof. unfold serviceNameOf. by rewrite enhance_name. Qed.

Lemma enhance_path ds models s :
  s_path (enhance ds models s) = Some (withTrailingSep (default "" (s_path s))).
Proof.
  destruct (setDefaultServiceName_fields ds s) as (Hp & _).
  unfold enhance, setDefaultServiceModel, setDefaultAnnotationsName, setDefaultPreviewSettings,
    setDefaultServicePath. cbv zeta. simpl.
  destruct (s_model (setDefaultServiceName ds s)); simpl; by rewrite Hp.
Qed.

Lemma enhance_annotations ds models s :
  s_annotations (enhance ds models s)
  = renameAnnotation ds (serviceNameOf (setDefaultServiceName ds s)) <$> s_annotations s.
Proof.
  destruct (setDefaultServiceName_fields ds s) as (_ & Ha & _).
  unfold enhance, setDefaultServiceModel, setDefaultAnnotationsName, setDefaultPreviewSettings,
    setDefaultServicePath. cbv zeta. simpl.
  destruct (s_model (setDefaultServiceName ds s)); simpl; by rewrite Ha.
Qed.

Lemma enhance_metadata ds models s : s_metadata (enhance ds models s) = s_metadata s.
Proof.
  destruct (setDefaultServiceName_fields ds s) as (_ & _ & Hm & _).
  unfold enhance, setDefaultServiceModel, setDefaultAnnotationsName, setDefaultPreviewSettings,
    setDefaultServicePath. cbv zeta. simpl.
  destruct (s_model (setDefaultServiceName ds s)); simpl; by rewrite Hm.
Qed.

Lemma enhance_type ds models s : s_type (enhance ds models s) = Some (default EDMX (s_type s)).
Proof.
  destruct (setDefaultServiceName_fields ds s) as (_ & _ & _ & Ht & _).
  unfold enhance, setDefaultServiceModel, setDefaultAnnotationsName, setDefaultPreviewSettings,
    setDefaultServicePath. cbv zeta. simpl.
  destruct (s_model (setDefaultServiceName ds s)); simpl; by rewrite Ht.
Qed.

Lemma endsWithSep_snoc (s : string) : endsWithSep (s +:+ "/") = true.
Proof.
  induction s as [|c r IH]; [done|].
  simpl. destruct (r +:+ "/") eqn:E; [by destruct r|]. done.
Qed.

Lemma endsWithSep_withTrailingSep (s : string) : endsWithSep (withTrailingSep s) = true.
Proof.
  unfold withTrailingSep. destruct (endsWithSep s) eqn:E; [done|]. apply endsWithSep_snoc.
Qed.

Lemma append_not_self (s t : string) : t ≠ "" → s +:+ t ≠ s.
Proof.
  intros Ht. induction s as [|c r IH]; simpl; [done|]. intros [=H]. by apply IH.
Qed.

(** ** The manifest after the merger *)

Lemma moveIntoNamespace_other (w : Path) (k f : string) (fs : Editor) (p : Path) :
  (∀ rel, p ≠ w ++ LOCAL_SERVICE :: rel) →
  moveIntoNamespace w k fs f !! p = fs !! p.
Proof.
  intros Hp. unfold moveIntoNamespace. destruct (fs !! (w ++ [LOCAL_SERVICE; f])); [|done].
  rewrite lookup_insert_ne by (apply not_eq_sym, Hp).
  by rewrite lookup_delete_ne by (apply not_eq_sym, Hp).
Qed.

Lemma fold_moveIntoNamespace_other (w : Path) (k : string) (files : list string) (fs : Editor)
    (p : Path) :
  (∀ rel, p ≠ w ++ LOCAL_SERVICE :: rel) →
  fold_left (moveIntoNamespace w k) files fs !! p = fs !! p.
Proof.
  intros Hp. revert fs. induction files as [|f files IH]; intros fs; [done|].
  simpl. rewrite IH. by apply moveIntoNamespace_other.
Qed.

Lemma migratedEditor_other (basePath : string) (s : OdataService) (m : Manifest) (fs : Editor)
    (p : Path) :
  (∀ rel, p ≠ getWebappPath basePath ++ LOCAL_SERVICE :: rel) →
  migratedEditor basePath s m fs !! p = fs !! p.
Proof.
  intros Hp. unfold migratedEditor.
  destruct (loneFlatService (m_dataSources m) (serviceNameOf s)) as [[k d]|]; [|done].
  by apply fold_moveIntoNamespace_other.
Qed.

Lemma updateManifest_run (basePath : string) (s : OdataService) (fs : Editor) (m : Manifest) :
  fs !! manifestPath basePath = Some (FManifest m) → is_Some (m_id m) →
  updateManifest basePath s fs
  = (<[manifestPath basePath := FManifest (mergeManifest s m)]> (migratedEditor basePath s m fs),
     inr tt).
Proof.
  intros Hm [appid Hid]. unfold updateManifest, migratedEditor. rewrite run_bind. unfold get.
  cbv beta iota zeta. rewrite Hm, Hid.
  by destruct (loneFlatService (m_dataSources m) (serviceNameOf s)) as [[k d]|].
Qed.

Lemma preserves_rest_of_generate (basePath : string) (fs0 : Editor) (s : OdataService) :
  preserves (manifestPath basePath)
    ((if bool_decide (s_type s = Some EDMX)
      then writeEDMXServiceFiles basePath (findProjectFiles basePath fs0) templateRoot s
      else if bool_decide (s_annotations s ≠ []) then updateCdsFilesWithAnnotations (s_annotations s)
           else mret tt);; mret s).
Proof.
  destruct (findProjectFiles_atLevel basePath fs0) as (Hpkg & Hy & Hl & Hk).
  apply preserves_bind; [|intros; apply preserves_ret].
  case_bool_decide; [|case_bool_decide; apply preserves_ret].
  apply preserves_writeEDMXServiceFiles.
  - intros Heq. apply Hpkg in Heq as [Hat _]. by eapply atLevel_not_manifest.
  - intros Heq. apply Hy in Heq as [Hat _]. by eapply atLevel_not_manifest.
  - intros Heq. apply Hl in Heq as [Hat _]. by eapply atLevel_not_manifest.
  - intros Heq. apply Hk in Heq as [Hat _]. by eapply atLevel_not_manifest.
  - apply not_eq_sym. eapply atLevel_not_manifest, atLevel_base.
  - intros rel. rewrite manifestPath_webapp. intros Heq. by apply app_inv_head in Heq.
  - intros rel. rewrite manifestPath_webapp. intros Heq. by apply app_inv_head in Heq.
Qed.

(** The manifest that [generate] leaves, whatever happens to the YAML files
    afterwards. *)
Lemma generate_manifest (basePath : string) (s : OdataService) (fs : Editor) (m : Manifest) :
  fs !! manifestPath basePath = Some (FManifest m) → is_Some (m_id m) →
  (generate basePath s fs).1 !! manifestPath basePath
  = Some (FManifest (mergeManifest (enhance (m_dataSources m) (m_models m) s) m)).
Proof.
  intros Hm Hid. rewrite generate_with_manifest by (by rewrite Hm). cbv zeta.
  assert (dataSourcesOf fs basePath = m_dataSources m) as ->
    by (unfold dataSourcesOf, readManifest; by rewrite Hm).
  assert (modelsOf fs basePath = m_models m) as ->
    by (unfold modelsOf, readManifest; by rewrite Hm).
  rewrite run_bind, (updateManifest_run _ _ _ m Hm Hid).
  rewrite (preserves_rest_of_generate basePath fs). by rewrite lookup_insert_eq.
Qed.

(** ** Ordered tables *)

Lemma lookupKey_upsert {V} (k k' : string) (v : V) (l : list (string * V)) :
  lookupKey k (upsert k' v l) = if decide (k = k') then Some v else lookupKey k l.
Proof.
  unfold lookupKey. induction l as [|[k0 v0] l IH]; simpl.
  - case_bool_decide; case_decide; simpl; congruence.
  - destruct (decide (k0 = k')) as [->|Hne]; simpl.
    + case_bool_decide; case_decide; simpl; congruence.
    + case_bool_decide; [|done]. subst. simpl. by rewrite decide_False.
Qed.

Lemma lookupKey_mergeAnnotations (name k : string) (l : list EdmxAnnotationsInfo)
    (ds : list (string * DataSource)) :
  Forall (λ a, annotationKey a ≠ k) l →
  lookupKey k (fold_left (λ acc a, upsert (annotationKey a) (annotationEntry name a) acc) l ds)
  = lookupKey k ds.
Proof.
  intros Hl. revert ds. induction Hl as [|a l Ha Hl IH]; intros ds; [done|].
  simpl. rewrite IH, lookupKey_upsert. by rewrite decide_False.
Qed.

Lemma lookupKey_mergeDataSources_name (s : OdataService) (ds : list (string * DataSource)) :
  Forall (λ a, annotationKey a ≠ serviceNameOf s) (s_annotations s) →
  lookupKey (serviceNameOf s) (mergeDataSources s ds)
  = Some (serviceEntry s (lookupKey (serviceNameOf s) ds)).
Proof.
  intros Hl. unfold mergeDataSources. cbv zeta.
  rewrite lookupKey_mergeAnnotations by done. rewrite lookupKey_upsert. by rewrite decide_True.
Qed.

Lemma renamed_key_empty_table (name : string) (a : EdmxAnnotationsInfo) :
  annotationKey (renameAnnotation [] name a) ≠ name.
Proof.
  unfold renameAnnotation, collides. simpl. rewrite orb_false_r.
  case_bool_decide as Hk; [|done].
  unfold annotationKey at 1. simpl. subst name. by apply append_not_self.
Qed.

(** C7: for a descriptor without a name and a manifest whose data-source
    table is empty, the enhancer assigns the name [mainService] and a path
    that ends with the separator (the separator alone when the path is
    absent), and does not throw; the manifest that [generate] leaves has the
    entry [mainService] whose [uri] is that path. *)
Theorem naming_default (basePath : string) (service : OdataService) (fs : Editor)
    (manifest : Manifest) :
  s_name service = None →
  fs !! manifestPath basePath = Some (FManifest manifest) →
  m_dataSources manifest = [] →
  let path := withTrailingSep (default "" (s_path service)) in
  (∃ enhanced, enhanceData basePath service fs = (fs, inr enhanced)
               ∧ s_name enhanced = Some "mainService"
               ∧ s_path enhanced = Some path)
  ∧ endsWithSep path = true
  ∧ (s_path service = None → path = "/")
  ∧ (is_Some (m_id manifest) →
     ∃ merged, (generate basePath service fs).1 !! manifestPath basePath = Some (FManifest merged)
               ∧ ds_uri <$> lookupKey "mainService" (m_dataSources merged) = Some path).
Proof.
  intros Hname Hm Hds path.
  assert (dataSourcesOf fs basePath = []) as Hds'
    by (unfold dataSourcesOf, readManifest; by rewrite Hm).
  split; [|split; [|split]].
  - eexists. split; [reflexivity|]. rewrite Hds'. split.
    + by rewrite enhance_name.
    + apply enhance_path.
  - apply endsWithSep_withTrailingSep.
  - intros Hp. unfold path. by rewrite Hp.
  - intros Hid. eexists. split; [by apply generate_manifest|].
    rewrite Hds. set (enhanced := enhance [] (m_models manifest) service).
    assert (serviceNameOf enhanced = "mainService") as Hn
      by (unfold enhanced; by rewrite enhance_serviceNameOf).
    unfold mergeManifest. cbn [m_dataSources]. rewrite Hds. unfold migratedDataSources. simpl.
    rewrite <- Hn at 1. rewrite lookupKey_mergeDataSources_name.
    + cbn [fmap option_fmap option_map serviceEntry ds_uri]. unfold enhanced.
      by rewrite enhance_path.
    + rewrite Hn. unfold enhanced. rewrite enhance_annotations. apply Forall_fmap, Forall_true.
      intros a. simpl. apply renamed_key_empty_table.
Qed.

(** The Northwind service of the unit tests. *)
Lemma naming_default_witness :
  let service := {| s_name := None; s_url := "https://services.odata.org";
                    s_path := Some "/V2/Northwind/Northwind.svc"; s_client := None;
                    s_version := v2; s_model := None; s_metadata := None; s_annotations := [];
                    s_localAnnotationsName := None; s_destination := None;
                    s_previewSettings := None; s_ignoreCertError := None; s_type := None |} in
  let fs : Editor := {[ ["";"tmp";"webapp";"manifest.json"] := FManifest (appManifest []) ]} in
  ∃ merged, (generate "/tmp" service fs).1 !! ["";"tmp";"webapp";"manifest.json"]
            = Some (FManifest merged)
            ∧ ds_uri <$> lookupKey "mainService" (m_dataSources merged)
              = Some "/V2/Northwind/Northwind.svc/".
Proof.
  intros service fs.
  destruct (naming_default "/tmp" service fs (appManifest [])) as (_ & _ & _ & Hgen);
    [reflexivity..|].
  destruct Hgen as (merged & H1 & H2); [by eexists|].
  exists merged. split; [exact H1|exact H2].
Defined.

(** ** Annotation names *)

Lemma appendAbsent_old (new old : list string) (k : string) :
  k ∈ old → k ∈ appendAbsent new old.
Proof.
  unfold appendAbsent. revert old. induction new as [|n new IH]; intros old Hk; [done|].
  simpl. apply IH. case_bool_decide; [done|]. apply elem_of_app. by left.
Qed.

Lemma appendAbsent_new (new old : list string) (k : string) :
  k ∈ new → k ∈ appendAbsent new old.
Proof.
  unfold appendAbsent. revert old. induction new as [|n new IH]; intros old Hk.
  - by apply elem_of_nil in Hk.
  - apply elem_of_cons in Hk as [->|Hk]; simpl; [|by apply IH].
    apply (appendAbsent_old new). case_bool_decide; [done|]. apply elem_of_app. right.
    by apply list_elem_of_singleton.
Qed.

Lemma lookupKey_mergeAnnotations_in (name k : string) (l : list EdmxAnnotationsInfo)
    (ds : list (string * DataSource)) :
  k ∈ annotationKey <$> l →
  ∃ a, lookupKey k (fold_left (λ acc a, upsert (annotationKey a) (annotationEntry name a) acc) l ds)
       = Some (annotationEntry name a).
Proof.
  revert ds. induction l as [|a l IH]; intros ds Hk.
  - by apply elem_of_nil in Hk.
  - simpl. destruct (decide (k ∈ annotationKey <$> l)) as [Hin|Hout]; [by apply IH|].
    rewrite fmap_cons in Hk. apply elem_of_cons in Hk as [->|Hk]; [|done].
    exists a. rewrite lookupKey_mergeAnnotations.
    + rewrite lookupKey_upsert. by rewrite decide_True.
    + apply Forall_forall. intros b Hb Heq. apply Hout. rewrite <- Heq.
      by apply list_elem_of_fmap_2.
Qed.

Lemma lookupKey_isOData (k : string) (e : DataSource) (ds : list (string * DataSource)) :
  lookupKey k ds = Some e → ds_type e = OData → filter (λ e, isOData e = true) ds ≠ [].
Proof.
  unfold lookupKey. induction ds as [|[k0 e0] ds IH]; simpl; [done|].
  case_bool_decide; simpl.
  - intros [= ->] Ht. rewrite filter_cons_True; [done|].
    unfold isOData. simpl. by apply bool_decide_eq_true.
  - intros Hl Ht. rewrite filter_cons. case_decide; [done|]. by apply IH.
Qed.

(** Enhancing the enhanced descriptor against the merged manifest renames no
    annotation again. *)
Lemma enhance_annotations_stable (ds : list (string * DataSource))
    (models : list (string * option string)) (service : OdataService) (manifest : Manifest) :
  let enhanced := enhance ds models service in
  let merged := mergeManifest enhanced manifest in
  Forall (λ a, annotationKey a ≠ serviceNameOf enhanced) (s_annotations enhanced) →
  s_annotations (enhance (m_dataSources merged) (m_models merged) enhanced)
  = s_annotations enhanced.
Proof.
  intros enhanced merged Hfresh. rewrite enhance_annotations.
  assert (lookupKey (serviceNameOf enhanced) (m_dataSources merged)
          = Some (serviceEntry enhanced
                    (lookupKey (serviceNameOf enhanced)
                       (migratedDataSources (m_dataSources manifest) (serviceNameOf enhanced)))))
    as Hown by (by apply lookupKey_mergeDataSources_name).
  assert (setDefaultServiceName (m_dataSources merged) enhanced = enhanced) as ->.
  { unfold setDefaultServiceName. rewrite bool_decide_eq_false_2; [done|].
    by eapply lookupKey_isOData. }
  rewrite <- (list_fmap_id (s_annotations enhanced)) at 2.
  apply list_fmap_ext. intros i a Ha. unfold renameAnnotation, collides.
  apply list_elem_of_lookup_2 in Ha.
  rewrite bool_decide_eq_false_2
    by (by eapply (proj1 (Forall_forall _ _) Hfresh)).
  destruct (lookupKey_mergeAnnotations_in (serviceNameOf enhanced) (annotationKey a)
              (s_annotations enhanced)
              (upsert (serviceNameOf enhanced)
                 (serviceEntry enhanced
                    (lookupKey (serviceNameOf enhanced)
                       (migratedDataSources (m_dataSources manifest) (serviceNameOf enhanced))))
                 (migratedDataSources (m_dataSources manifest) (serviceNameOf enhanced))))
    as [b Hb]; [by apply list_elem_of_fmap_2|].
  unfold merged, mergeManifest in *. cbn [m_dataSources] in *. unfold mergeDataSources in *.
  cbv zeta in *. rewrite Hb, Hown. simpl.
  rewrite bool_decide_eq_true_2; [done|].
  apply appendAbsent_new. by apply list_elem_of_fmap_2.
Qed.



(** ** Rules for specifications *)

Lemma hoare_ret {A : Type} (P : Editor → Prop) (x : A) (Q : A → Editor → Prop)
    (E : Editor → Prop) :
  (∀ fs, P fs → Q x fs) → hoare P (mret x) Q E.
Proof. intros H fs HP. by apply H. Qed.

Lemma hoare_throw {A : Type} (P : Editor → Prop) (e : Error) (Q : A → Editor → Prop)
    (E : Editor → Prop) :
  (∀ fs, P fs → E fs) → hoare P (throw e) Q E.
Proof. intros H fs HP. by apply H. Qed.

Lemma hoare_bind {A B : Type} (P : Editor → Prop) (c : M A) (f : A → M B)
    (R : A → Editor → Prop) (Q : B → Editor → Prop) (E : Editor → Prop) :
  hoare P c R E → (∀ x, hoare (R x) (f x) Q E) → hoare P (c ≫= f) Q E.
Proof.
  intros Hc Hf fs HP. rewrite run_bind. specialize (Hc fs HP).
  destruct (c fs) as [fs1 [e|x]]; [done|]. by apply Hf.
Qed.

Lemma hoare_conseq {A : Type} (P P' : Editor → Prop) (c : M A) (Q Q' : A → Editor → Prop)
    (E E' : Editor → Prop) :
  hoare P' c Q' E' → (∀ fs, P fs → P' fs) → (∀ x fs, Q' x fs → Q x fs) →
  (∀ fs, E' fs → E fs) → hoare P c Q E.
Proof.
  intros Hc HP HQ HE fs Hfs. specialize (Hc fs (HP fs Hfs)).
  destruct (c fs) as [fs1 [e|x]]; auto.
Qed.

Lemma hoare_pure_pre {A : Type} (R : Prop) (c : M A) (Q : A → Editor → Prop)
    (E : Editor → Prop) :
  (R → hoare (λ _, True) c Q E) → hoare (λ _, R) c Q E.
Proof. intros H fs HR. by apply H. Qed.

Lemma hoare_get (P : Editor → Prop) (Q : Editor → Editor → Prop) (E : Editor → Prop) :
  (∀ fs, P fs → Q fs fs) → hoare P get Q E.
Proof. intros H fs HP. by apply H. Qed.

Lemma hoare_write (P : Editor → Prop) (p : Path) (f : File) (Q : unit → Editor → Prop)
    (E : Editor → Prop) :
  (∀ fs, P fs → Q tt (<[p := f]> fs)) → hoare P (fs_write p f) Q E.
Proof. intros H fs HP. by apply H. Qed.

Lemma hoare_read (P : Editor → Prop) (p : Path) (Q : File → Editor → Prop)
    (E : Editor → Prop) :
  (∀ fs f, P fs → fs !! p = Some f → Q f fs) → (∀ fs, P fs → fs !! p = None → E fs) →
  hoare P (fs_read p) Q E.
Proof.
  intros HQ HE fs HP. unfold fs_read. destruct (fs !! p) eqn:Hp; [by apply HQ|by apply HE].
Qed.

Lemma hoare_readConfig (P : Editor → Prop) (p : Path) (Q : UI5Config → Editor → Prop)
    (E : Editor → Prop) :
  (∀ fs c, P fs → fs !! p = Some (FYaml c) → Q c fs) → (∀ fs, P fs → E fs) →
  hoare P (readConfig p) Q E.
Proof.
  intros HQ HE. unfold readConfig.
  eapply hoare_bind with (R := λ f fs, P fs ∧ fs !! p = Some f).
  - apply hoare_read; [done|]. intros fs HP _. by apply HE.
  - intros []; first [apply hoare_ret | apply hoare_throw]; intros fs [HP Hp]; auto.
Qed.

(** A computation that preserves a path keeps what is known about the file
    there, on both exits. *)
Lemma hoare_preserves {A : Type} (p : Path) (c : M A) (v : option File) :
  preserves p c → hoare (λ fs, fs !! p = v) c (λ _ fs, fs !! p = v) (λ fs, fs !! p = v).
Proof.
  intros Hc fs Hv. specialize (Hc fs). destruct (c fs) as [fs1 [e|x]]; simpl in Hc; congruence.
Qed.

Lemma extendBackendMiddleware_run (s : OdataService) (c : UI5Config) (q : Path) (fs : Editor) :
  extendBackendMiddleware s c q fs = (<[q := FYaml (extended s c)]> fs, inr (extended s c)).
Proof.
  unfold extendBackendMiddleware, extendBackendMiddlewareVia, extended.
  destruct (addBackendToFioriToolsProxydMiddleware (previewSettingsOf s) c) as [e|u] eqn:Hadd;
    [|done].
  assert (middlewareNotFound e = true) as ->; [|done].
  unfold addBackendToFioriToolsProxydMiddleware in Hadd.
  destruct (customMiddleware c) as [mw|]; [|by simplify_eq].
  destruct (fioriToolsProxy mw); by simplify_eq.
Qed.

Lemma upsertBackend_in (b : ProxyBackend) (l : list ProxyBackend) : b ∈ upsertBackend b l.
Proof.
  induction l as [|e l IH]; simpl; [by apply list_elem_of_singleton|].
  case_decide; [by left|by right].
Qed.

Lemma backend_in_extended (s : OdataService) (c : UI5Config) :
  previewSettingsOf s ∈ backendsOf (extended s c).
Proof.
  unfold extended, addBackendToFioriToolsProxydMiddleware, backendsOf.
  destruct (customMiddleware c) as [mw|]; simpl; [|by apply list_elem_of_singleton].
  destruct (fioriToolsProxy mw) as [p|]; simpl; [|by apply list_elem_of_singleton].
  apply upsertBackend_in.
Qed.

Lemma mockserver_of_extended (s : OdataService) (c : UI5Config) :
  findMockserverMiddleware (extended s c) = findMockserverMiddleware c.
Proof.
  unfold extended, addBackendToFioriToolsProxydMiddleware, findMockserverMiddleware.
  by destruct c as [[[[p|] k]|]].
Qed.

Lemma backendsOf_updateMockserver (k : MockServer) (c : UI5Config) :
  backendsOf (updateMockserverMiddleware k c) = backendsOf c.
Proof. unfold backendsOf. by destruct c as [[mw|]]. Qed.

Lemma writeEDMXServiceFiles_blocks (basePath : string) (paths : ProjectPaths) (tr : Path)
    (service : OdataService) :
  writeEDMXServiceFiles basePath paths tr service =
    (configs ← backendStep paths service;
     ui5LocalConfig ← match s_metadata service with
                       | Some _ =>
                           ui5LocalConfig ← mockserverStep basePath paths configs service;
                           writeLocalServiceFiles basePath (getWebappPath basePath) tr service;;
                           mret ui5LocalConfig
                       | None => mret configs.2
                       end;
     closingWrites basePath paths service ui5LocalConfig).
Proof. reflexivity. Qed.

(** ** [generate] for an EDMX service, block by block *)

Lemma findProjectFiles_levelPaths (basePath : string) (fs : Editor) :
  levelPaths basePath (findProjectFiles basePath fs).
Proof.
  destruct (findProjectFiles_atLevel basePath fs) as (H1 & H2 & H3 & H4).
  split; [|split; [|split]]; intros q Hq.
  - by apply H1 in Hq as [? _].
  - by apply H2 in Hq as [? _].
  - by apply H3 in Hq as [? _].
  - by apply H4 in Hq as [? _].
Qed.

Lemma atLevel_not_payload (basePath name : string) (p : Path) (a : string) :
  atLevel basePath name p → ∀ rel, p ≠ getWebappPath basePath ++ a :: rel.
Proof. intros H rel. by eapply atLevel_not_webapp. Qed.

Lemma mergedEditor_level (basePath name : string) (s : OdataService) (m : Manifest)
    (fs : Editor) (p : Path) :
  atLevel basePath name p → mergedEditor basePath s m fs !! p = fs !! p.
Proof.
  intros H. unfold mergedEditor.
  rewrite lookup_insert_ne by (apply not_eq_sym; by eapply atLevel_not_manifest).
  apply migratedEditor_other. by eapply atLevel_not_payload.
Qed.

Lemma generate_edmx (basePath : string) (s : OdataService) (fs : Editor) (m : Manifest) :
  fs !! manifestPath basePath = Some (FManifest m) → is_Some (m_id m) →
  s_type s ≠ Some CDS →
  let enhanced := enhance (m_dataSources m) (m_models m) s in
  generate basePath s fs
  = (writeEDMXServiceFiles basePath (findProjectFiles basePath fs) templateRoot enhanced;;
     mret enhanced) (mergedEditor basePath enhanced m fs).
Proof.
  intros Hm Hid Ht enhanced. rewrite generate_with_manifest by (by rewrite Hm). cbv zeta.
  assert (dataSourcesOf fs basePath = m_dataSources m) as ->
    by (unfold dataSourcesOf, readManifest; by rewrite Hm).
  assert (modelsOf fs basePath = m_models m) as ->
    by (unfold modelsOf, readManifest; by rewrite Hm).
  fold enhanced. rewrite run_bind, (updateManifest_run _ _ _ m Hm Hid).
  rewrite bool_decide_eq_true_2; [done|].
  unfold enhanced. rewrite enhance_type. by destruct (s_type s) as [[]|].
Qed.

Lemma run_then_ret_fst {A B : Type} (c : M A) (x : B) (fs : Editor) :
  ((c;; mret x) fs).1 = (c fs).1.
Proof. rewrite run_bind. by destruct (c fs) as [fs1 [e|y]]. Qed.

Lemma run_bind_fst {A B : Type} (c : M A) (f : A → M B) (fs : Editor) :
  ((c ≫= f) fs).1 = match c fs with
                     | (fs1, inr x) => (f x fs1).1
                     | (fs1, inl _) => fs1
                     end.
Proof. rewrite run_bind. by destruct (c fs) as [fs1 [e|y]]. Qed.

Lemma readConfig_run (p : Path) (c : UI5Config) (fs : Editor) :
  fs !! p = Some (FYaml c) → readConfig p fs = (fs, inr c).
Proof. intros Hp. unfold readConfig, fs_read. rewrite run_bind. by rewrite Hp. Qed.

Lemma readConfig_state {p : Path} (fs : Editor) : (readConfig p fs).1 = fs.
Proof.
  unfold readConfig, fs_read. rewrite run_bind. destruct (fs !! p) as [[]|]; done.
Qed.

Lemma preserves_mockserverStep p (basePath : string) (paths : ProjectPaths)
    (configs : option UI5Config * option UI5Config) (s : OdataService) :
  ui5MockYaml paths ≠ Some p → p ≠ join (split basePath) ["ui5-mock.yaml"] →
  preserves p (mockserverStep basePath paths configs s).
Proof.
  intros Hm Hb. unfold mockserverStep. repeat preserves_step.
  all: try (by apply preserves_generateMockserverConfig).
  all: try apply preserves_generateMockserverMiddleware.
  all: try (apply preserves_extendBackendMiddlewareVia; congruence).
Qed.

Lemma preserves_closingWrites p (basePath : string) (paths : ProjectPaths) (s : OdataService)
    (local : option UI5Config) :
  packageJson paths ≠ Some p → ui5LocalYaml paths ≠ Some p →
  (∀ x, p ≠ getWebappPath basePath ++ [LOCAL_SERVICE; serviceNameOf s; x]) →
  preserves p (closingWrites basePath paths s local).
Proof.
  intros Hpkg Hl Hls. unfold closingWrites. repeat preserves_step.
  all: try (apply preserves_updatePackageJson; congruence).
  all: try (apply preserves_write; congruence).
  all: try (by apply preserves_writeAnnotationXmlFiles).
Qed.

(** What follows the backend updates in [writeEDMXServiceFiles]. *)
Lemma preserves_after_backendStep p (basePath : string) (paths : ProjectPaths) (tr : Path)
    (s : OdataService) (configs : option UI5Config * option UI5Config) :
  packageJson paths ≠ Some p → ui5LocalYaml paths ≠ Some p → ui5MockYaml paths ≠ Some p →
  p ≠ join (split basePath) ["ui5-mock.yaml"] →
  (∀ a rel, p ≠ getWebappPath basePath ++ a :: rel) →
  preserves p
    (ui5LocalConfig ← match s_metadata s with
                       | Some _ =>
                           ui5LocalConfig ← mockserverStep basePath paths configs s;
                           writeLocalServiceFiles basePath (getWebappPath basePath) tr s;;
                           mret ui5LocalConfig
                       | None => mret configs.2
                       end;
     closingWrites basePath paths s ui5LocalConfig).
Proof.
  intros Hpkg Hl Hm Hb Hw. repeat preserves_step.
  all: try (by apply preserves_mockserverStep).
  all: try (by apply preserves_writeLocalServiceFiles).
  all: by apply preserves_closingWrites.
Qed.

(** The primary YAML after [generate]: the backend entry is in, with or
    without metadata, and the rest of the document is as it was. *)
Lemma generate_primary_yaml (basePath : string) (s : OdataService) (fs : Editor) (m : Manifest)
    (y : Path) (c : UI5Config) :
  fs !! manifestPath basePath = Some (FManifest m) → is_Some (m_id m) →
  s_type s ≠ Some CDS →
  ui5Yaml (findProjectFiles basePath fs) = Some y → fs !! y = Some (FYaml c) →
  (generate basePath s fs).1 !! y
  = Some (FYaml (extended (enhance (m_dataSources m) (m_models m) s) c)).
Proof.
  intros Hm Hid Ht Hy Hc.
  destruct (findProjectFiles_levelPaths basePath fs) as (Lpkg & Ly & Ll & Lk).
  rewrite (generate_edmx _ _ _ m) by done. cbv zeta.
  set (enhanced := enhance (m_dataSources m) (m_models m) s).
  set (paths := findProjectFiles basePath fs) in *.
  rewrite run_then_ret_fst, writeEDMXServiceFiles_blocks, run_bind_fst.
  pose proof (Ly y Hy) as Hat.
  assert (mergedEditor basePath enhanced m fs !! y = Some (FYaml c)) as Hc1
    by (by rewrite (mergedEditor_level _ "ui5.yaml")).
  assert (∀ configs st, st !! y = Some (FYaml (extended enhanced c)) →
          ((ui5LocalConfig ← match s_metadata enhanced with
                              | Some _ =>
                                  ui5LocalConfig ← mockserverStep basePath paths configs enhanced;
                                  writeLocalServiceFiles basePath (getWebappPath basePath)
                                    templateRoot enhanced;;
                                  mret ui5LocalConfig
                              | None => mret configs.2
                              end;
            closingWrites basePath paths enhanced ui5LocalConfig) st).1 !! y
          = Some (FYaml (extended enhanced c))) as Hrest.
  { intros configs st Hst. rewrite <- Hst. apply preserves_after_backendStep.
    - intros H. apply Lpkg in H. by eapply (atLevel_neq _ "package.json" "ui5.yaml").
    - intros H. apply Ll in H. by eapply (atLevel_neq _ "ui5-local.yaml" "ui5.yaml").
    - intros H. apply Lk in H. by eapply (atLevel_neq _ "ui5-mock.yaml" "ui5.yaml").
    - eapply (atLevel_neq _ "ui5.yaml" "ui5-mock.yaml"); [done|apply atLevel_base|done].
    - intros a rel. by eapply atLevel_not_payload. }
  unfold backendStep. rewrite Hy. rewrite run_bind, (readConfig_run _ _ _ Hc1).
  rewrite run_bind, extendBackendMiddleware_run.
  set (st1 := <[y := FYaml (extended enhanced c)]> (mergedEditor basePath enhanced m fs)).
  assert (st1 !! y = Some (FYaml (extended enhanced c))) as Hst1 by apply lookup_insert_eq.
  destruct (ui5LocalYaml paths) as [l|] eqn:Hl.
  - assert (l ≠ y) as Hly
      by (eapply (atLevel_neq _ "ui5-local.yaml" "ui5.yaml"); [by apply Ll|done|done]).
    rewrite !run_bind. pose proof (@readConfig_state l st1) as Hrs.
    destruct (readConfig l st1) as [st2 [e|lc]]; simpl in Hrs; subst st2; [done|].
    rewrite run_bind, extendBackendMiddleware_run. cbn [mret M_ret].
    apply Hrest. by rewrite lookup_insert_ne.
  - rewrite run_bind. cbn [mret M_ret]. by apply Hrest.
Qed.

Lemma preserves_backendStep p (paths : ProjectPaths) (s : OdataService) :
  ui5Yaml paths ≠ Some p → ui5LocalYaml paths ≠ Some p → preserves p (backendStep paths s).
Proof.
  intros Hy Hl. unfold backendStep. repeat preserves_step.
  all: apply preserves_extendBackendMiddlewareVia; congruence.
Qed.

Lemma preserves_writeEDMX_without_metadata p (basePath : string) (paths : ProjectPaths)
    (tr : Path) (s : OdataService) :
  s_metadata s = None →
  packageJson paths ≠ Some p → ui5Yaml paths ≠ Some p → ui5LocalYaml paths ≠ Some p →
  (∀ x, p ≠ getWebappPath basePath ++ [LOCAL_SERVICE; serviceNameOf s; x]) →
  preserves p (writeEDMXServiceFiles basePath paths tr s).
Proof.
  intros Hmeta Hpkg Hy Hl Hw. rewrite writeEDMXServiceFiles_blocks, Hmeta.
  apply preserves_bind; [by apply preserves_backendStep|]. intros configs.
  apply preserves_bind; [apply preserves_ret|]. intros local.
  by apply preserves_closingWrites.
Qed.

(** Without metadata no file named [ui5-mock.yaml] is touched. *)
Lemma generate_mock_yaml_without_metadata (basePath : string) (s : OdataService) (fs : Editor)
    (m : Manifest) (p : Path) :
  fs !! manifestPath basePath = Some (FManifest m) → is_Some (m_id m) →
  s_type s ≠ Some CDS → s_metadata s = None →
  atLevel basePath "ui5-mock.yaml" p →
  (generate basePath s fs).1 !! p = fs !! p.
Proof.
  intros Hm Hid Ht Hmeta Hat.
  destruct (findProjectFiles_levelPaths basePath fs) as (Lpkg & Ly & Ll & Lk).
  rewrite (generate_edmx _ _ _ m) by done. cbv zeta.
  rewrite run_then_ret_fst.
  rewrite preserves_writeEDMX_without_metadata.
  - by apply (mergedEditor_level _ "ui5-mock.yaml").
  - by rewrite enhance_metadata.
  - intros H. apply Lpkg in H. by eapply (atLevel_neq _ "package.json" "ui5-mock.yaml").
  - intros H. apply Ly in H. by eapply (atLevel_neq _ "ui5.yaml" "ui5-mock.yaml").
  - intros H. apply Ll in H. by eapply (atLevel_neq _ "ui5-local.yaml" "ui5-mock.yaml").
  - intros rel. by eapply atLevel_not_payload.
Qed.

Lemma hoare_preserves_with {A : Type} (p : Path) (c : M A) (φ : option File → Prop)
    (R : Prop) :
  preserves p c →
  hoare (λ fs, φ (fs !! p) ∧ R) c (λ _ fs, φ (fs !! p) ∧ R) (λ fs, φ (fs !! p)).
Proof.
  intros Hc fs [Hv HR]. specialize (Hc fs).
  destruct (c fs) as [fs1 [e|x]]; simpl in Hc; by rewrite Hc.
Qed.

Lemma hoare_preserves_pred {A : Type} (p : Path) (c : M A) (φ : option File → Prop) :
  preserves p c →
  hoare (λ fs, φ (fs !! p)) c (λ _ fs, φ (fs !! p)) (λ fs, φ (fs !! p)).
Proof.
  intros Hc fs Hv. specialize (Hc fs). destruct (c fs) as [fs1 [e|x]]; simpl in Hc; by rewrite Hc.
Qed.

(** The mock-server block taken over from [ui5-mock.yaml] leaves the backend
    list of the local configuration as it is, and nothing is written. *)
Lemma hoare_generateMockserverMiddleware (P : Editor → Prop) (y : Path) (l : option Path)
    (x : UI5Config) :
  hoare P (generateMockserverMiddlewareBasedOnUi5MockYaml y l (Some x))
    (λ r fs, P fs ∧ ∃ x', r = Some x' ∧ backendsOf x' = backendsOf x
                          ∧ (findMockserverMiddleware x' = findMockserverMiddleware x
                             ∨ is_Some (findMockserverMiddleware x')))
    P.
Proof.
  unfold generateMockserverMiddlewareBasedOnUi5MockYaml. cbv zeta.
  eapply hoare_bind with (R := λ _ fs, P fs); [by apply hoare_readConfig|].
  intros mockConfig. eapply hoare_bind with (R := λ _ fs, P fs); [by apply hoare_get|].
  intros st. destruct l as [lp|]; [|apply hoare_ret; intros; split; [done|]; by eauto].
  destruct (findMockserverMiddleware mockConfig) as [k|];
    [|apply hoare_ret; intros; split; [done|]; by eauto].
  destruct (exists_in st lp); apply hoare_ret; intros; (split; [done|]).
  - eexists. split; [done|]. split; [apply backendsOf_updateMockserver|]. right.
    unfold findMockserverMiddleware, updateMockserverMiddleware, set_mockserver. simpl. by eexists.
  - by eauto.
Qed.

Lemma hoare_closingWrites_local (basePath : string) (paths : ProjectPaths) (s : OdataService)
    (l : Path) (x : UI5Config) (ψ : UI5Config → Prop) :
  levelPaths basePath paths → ui5LocalYaml paths = Some l → ψ x →
  let φ := λ fs : Editor, ∃ x', fs !! l = Some (FYaml x') ∧ ψ x' in
  hoare φ (closingWrites basePath paths s (Some x)) (λ _, φ) φ.
Proof.
  intros (Lpkg & Ly & Ll & Lk) Hl Hx φ. unfold closingWrites. rewrite Hl.
  pose proof (Ll l Hl) as Hat.
  eapply hoare_bind with (R := λ _, φ).
  { apply (hoare_preserves_pred l _ (λ o, ∃ x', o = Some (FYaml x') ∧ ψ x')).
    repeat preserves_step. apply preserves_updatePackageJson.
    eapply (atLevel_neq _ "package.json" "ui5-local.yaml"); [by apply Lpkg|done|done]. }
  intros _. eapply hoare_bind with (R := λ _, φ).
  { apply hoare_write. intros fs _. exists x. by rewrite lookup_insert_eq. }
  intros _. apply (hoare_preserves_pred l _ (λ o, ∃ x', o = Some (FYaml x') ∧ ψ x')).
  apply preserves_writeAnnotationXmlFiles. intros rel. by eapply atLevel_not_payload.
Qed.

(** The local YAML after [generate]: its backend list is the one
    [extendBackendMiddleware] wrote, with or without metadata; without
    metadata nothing else of it changes. *)
Lemma generate_local_yaml (basePath : string) (s : OdataService) (fs : Editor) (m : Manifest)
    (y l : Path) (c lc : UI5Config) :
  fs !! manifestPath basePath = Some (FManifest m) → is_Some (m_id m) →
  s_type s ≠ Some CDS →
  ui5Yaml (findProjectFiles basePath fs) = Some y → fs !! y = Some (FYaml c) →
  ui5LocalYaml (findProjectFiles basePath fs) = Some l → fs !! l = Some (FYaml lc) →
  let enhanced := enhance (m_dataSources m) (m_models m) s in
  ∃ lc', (generate basePath s fs).1 !! l = Some (FYaml lc')
         ∧ backendsOf lc' = backendsOf (extended enhanced lc)
         ∧ (s_metadata s = None → lc' = extended enhanced lc).
Proof.
  intros Hm Hid Ht Hy Hc Hl Hlc enhanced.
  pose proof (findProjectFiles_levelPaths basePath fs) as Hlevels.
  destruct Hlevels as (Lpkg & Ly & Ll & Lk).
  rewrite (generate_edmx _ _ _ m) by done. cbv zeta. fold enhanced.
  set (paths := findProjectFiles basePath fs) in *.
  rewrite run_then_ret_fst, writeEDMXServiceFiles_blocks, run_bind_fst.
  pose proof (Ly y Hy) as Haty. pose proof (Ll l Hl) as Hatl.
  assert (l ≠ y) as Hly by (by eapply (atLevel_neq _ "ui5-local.yaml" "ui5.yaml")).
  set (ψ := λ x : UI5Config, backendsOf x = backendsOf (extended enhanced lc)
                             ∧ (s_metadata s = None → x = extended enhanced lc)).
  set (φ := λ st : Editor, ∃ x', st !! l = Some (FYaml x') ∧ ψ x').
  assert (ψ (extended enhanced lc)) as Hψ by done.
  assert (∀ cy, hoare φ
            (ui5LocalConfig ← match s_metadata enhanced with
                               | Some _ =>
                                   ui5LocalConfig ← mockserverStep basePath paths
                                                      (Some cy, Some (extended enhanced lc))
                                                      enhanced;
                                   writeLocalServiceFiles basePath (getWebappPath basePath)
                                     templateRoot enhanced;;
                                   mret ui5LocalConfig
                               | None => mret (Some cy, Some (extended enhanced lc)).2
                               end;
             closingWrites basePath paths enhanced ui5LocalConfig) (λ _, φ) φ) as Hrest.
  { intros cy.
    eapply hoare_bind with (R := λ r st, φ st ∧ ∃ x', r = Some x' ∧ ψ x').
    - unfold enhanced at 1. rewrite enhance_metadata. fold enhanced.
      destruct (s_metadata s) as [md|] eqn:Hmeta.
      + eapply hoare_bind with (R := λ r st, φ st ∧ ∃ x', r = Some x' ∧ ψ x').
        * unfold mockserverStep. rewrite Hy. cbn [fst snd].
          eapply hoare_bind with (R := λ _, φ).
          { apply (hoare_preserves_pred l _ (λ o, ∃ x', o = Some (FYaml x') ∧ ψ x')).
            apply preserves_generateMockserverConfig.
            eapply (atLevel_neq _ "ui5-local.yaml" "ui5-mock.yaml"); [done|apply atLevel_base|done]. }
          intros _.
          eapply hoare_bind
            with (R := λ r st, φ st ∧ ∃ x', r = Some x' ∧ ψ x').
          { eapply hoare_conseq; [apply (hoare_generateMockserverMiddleware φ)|done| |done].
            intros r st (Hφ & x' & -> & Hb & _). split; [done|]. exists x'. split; [done|].
            split; [done|]. intros Hn. congruence. }
          intros r. eapply hoare_bind with (R := λ _ st, φ st ∧ ∃ x', r = Some x' ∧ ψ x').
          { apply (hoare_preserves_with l _ (λ o, ∃ x', o = Some (FYaml x') ∧ ψ x')
                     (∃ x', r = Some x' ∧ ψ x')).
            repeat preserves_step. apply preserves_extendBackendMiddlewareVia.
            eapply (atLevel_neq _ "ui5-mock.yaml" "ui5-local.yaml"); [by apply Lk|done|done]. }
          intros _. apply hoare_ret. by intros st [Hφ Hr].
        * intros r. eapply hoare_bind with (R := λ _ st, φ st ∧ ∃ x', r = Some x' ∧ ψ x').
          { apply (hoare_preserves_with l _ (λ o, ∃ x', o = Some (FYaml x') ∧ ψ x')
                     (∃ x', r = Some x' ∧ ψ x')).
            apply preserves_writeLocalServiceFiles.
            - intros rel. by eapply atLevel_not_payload.
            - intros rel. by eapply atLevel_not_payload. }
          intros _. apply hoare_ret. by intros st [Hφ Hr].
      + apply hoare_ret. intros st Hφ. split; [done|]. by exists (extended enhanced lc).
    - intros r. eapply hoare_conseq with (P' := λ st, φ st ∧ ∃ x', r = Some x' ∧ ψ x')
                                         (Q' := λ _, φ) (E' := φ); [|done..].
      intros st [Hφ (x' & -> & Hx')].
      by apply (hoare_closingWrites_local basePath paths enhanced l x' ψ). }
  assert (mergedEditor basePath enhanced m fs !! y = Some (FYaml c)) as Hc1
    by (by rewrite (mergedEditor_level _ "ui5.yaml")).
  assert (mergedEditor basePath enhanced m fs !! l = Some (FYaml lc)) as Hlc1
    by (by rewrite (mergedEditor_level _ "ui5-local.yaml")).
  unfold backendStep. rewrite Hy, Hl.
  rewrite run_bind, (readConfig_run _ _ _ Hc1).
  rewrite run_bind, extendBackendMiddleware_run.
  set (st1 := <[y := FYaml (extended enhanced c)]> (mergedEditor basePath enhanced m fs)).
  assert (st1 !! l = Some (FYaml lc)) as Hlc2 by (unfold st1; by rewrite lookup_insert_ne).
  rewrite !run_bind, (readConfig_run _ _ _ Hlc2).
  rewrite run_bind, extendBackendMiddleware_run. cbn [mret M_ret].
  specialize (Hrest (extended enhanced c) (<[l := FYaml (extended enhanced lc)]> st1)).
  match type of Hrest with
  | _ → match ?r with _ => _ end =>
      destruct r as [st3 [e|u]]; simpl
  end.
  all: destruct Hrest as (x' & Hx' & Hb & Hn);
    [exists (extended enhanced lc); by rewrite lookup_insert_eq|].
  all: by exists x'.
Qed.

Lemma findMockserver_updated (k : MockServer) (c : UI5Config) :
  findMockserverMiddleware (updateMockserverMiddleware k c) = Some k.
Proof. reflexivity. Qed.

Lemma hoare_generateMockserverConfig (basePath : string) (webappPath : Path) :
  hoare (λ _, True) (generateMockserverConfig basePath webappPath)
    (λ _ fs, hasMockserver (fs !! join (split basePath) ["ui5-mock.yaml"])) (λ _, True).
Proof.
  unfold generateMockserverConfig.
  eapply hoare_bind with (R := λ _ _, True); [by apply hoare_get|]. intros st. cbv zeta.
  eapply hoare_bind with (R := λ _ _, True).
  { intros fs _. by destruct (_ fs) as [fs1 [e|x]]. }
  intros base. apply hoare_write. intros fs _. rewrite lookup_insert_eq.
  eexists. split; [done|]. by rewrite findMockserver_updated.
Qed.

Lemma hoare_extend_mock_yaml (s : OdataService) (mp p : Path) :
  hoare (λ fs, hasMockserver (fs !! p))
    (ui5MockConfig ← readConfig mp; extendBackendMiddleware s ui5MockConfig mp;; mret tt)
    (λ _ fs, hasMockserver (fs !! p)) (λ _, True).
Proof.
  eapply hoare_bind
    with (R := λ c fs, hasMockserver (fs !! p) ∧ fs !! mp = Some (FYaml c)).
  { by apply hoare_readConfig. }
  intros c fs [(cm & Hcm & Hk) Hc]. rewrite run_bind, extendBackendMiddleware_run. cbn.
  destruct (decide (mp = p)) as [->|Hne].
  - rewrite lookup_insert_eq. eexists. split; [done|]. rewrite mockserver_of_extended.
    congruence.
  - rewrite lookup_insert_ne by done. by exists cm.
Qed.

Lemma backendStep_result (paths : ProjectPaths) (s : OdataService) (y : Path)
    (st st' : Editor) (configs : option UI5Config * option UI5Config) :
  ui5Yaml paths = Some y → backendStep paths s st = (st', inr configs) → is_Some configs.1.
Proof.
  intros Hy Hrun. unfold backendStep in Hrun. rewrite Hy, run_bind in Hrun.
  destruct (readConfig y st) as [st2 [e|cy]]; [done|].
  rewrite run_bind, extendBackendMiddleware_run, run_bind in Hrun.
  match type of Hrun with
  | match ?r with _ => _ end = _ => destruct r as [st3 [e|local]]
  end; [done|].
  injection Hrun as _ <-. by eexists.
Qed.

(** With metadata and a primary YAML, a [generate] that returns leaves a
    [ui5-mock.yaml] with a mock-server block in the project folder. *)
Lemma generate_mock_yaml_with_metadata (basePath : string) (s s' : OdataService)
    (fs fs' : Editor) (m : Manifest) :
  fs !! manifestPath basePath = Some (FManifest m) → is_Some (m_id m) →
  s_type s ≠ Some CDS → is_Some (s_metadata s) →
  is_Some (ui5Yaml (findProjectFiles basePath fs)) →
  generate basePath s fs = (fs', inr s') →
  hasMockserver (fs' !! join (split basePath) ["ui5-mock.yaml"]).
Proof.
  intros Hm Hid Ht [md Hmeta] [y Hy] Hgen.
  destruct (findProjectFiles_levelPaths basePath fs) as (Lpkg & Ly & Ll & Lk).
  rewrite (generate_edmx _ _ _ m) in Hgen by done. cbv zeta in Hgen.
  set (enhanced := enhance (m_dataSources m) (m_models m) s) in *.
  set (paths := findProjectFiles basePath fs) in *.
  set (mockPath := join (split basePath) ["ui5-mock.yaml"]).
  assert (atLevel basePath "ui5-mock.yaml" mockPath) as Hat by apply atLevel_base.
  assert (hoare (λ _, True) (writeEDMXServiceFiles basePath paths templateRoot enhanced)
            (λ _ st, hasMockserver (st !! mockPath)) (λ _, True)) as Hspec.
  { rewrite writeEDMXServiceFiles_blocks.
    eapply hoare_bind with (R := λ configs _, is_Some configs.1).
    { intros st _. destruct (backendStep paths enhanced st) as [st1 [e|configs]] eqn:Hrun;
        [done|]. by eapply backendStep_result. }
    intros configs.
    eapply hoare_bind with (R := λ _ st, hasMockserver (st !! mockPath)).
    - unfold enhanced at 1. rewrite enhance_metadata, Hmeta. fold enhanced.
      eapply hoare_bind with (R := λ _ st, hasMockserver (st !! mockPath)).
      + apply hoare_pure_pre. intros [cy Hcy].
        unfold mockserverStep. rewrite Hy, Hcy.
        eapply hoare_bind with (R := λ _ st, hasMockserver (st !! mockPath));
          [apply hoare_generateMockserverConfig|].
        intros _.
        eapply hoare_bind with (R := λ _ st, hasMockserver (st !! mockPath)).
        { eapply hoare_conseq;
            [apply (hoare_preserves_pred mockPath _ hasMockserver),
               preserves_generateMockserverMiddleware|done..]. }
        intros r.
        eapply hoare_bind with (R := λ _ st, hasMockserver (st !! mockPath));
          [|intros; by apply hoare_ret].
        destruct (ui5MockYaml paths) as [mp|]; [|by apply hoare_ret].
        apply hoare_extend_mock_yaml.
      + intros r.
        eapply hoare_bind with (R := λ _ st, hasMockserver (st !! mockPath));
          [|intros; by apply hoare_ret].
        eapply hoare_conseq;
          [apply (hoare_preserves_pred mockPath _ hasMockserver)|done..].
        apply preserves_writeLocalServiceFiles; intros rel; by eapply atLevel_not_payload.
    - intros local.
      eapply hoare_conseq; [apply (hoare_preserves_pred mockPath _ hasMockserver)|done..].
      apply preserves_closingWrites.
      + intros H. apply Lpkg in H. by eapply (atLevel_neq _ "package.json" "ui5-mock.yaml").
      + intros H. apply Ll in H. by eapply (atLevel_neq _ "ui5-local.yaml" "ui5-mock.yaml").
      + intros rel. by eapply atLevel_not_payload. }
  rewrite run_bind in Hgen. specialize (Hspec (mergedEditor basePath enhanced m fs) I).
  destruct (writeEDMXServiceFiles _ _ _ _ _) as [st [e|u]]; [done|].
  injection Hgen as <- _. exact Hspec.
Qed.




(** ** Removal *)

Lemma filter_all {A} (P : A → Prop) `{∀ x, Decision (P x)} (l : list A) :
  Forall P l → filter P l = l.
Proof.
  induction 1 as [|x l Hx Hl IH]; [done|]. rewrite filter_cons_True by done. by rewrite IH.
Qed.

Lemma removeBackend_free (s : OdataService) (c : UI5Config) :
  backendFree s c → removeBackendFromFioriToolsProxydMiddleware (s_url s) c = c.
Proof.
  unfold backendFree, backendsOf, removeBackendFromFioriToolsProxydMiddleware.
  destruct c as [[[[[bs ice]|] k]|]]; simpl; [|done..].
  intros Hfree. unfold set_proxy. simpl. by rewrite filter_all.
Qed.

Lemma removeService_free (s : OdataService) (c : UI5Config) :
  mockFree s c →
  removeServiceFromMockServerMiddleware (s_path s) (getEDMXAnnotationPaths (s_annotations s)) c
  = c.
Proof.
  unfold mockFree, removeServiceFromMockServerMiddleware, findMockserverMiddleware.
  destruct c as [[[p [[svs anns]|]]|]]; simpl; [|done..].
  intros Hfree. destruct (Hfree _ eq_refl) as [H1 H2]. simpl in *.
  unfold set_mockserver. simpl. by rewrite !filter_all.
Qed.

Lemma editConfig_id (path : option Path) (edit : UI5Config → UI5Config) (fs : Editor) :
  (∀ p, path = Some p → ∃ c, fs !! p = Some (FYaml c) ∧ edit c = c) →
  editConfig path edit fs = (fs, inr tt).
Proof.
  intros H. unfold editConfig. destruct path as [p|]; [|done].
  destruct (H p eq_refl) as (c & Hc & Hedit).
  rewrite run_bind, (readConfig_run _ _ _ Hc). unfold fs_write, modify.
  by rewrite Hedit, insert_id.
Qed.

Lemma removeAnnotationXmlFiles_absent (basePath name : string) (l : list EdmxAnnotationsInfo)
    (fs : Editor) :
  Forall (λ a, fs !! annotationFile (getWebappPath basePath) name a = None) l →
  removeAnnotationXmlFiles basePath name l fs = (fs, inr tt).
Proof.
  induction 1 as [|a l Ha Hl IH]; [done|].
  simpl. rewrite run_bind. unfold fs_delete, modify. by rewrite delete_id.
Qed.

Lemma deleteServiceFromManifest_unknown (basePath : string) (s : OdataService) (fs : Editor) :
  unknownService basePath s fs →
  deleteServiceFromManifest basePath (s_name s) fs = (fs, inr tt).
Proof.
  intros Hunk. unfold deleteServiceFromManifest, readManifest. rewrite run_bind. unfold get.
  cbv beta iota zeta. destruct (fs !! manifestPath basePath) as [[m| | | |]|] eqn:Hm; try done.
  destruct (s_name s) as [name|] eqn:Hn; [|done].
  by rewrite (Hunk m name Hm Hn).
Qed.

Lemma preserves_rest_of_remove (basePath : string) (fs0 : Editor) (s : OdataService) :
  preserves (manifestPath basePath)
    (if bool_decide (s_type s = Some EDMX)
     then
       editConfig (ui5Yaml (findProjectFiles basePath fs0))
         (removeBackendFromFioriToolsProxydMiddleware (s_url s));;
       editConfig (ui5LocalYaml (findProjectFiles basePath fs0))
         (λ c, removeServiceFromMockServerMiddleware (s_path s)
                 (getEDMXAnnotationPaths (s_annotations s))
                 (removeBackendFromFioriToolsProxydMiddleware (s_url s) c));;
       editConfig (ui5MockYaml (findProjectFiles basePath fs0))
         (λ c, removeServiceFromMockServerMiddleware (s_path s)
                 (getEDMXAnnotationPaths (s_annotations s))
                 (removeBackendFromFioriToolsProxydMiddleware (s_url s) c));;
       removeAnnotationXmlFiles basePath (serviceNameOf s) (s_annotations s)
     else removeAnnotationsFromCDSFiles (s_annotations s)).
Proof.
  destruct (findProjectFiles_levelPaths basePath fs0) as (Lpkg & Ly & Ll & Lk).
  case_bool_decide; [|apply preserves_ret].
  repeat (apply preserves_bind; [|intros _]).
  - apply preserves_editConfig. intros Heq. apply Ly in Heq. by eapply atLevel_not_manifest.
  - apply preserves_editConfig. intros Heq. apply Ll in Heq. by eapply atLevel_not_manifest.
  - apply preserves_editConfig. intros Heq. apply Lk in Heq. by eapply atLevel_not_manifest.
  - apply preserves_removeAnnotationXmlFiles. intros rel. rewrite manifestPath_webapp.
    intros Heq. by apply app_inv_head in Heq.
Qed.

Lemma remove_unfold (basePath : string) (s : OdataService) (fs : Editor) :
  remove basePath s fs =
    (deleteServiceFromManifest basePath (s_name s);;
     if bool_decide (s_type s = Some EDMX)
     then
       editConfig (ui5Yaml (findProjectFiles basePath fs))
         (removeBackendFromFioriToolsProxydMiddleware (s_url s));;
       editConfig (ui5LocalYaml (findProjectFiles basePath fs))
         (λ c, removeServiceFromMockServerMiddleware (s_path s)
                 (getEDMXAnnotationPaths (s_annotations s))
                 (removeBackendFromFioriToolsProxydMiddleware (s_url s) c));;
       editConfig (ui5MockYaml (findProjectFiles basePath fs))
         (λ c, removeServiceFromMockServerMiddleware (s_path s)
                 (getEDMXAnnotationPaths (s_annotations s))
                 (removeBackendFromFioriToolsProxydMiddleware (s_url s) c));;
       removeAnnotationXmlFiles basePath (serviceNameOf s) (s_annotations s)
     else removeAnnotationsFromCDSFiles (s_annotations s)) fs.
Proof. reflexivity. Qed.

(** C5, as the code has it: [remove] for a name that the data-source table
    does not hold leaves the manifest as it is; it is a no-op on the whole
    staged file system, without error, when in addition the located YAML
    files are YAML documents that hold no backend of the descriptor's url and
    no mock service or mock annotation of its paths, and none of its
    annotation files exists. *)
Theorem remove_unknown_service (basePath : string) (s : OdataService) (fs : Editor) :
  unknownService basePath s fs →
  let paths := findProjectFiles basePath fs in
  (remove basePath s fs).1 !! manifestPath basePath = fs !! manifestPath basePath
  ∧ ((∀ p, ui5Yaml paths = Some p → ∃ c, fs !! p = Some (FYaml c) ∧ backendFree s c) →
     (∀ p, ui5LocalYaml paths = Some p ∨ ui5MockYaml paths = Some p →
           ∃ c, fs !! p = Some (FYaml c) ∧ backendFree s c ∧ mockFree s c) →
     Forall (λ a, fs !! annotationFile (getWebappPath basePath) (serviceNameOf s) a = None)
       (s_annotations s) →
     remove basePath s fs = (fs, inr tt)).
Proof.
  intros Hunk paths. rewrite remove_unfold. split.
  - rewrite run_bind_fst, (deleteServiceFromManifest_unknown _ _ _ Hunk).
    apply preserves_rest_of_remove.
  - intros Hy Hlm Hfiles.
    rewrite run_bind, (deleteServiceFromManifest_unknown _ _ _ Hunk).
    case_bool_decide; [|done].
    assert (∀ c, backendFree s c → mockFree s c →
                 removeServiceFromMockServerMiddleware (s_path s)
                   (getEDMXAnnotationPaths (s_annotations s))
                   (removeBackendFromFioriToolsProxydMiddleware (s_url s) c) = c) as Hboth.
    { intros c Hb Hk. rewrite (removeBackend_free _ _ Hb). by apply removeService_free. }
    rewrite run_bind, editConfig_id.
    2:{ intros p Hp. destruct (Hy p Hp) as (c & Hc & Hb). exists c. split; [done|].
        by apply removeBackend_free. }
    rewrite run_bind, editConfig_id.
    2:{ intros p Hp. destruct (Hlm p (or_introl Hp)) as (c & Hc & Hb & Hk). exists c. auto. }
    rewrite run_bind, editConfig_id.
    2:{ intros p Hp. destruct (Hlm p (or_intror Hp)) as (c & Hc & Hb & Hk). exists c. auto. }
    by apply removeAnnotationXmlFiles_absent.
Qed.

(** The unit test "Try to remove an unexisting service": nothing changes. *)
Lemma remove_unknown_service_witness :
  remove "/tmp" (dummyService "https://dummyUrl") removeProject = (removeProject, inr tt).
Proof.
  destruct (remove_unknown_service "/tmp" (dummyService "https://dummyUrl") removeProject)
    as [_ Hnoop].
  - intros manifest name Hm Hn. vm_compute in Hm. injection Hm as <-. injection Hn as <-.
    vm_compute. reflexivity.
  - apply Hnoop.
    + intros p Hp. vm_compute in Hp. injection Hp as <-. eexists. split; [vm_compute; reflexivity|].
      apply Forall_cons. split; [discriminate|apply Forall_nil_2].
    + intros p [Hp|Hp]; vm_compute in Hp; injection Hp as <-;
        (eexists; split; [vm_compute; reflexivity|]);
        (split; [apply Forall_cons; split; [discriminate|apply Forall_nil_2]|]);
        intros k Hk; vm_compute in Hk; injection Hk as <-;
        (split; apply Forall_cons; (split; [|apply Forall_nil_2]));
        [ intros [=]
        | intros Hin; apply list_elem_of_singleton in Hin; vm_compute in Hin; discriminate
        | intros [=]
        | intros Hin; apply list_elem_of_singleton in Hin; vm_compute in Hin; discriminate ].
    + apply Forall_cons. split; [vm_compute; reflexivity|apply Forall_nil_2].
Defined.

(** C5, as the claim words it, fails: the name [dummyService] is unknown to
    the manifest, yet [remove] with the url of an existing backend deletes
    that backend from the three YAML files. *)
Lemma remove_unknown_service_deletes_backend :
  lookupKey "dummyService" (m_dataSources removeManifest) = None
  ∧ removeProject !! ["";"tmp";"webapp";"manifest.json"] = Some (FManifest removeManifest)
  ∧ (remove "/tmp" (dummyService "https://localhost") removeProject).2 = inr tt
  ∧ (backendsOf <$> (λ f, match f with FYaml c => Some c | _ => None end)
       (default (FText "") (removeProject !! ["";"tmp";"ui5.yaml"])))
    = Some (from_option p_backend [] localhostProxy)
  ∧ (remove "/tmp" (dummyService "https://localhost") removeProject).1 !! ["";"tmp";"ui5.yaml"]
    = Some (FYaml (proxyOnly []))
  ∧ (remove "/tmp" (dummyService "https://localhost") removeProject).1 !! ["";"tmp";"ui5.yaml"]
    ≠ removeProject !! ["";"tmp";"ui5.yaml"].
Proof. repeat split; vm_compute; (reflexivity || discriminate). Qed.

(** ** The layout migration *)

Lemma moveIntoNamespace_moved (w : Path) (k f f' : string) (fs : Editor) (content : File) :
  fs !! (w ++ [LOCAL_SERVICE; f]) = None →
  fs !! (w ++ [LOCAL_SERVICE; k; f]) = Some content →
  moveIntoNamespace w k fs f' !! (w ++ [LOCAL_SERVICE; f]) = None
  ∧ moveIntoNamespace w k fs f' !! (w ++ [LOCAL_SERVICE; k; f]) = Some content.
Proof.
  intros Hsrc Htgt. unfold moveIntoNamespace.
  destruct (fs !! (w ++ [LOCAL_SERVICE; f'])) as [c'|] eqn:Hf'; [|done].
  assert (f' ≠ f) as Hne by (intros ->; congruence).
  split.
  - rewrite lookup_insert_ne by (intros Heq; by apply app_inv_head in Heq).
    apply lookup_delete_None. by right.
  - rewrite lookup_insert_ne by (intros Heq; apply app_inv_head in Heq; congruence).
    rewrite lookup_delete_ne by (intros Heq; by apply app_inv_head in Heq). done.
Qed.

Lemma fold_moveIntoNamespace_moved (w : Path) (k f : string) (files : list string)
    (fs : Editor) (content : File) :
  fs !! (w ++ [LOCAL_SERVICE; f]) = None →
  fs !! (w ++ [LOCAL_SERVICE; k; f]) = Some content →
  fold_left (moveIntoNamespace w k) files fs !! (w ++ [LOCAL_SERVICE; f]) = None
  ∧ fold_left (moveIntoNamespace w k) files fs !! (w ++ [LOCAL_SERVICE; k; f]) = Some content.
Proof.
  revert fs. induction files as [|f' files IH]; intros fs Hsrc Htgt; [done|].
  simpl. destruct (moveIntoNamespace_moved w k f f' fs content Hsrc Htgt). by apply IH.
Qed.

(** Every flat file on the list ends up in the folder of the service. *)
Lemma fold_moveIntoNamespace_spec (w : Path) (k f : string) (files : list string)
    (fs : Editor) (content : File) :
  f ∈ files → fs !! (w ++ [LOCAL_SERVICE; f]) = Some content →
  fold_left (moveIntoNamespace w k) files fs !! (w ++ [LOCAL_SERVICE; f]) = None
  ∧ fold_left (moveIntoNamespace w k) files fs !! (w ++ [LOCAL_SERVICE; k; f]) = Some content.
Proof.
  revert fs. induction files as [|f' files IH]; intros fs Hin Hsrc.
  - by apply elem_of_nil in Hin.
  - simpl. destruct (decide (f' = f)) as [->|Hne].
    + apply fold_moveIntoNamespace_moved; unfold moveIntoNamespace; rewrite Hsrc.
      * rewrite lookup_insert_ne by (intros Heq; by apply app_inv_head in Heq).
        by rewrite lookup_delete_eq.
      * by rewrite lookup_insert_eq.
    + apply elem_of_cons in Hin as [->|Hin]; [done|]. apply IH; [done|].
      unfold moveIntoNamespace. destruct (fs !! (w ++ [LOCAL_SERVICE; f'])); [|done].
      rewrite lookup_insert_ne by (intros Heq; by apply app_inv_head in Heq).
      rewrite lookup_delete_ne by (intros Heq; apply app_inv_head in Heq; congruence). done.
Qed.

Lemma elem_of_upsert_other {V} (k k' : string) (v v' : V) (l : list (string * V)) :
  (k', v') ∈ l → k' ≠ k → (k', v') ∈ upsert k v l.
Proof.
  intros Hin Hne. induction l as [|[k0 v0] l IH]; [by apply elem_of_nil in Hin|].
  simpl. apply elem_of_cons in Hin as [Heq|Hin].
  - injection Heq as <- <-. rewrite decide_False by done. by left.
  - case_decide; [by right|]. right. by apply IH.
Qed.

Lemma elem_of_mergeAnnotations_other (name k : string) (v : DataSource)
    (l : list EdmxAnnotationsInfo) (ds : list (string * DataSource)) :
  (k, v) ∈ ds → Forall (λ a, annotationKey a ≠ k) l →
  (k, v) ∈ fold_left (λ acc a, upsert (annotationKey a) (annotationEntry name a) acc) l ds.
Proof.
  intros Hin Hl. revert ds Hin. induction Hl as [|a l Ha Hl IH]; intros ds Hin; [done|].
  simpl. apply IH. by apply elem_of_upsert_other.
Qed.

Lemma lookupKey_elem_of {V} (k : string) (v : V) (l : list (string * V)) :
  (k, v) ∈ l → is_Some (lookupKey k l).
Proof.
  unfold lookupKey. induction l as [|[k0 v0] l IH]; intros Hin; [by apply elem_of_nil in Hin|].
  simpl. case_bool_decide; [by eexists|]. apply IH.
  apply elem_of_cons in Hin as [Heq|Hin]; [|done]. simpl in *. congruence.
Qed.

Lemma loneFlatService_second (ds : list (string * DataSource)) (first second : string)
    (d : DataSource) :
  filter (λ e, isOData e = true) ds = [(first, d)] →
  is_Some (flatFile (ds_localUri d)) → second ≠ first →
  loneFlatService ds second = Some (first, d).
Proof.
  intros Hone Hflat Hne. unfold loneFlatService. rewrite Hone. simpl.
  rewrite bool_decide_eq_true_2 by congruence. by rewrite bool_decide_eq_true_2.
Qed.

Lemma writeAnnotationXmlFiles_keeps (basePath name : string) (l : list EdmxAnnotationsInfo)
    (p : Path) (fs : Editor) :
  is_Some (fs !! p) → is_Some ((writeAnnotationXmlFiles basePath name l fs).1 !! p).
Proof.
  revert fs. induction l as [|a l IH]; intros fs Hp; [done|].
  simpl. rewrite run_bind_fst. destruct (a_xml a) as [xml|]; simpl; apply IH; [|done].
  destruct (decide (annotationFile (getWebappPath basePath) name a = p)) as [->|Hne].
  - by rewrite lookup_insert_eq.
  - by rewrite lookup_insert_ne.
Qed.

Lemma hoare_any {A : Type} (P : Editor → Prop) (c : M A) :
  hoare P c (λ _ _, True) (λ _, True).
Proof. intros fs _. by destruct (c fs) as [fs1 [e|x]]. Qed.

(** With metadata, a [writeEDMXServiceFiles] that returns has written the
    metadata file of the service. *)
Lemma hoare_writeEDMX_metadata (basePath : string) (paths : ProjectPaths) (tr : Path)
    (s : OdataService) :
  is_Some (s_metadata s) → levelPaths basePath paths →
  hoare (λ _, True) (writeEDMXServiceFiles basePath paths tr s)
    (λ _ fs, is_Some (fs !! (getWebappPath basePath
                             ++ [LOCAL_SERVICE; serviceNameOf s; "metadata.xml"])))
    (λ _, True).
Proof.
  intros [md Hmeta] (Lpkg & Ly & Ll & Lk).
  set (K := getWebappPath basePath ++ [LOCAL_SERVICE; serviceNameOf s; "metadata.xml"]).
  rewrite writeEDMXServiceFiles_blocks, Hmeta.
  eapply hoare_bind with (R := λ _ _, True); [apply hoare_any|]. intros configs.
  eapply hoare_bind with (R := λ _ fs, is_Some (fs !! K)).
  - eapply hoare_bind with (R := λ _ _, True); [apply hoare_any|]. intros local.
    eapply hoare_bind with (R := λ _ fs, is_Some (fs !! K)); [|intros; by apply hoare_ret].
    unfold writeLocalServiceFiles. rewrite webapp_join. fold K.
    eapply hoare_bind with (R := λ _ fs, is_Some (fs !! K)).
    + apply hoare_write. intros fs _. by rewrite lookup_insert_eq.
    + intros _. destruct (s_localAnnotationsName s) as [n|]; [|by apply hoare_ret].
      apply hoare_write. intros fs HK. rewrite lookup_insert_ne; [done|].
      rewrite webapp_named. unfold K. intros Heq. by apply app_inv_head in Heq.
  - intros local. unfold closingWrites.
    eapply hoare_bind with (R := λ _ fs, is_Some (fs !! K)).
    { eapply hoare_conseq; [apply (hoare_preserves_pred K _ is_Some)|done..].
      repeat preserves_step. apply preserves_updatePackageJson.
      eapply atLevel_not_webapp; [by apply Lpkg|done]. }
    intros _. eapply hoare_bind with (R := λ _ fs, is_Some (fs !! K)).
    { eapply hoare_conseq; [apply (hoare_preserves_pred K _ is_Some)|done..].
      repeat preserves_step. apply preserves_write.
      eapply atLevel_not_webapp; [by apply Ll|done]. }
    intros _ fs HK.
    pose proof (writeAnnotationXmlFiles_keeps basePath (serviceNameOf s) (s_annotations s) K fs HK).
    by destruct (writeAnnotationXmlFiles _ _ _ fs) as [fs1 [e|x]].
Qed.

Lemma fold_moveIntoNamespace_elsewhere (w : Path) (k : string) (files : list string)
    (fs : Editor) (p : Path) :
  (∀ f, p ≠ w ++ [LOCAL_SERVICE; f]) → (∀ f, p ≠ w ++ [LOCAL_SERVICE; k; f]) →
  fold_left (moveIntoNamespace w k) files fs !! p = fs !! p.
Proof.
  intros H1 H2. revert fs. induction files as [|f files IH]; intros fs; [done|].
  simpl. rewrite IH. unfold moveIntoNamespace.
  destruct (fs !! (w ++ [LOCAL_SERVICE; f])); [|done].
  rewrite lookup_insert_ne by (apply not_eq_sym, H2).
  by rewrite lookup_delete_ne by (apply not_eq_sym, H1).
Qed.



(** ** Round trip *)

Lemma lookupKey_None {V} (k : string) (l : list (string * V)) :
  lookupKey k l = None ↔ Forall (λ e, e.1 ≠ k) l.
Proof.
  unfold lookupKey. induction l as [|[k0 v0] l IH]; simpl; [by split; [constructor|]|].
  case_bool_decide as Hk; simpl in *.
  - split; [done|]. intros H. apply Forall_cons in H as [H _]. done.
  - rewrite IH. split; [by constructor|]. intros H. by apply Forall_cons in H as [_ H].
Qed.

Lemma upsert_app_fresh {V} (k : string) (v : V) (base tail : list (string * V)) :
  lookupKey k base = None → upsert k v (base ++ tail) = base ++ upsert k v tail.
Proof.
  intros Hk. apply lookupKey_None in Hk. induction Hk as [|e base He Hk IH]; [done|].
  simpl. rewrite decide_False by done. by rewrite IH.
Qed.

Lemma upsert_fresh {V} (k : string) (v : V) (l : list (string * V)) :
  lookupKey k l = None → upsert k v l = l ++ [(k, v)].
Proof.
  intros Hk. rewrite <- (app_nil_r l) at 1. by rewrite upsert_app_fresh.
Qed.

Lemma mergeAnnotations_app_fresh (name : string) (l : list EdmxAnnotationsInfo)
    (base tail : list (string * DataSource)) :
  Forall (λ a, lookupKey (annotationKey a) base = None) l →
  fold_left (λ acc a, upsert (annotationKey a) (annotationEntry name a) acc) l (base ++ tail)
  = base ++ fold_left (λ acc a, upsert (annotationKey a) (annotationEntry name a) acc) l tail.
Proof.
  intros Hl. revert tail. induction Hl as [|a l Ha Hl IH]; intros tail; [done|].
  simpl. by rewrite upsert_app_fresh, IH.
Qed.

Lemma elem_of_upsert {V} (k : string) (v : V) (l : list (string * V)) (e : string * V) :
  e ∈ upsert k v l → e = (k, v) ∨ e ∈ l.
Proof.
  induction l as [|e0 l IH]; simpl.
  - intros He. apply list_elem_of_singleton in He. by left.
  - case_decide.
    + intros He. apply elem_of_cons in He as [->|He]; [by left|]. right. by right.
    + intros He. apply elem_of_cons in He as [->|He]; [right; by left|].
      destruct (IH He) as [->|Hin]; [by left|]. right. by right.
Qed.

Lemma elem_of_mergeAnnotations (name : string) (l : list EdmxAnnotationsInfo)
    (tail : list (string * DataSource)) (e : string * DataSource) :
  e ∈ fold_left (λ acc a, upsert (annotationKey a) (annotationEntry name a) acc) l tail →
  e ∈ tail ∨ ∃ a, a ∈ l ∧ e = (annotationKey a, annotationEntry name a).
Proof.
  revert tail. induction l as [|a l IH]; intros tail He; [by left|].
  simpl in He. destruct (IH _ He) as [Hin|(b & Hb & ->)].
  - apply elem_of_upsert in Hin as [->|Hin]; [|by left].
    right. exists a. split; [by left|done].
  - right. exists b. split; [by right|done].
Qed.

Lemma appendAbsent_subset (new old : list string) (k : string) :
  k ∈ appendAbsent new old → k ∈ old ∨ k ∈ new.
Proof.
  unfold appendAbsent. revert old. induction new as [|n new IH]; intros old Hk; [by left|].
  simpl in Hk. destruct (IH _ Hk) as [Hin|Hin]; [|right; by right].
  case_bool_decide; [by left|].
  apply elem_of_app in Hin as [Hin|Hin]; [by left|].
  apply list_elem_of_singleton in Hin as ->. right. by left.
Qed.

Lemma filter_none {A} (P : A → Prop) `{∀ x, Decision (P x)} (l : list A) :
  Forall (λ x, ¬ P x) l → filter P l = [].
Proof.
  induction 1 as [|x l Hx Hl IH]; [done|]. rewrite filter_cons. by rewrite decide_False.
Qed.

Lemma migratedDataSources_elem (ds : list (string * DataSource)) (name : string)
    (e : string * DataSource) :
  e ∈ migratedDataSources ds name →
  ∃ e0, e0 ∈ ds ∧ e.1 = e0.1 ∧ ds_type e.2 = ds_type e0.2
        ∧ ds_annotations e.2 = ds_annotations e0.2.
Proof.
  unfold migratedDataSources. destruct (loneFlatService ds name) as [[k d]|]; [|by exists e].
  unfold migrateTable. intros He. apply list_elem_of_fmap in He as (e0 & -> & He0).
  exists e0. split; [done|]. destruct (migrates k d e0); [|done].
  simpl. unfold namespaced. by destruct (flatFile (ds_localUri e0.2)).
Qed.

Lemma lookupKey_migratedDataSources (ds : list (string * DataSource)) (name k : string) :
  lookupKey k ds = None → lookupKey k (migratedDataSources ds name) = None.
Proof.
  rewrite !lookupKey_None. intros Hk. apply Forall_forall. intros e He.
  apply migratedDataSources_elem in He as (e0 & He0 & -> & _).
  by apply (proj1 (Forall_forall _ _) Hk).
Qed.

Lemma annotationEntry_not_local (name : string) (a : EdmxAnnotationsInfo) :
  isLocalAnnotation (annotationEntry name a) = false.
Proof.
  unfold isLocalAnnotation. apply bool_decide_eq_false. by intros [=].
Qed.

(** Deleting a service that the merger has just added, with its annotations
    and its model, gives back the table as the migration left it and the
    models as they were. *)
Lemma deleteService_mergeManifest (s : OdataService) (m : Manifest) :
  let name := serviceNameOf s in
  lookupKey name (m_dataSources m) = None →
  Forall (λ a, annotationKey a ≠ name ∧ lookupKey (annotationKey a) (m_dataSources m) = None)
    (s_annotations s) →
  referencesResolved (m_dataSources m) →
  lookupKey (default "" (s_model s)) (m_models m) = None →
  Forall (λ e, e.2 ≠ Some name) (m_models m) →
  deleteService name (mergeManifest s m)
  = {| m_id := m_id m;
       m_dataSources := migratedDataSources (m_dataSources m) name;
       m_models := m_models m |}.
Proof.
  intros name Hnew Hanns Hrefs Hmodel Hbound.
  set (dsm := migratedDataSources (m_dataSources m) name).
  assert (lookupKey name dsm = None) as Hdsm by (by apply lookupKey_migratedDataSources).
  set (E := serviceEntry s None).
  set (T := fold_left (λ acc a, upsert (annotationKey a) (annotationEntry name a) acc)
              (s_annotations s) [(name, E)]).
  assert (mergeDataSources s dsm = dsm ++ T) as Hmerged.
  { unfold mergeDataSources. cbv zeta. fold name. rewrite Hdsm. fold E.
    rewrite upsert_fresh by done. apply mergeAnnotations_app_fresh.
    eapply Forall_impl; [exact Hanns|]. intros a [_ Ha]. simpl.
    by apply lookupKey_migratedDataSources. }
  assert (lookupKey name (dsm ++ T) = Some E) as Hown.
  { rewrite <- Hmerged. unfold name. rewrite lookupKey_mergeDataSources_name.
    - fold name. by rewrite Hdsm.
    - eapply Forall_impl; [exact Hanns|]. by intros a [Ha _]. }
  assert (∀ a, a ∈ s_annotations s → annotationKey a ∈ ds_annotations E) as Hlisted.
  { intros a Ha. simpl. apply appendAbsent_new. by apply list_elem_of_fmap_2. }
  assert (∀ e a, e ∈ dsm → a ∈ s_annotations s →
            annotationKey a ≠ e.1 ∧ annotationKey a ∉ ds_annotations e.2) as Hold.
  { intros e a He Ha. apply migratedDataSources_elem in He as (e0 & He0 & -> & _ & ->).
    pose proof (proj1 (Forall_forall _ _) Hanns a Ha) as [_ Hfresh]. split.
    - intros Heq. apply lookupKey_None in Hfresh.
      by apply (proj1 (Forall_forall _ _) Hfresh e0 He0).
    - intros Hin. pose proof (proj1 (Forall_forall _ _) Hrefs e0 He0) as Hres.
      apply (proj1 (Forall_forall _ _) Hres) in Hin as [? ?]. congruence. }
  unfold deleteService, mergeManifest. cbn [m_dataSources m_models m_id]. fold name dsm.
  rewrite Hmerged, Hown. f_equal.
  - rewrite filter_app, filter_all, filter_none; [by rewrite app_nil_r| |].
    + apply Forall_forall. intros e He [Hne Hrem].
      destruct (elem_of_mergeAnnotations _ _ _ _ He) as [Hin|(a & Ha & ->)].
      { apply list_elem_of_singleton in Hin as ->. done. }
      revert Hrem. unfold removable. cbn [fst snd annotationEntry ds_type].
      rewrite (bool_decide_eq_true_2 _ (Hlisted a Ha)).
      rewrite bool_decide_eq_true_2 by done.
      change {| ds_uri := annotationPath (a_technicalName a); ds_type := ODataAnnotation;
                ds_localUri := Some [LOCAL_SERVICE; name; a_technicalName a +:+ ".xml"];
                ds_annotations := []; ds_odataVersion := None |}
        with (annotationEntry name a).
      rewrite annotationEntry_not_local. simpl.
      unfold referencedElsewhere. rewrite bool_decide_eq_false_2; [done|].
      intros Hex. apply Exists_exists in Hex as (e' & He' & Hn' & Ht' & Hin').
      apply elem_of_app in He' as [He'|He'].
      * by destruct (Hold e' a He' Ha).
      * destruct (elem_of_mergeAnnotations _ _ _ _ He') as [Hin|(b & Hb & ->)].
        -- apply list_elem_of_singleton in Hin as ->. done.
        -- done.
    + apply Forall_forall. intros e He. split.
      * apply lookupKey_None in Hdsm. by apply (proj1 (Forall_forall _ _) Hdsm).
      * unfold removable. rewrite (bool_decide_eq_false_2 (e.1 ∈ ds_annotations E)); [done|].
        intros Hin. simpl in Hin. apply appendAbsent_subset in Hin as [Hin|Hin].
        { by apply elem_of_nil in Hin. }
        apply list_elem_of_fmap in Hin as (a & Heq & Ha).
        destruct (Hold e a He Ha) as [Hk _]. congruence.
  - unfold mergeModels. fold name. rewrite upsert_fresh by done.
    rewrite filter_app, filter_all by done.
    rewrite filter_cons, decide_False by (intros Hne; by apply Hne).
    by rewrite app_nil_r.
Qed.

Lemma deleteServiceFromManifest_known (basePath name : string) (fs : Editor) (m : Manifest) :
  fs !! manifestPath basePath = Some (FManifest m) →
  is_Some (lookupKey name (m_dataSources m)) →
  deleteServiceFromManifest basePath (Some name) fs
  = (<[manifestPath basePath := FManifest (deleteService name m)]> fs, inr tt).
Proof.
  intros Hm Hk. unfold deleteServiceFromManifest, readManifest. rewrite run_bind. unfold get.
  cbv beta iota zeta. rewrite Hm. by rewrite bool_decide_eq_true_2.
Qed.

(** The manifest after [remove] of a service that the manifest knows. *)
Lemma remove_manifest (basePath name : string) (s : OdataService) (fs : Editor) (m : Manifest) :
  fs !! manifestPath basePath = Some (FManifest m) → s_name s = Some name →
  is_Some (lookupKey name (m_dataSources m)) →
  (remove basePath s fs).1 !! manifestPath basePath = Some (FManifest (deleteService name m)).
Proof.
  intros Hm Hn Hk. rewrite remove_unfold, run_bind_fst, Hn.
  rewrite (deleteServiceFromManifest_known _ _ _ m Hm Hk).
  rewrite (preserves_rest_of_remove basePath fs). by rewrite lookup_insert_eq.
Qed.




(** ** Update-or-append, applied twice *)

Section UpsertBy.
Context {E K : Type} `{EqDecision K} (key : E → K).

Lemma upsertBy_overwrite (a b : E) (z : list E) :
  key a = key b → upsertBy key a (upsertBy key b z) = upsertBy key a z.
Proof.
  intros Hk. induction z as [|x z IH]; simpl.
  - by rewrite decide_True.
  - repeat (case_decide; simpl); try congruence.
Qed.

Lemma upsertBy_keys (a : E) (z : list E) (k : K) :
  k ∈ key <$> upsertBy key a z ↔ k = key a ∨ k ∈ key <$> z.
Proof.
  induction z as [|x z IH]; simpl.
  - rewrite list_elem_of_singleton. split; [by left|]. intros [|Hin]; [done|].
    by apply elem_of_nil in Hin.
  - destruct (decide (key x = key a)) as [Hx|Hx]; simpl; rewrite !elem_of_cons.
    + rewrite Hx. tauto.
    + rewrite IH. tauto.
Qed.

Lemma upsertBy_comm (a b : E) (z : list E) :
  key a ≠ key b → key a ∈ key <$> z ∨ key b ∈ key <$> z →
  upsertBy key a (upsertBy key b z) = upsertBy key b (upsertBy key a z).
Proof.
  intros Hab. induction z as [|x z IH]; intros Hin.
  - destruct Hin as [Hin|Hin]; by apply elem_of_nil in Hin.
  - simpl. repeat (case_decide; simpl); try congruence. f_equal. apply IH.
    simpl in Hin. rewrite !elem_of_cons in Hin. destruct Hin as [[|]|[|]]; auto; congruence.
Qed.

Lemma fold_upsertBy_keys (l : list E) (z : list E) (k : K) :
  k ∈ key <$> fold_left (λ acc e, upsertBy key e acc) l z ↔ k ∈ key <$> l ∨ k ∈ key <$> z.
Proof.
  revert z. induction l as [|a l IH]; intros z; simpl.
  - split; [by right|]. intros [Hin|]; [|done]. by apply elem_of_nil in Hin.
  - rewrite IH, upsertBy_keys, elem_of_cons. tauto.
Qed.

Lemma fold_upsertBy_absorb (a : E) (l : list E) (z : list E) :
  Forall (λ b, key b ∈ key <$> z) l →
  upsertBy key a (fold_left (λ acc e, upsertBy key e acc) l (upsertBy key a z))
  = upsertBy key a (fold_left (λ acc e, upsertBy key e acc) l z).
Proof.
  intros Hl. revert z Hl. induction l as [|b l IH]; intros z Hl; simpl.
  - by apply upsertBy_overwrite.
  - apply Forall_cons in Hl as [Hb Hl]. destruct (decide (key b = key a)) as [Hk|Hk].
    + by rewrite upsertBy_overwrite.
    + rewrite upsertBy_comm by auto. apply IH.
      eapply Forall_impl; [exact Hl|]. intros c Hc. simpl. apply upsertBy_keys. by right.
Qed.

(** Applying the same list of updates a second time changes nothing. *)
Lemma fold_upsertBy_idem (l : list E) (x : list E) :
  fold_left (λ acc e, upsertBy key e acc) l (fold_left (λ acc e, upsertBy key e acc) l x)
  = fold_left (λ acc e, upsertBy key e acc) l x.
Proof.
  induction l as [|a l IH] using rev_ind; [done|].
  rewrite !fold_left_app. simpl. rewrite fold_upsertBy_absorb; [by rewrite IH|].
  apply Forall_forall. intros b Hb. apply fold_upsertBy_keys. left.
  by apply list_elem_of_fmap_2.
Qed.

Lemma upsertBy_same (a : E) (z : list E) :
  List.find (λ x, bool_decide (key x = key a)) z = Some a → upsertBy key a z = z.
Proof.
  induction z as [|x z IH]; simpl; [done|].
  case_bool_decide as Hx.
  - intros [= ->]. by rewrite decide_True.
  - intros Hf. rewrite decide_False by done. by rewrite IH.
Qed.
End UpsertBy.

Lemma upsert_upsertBy {V} (k : string) (v : V) (l : list (string * V)) :
  upsert k v l = upsertBy fst (k, v) l.
Proof. induction l as [|e l IH]; simpl; [done|]. case_decide; [done|]. by rewrite IH. Qed.

Lemma upsertService_upsertBy (e : MockService) (l : list MockService) :
  upsertService e l = upsertBy serviceName e l.
Proof. induction l as [|x l IH]; simpl; [done|]. case_decide; [done|]. by rewrite IH. Qed.

Lemma upsertBackend_upsertBy (b : ProxyBackend) (l : list ProxyBackend) :
  upsertBackend b l = upsertBy b_path b l.
Proof. induction l as [|x l IH]; simpl; [done|]. case_decide; [done|]. by rewrite IH. Qed.

Lemma upsertBackend_idem (b : ProxyBackend) (l : list ProxyBackend) :
  upsertBackend b (upsertBackend b l) = upsertBackend b l.
Proof. rewrite !upsertBackend_upsertBy. by apply upsertBy_overwrite. Qed.

Lemma appendAbsent_idem (new old : list string) :
  appendAbsent new (appendAbsent new old) = appendAbsent new old.
Proof.
  assert (∀ l x, Forall (λ k, k ∈ x) l → appendAbsent l x = x) as Hfix.
  { unfold appendAbsent. intros l x Hl. induction Hl as [|k l Hk Hl IH]; [done|].
    simpl. by rewrite bool_decide_eq_true_2. }
  apply Hfix. apply Forall_forall. intros k Hk. by apply appendAbsent_new.
Qed.

(** ** The synchronisers, applied twice *)

Lemma extended_idem (s : OdataService) (c : UI5Config) :
  extended s (extended s c) = extended s c.
Proof.
  destruct c as [[[[[backend ice]|] k]|]]; unfold extended; simpl.
  - unfold set_proxy. simpl. by rewrite upsertBackend_idem.
  - unfold set_proxy. simpl. by rewrite decide_True.
  - unfold set_proxy. simpl. by rewrite decide_True.
Qed.

Lemma extended_updateMockserverMiddleware (s : OdataService) (k : MockServer) (c : UI5Config) :
  extended s (updateMockserverMiddleware k c) = updateMockserverMiddleware k (extended s c).
Proof. by destruct c as [[[[[backend ice]|] k0]|]]. Qed.

Lemma updateMockserverMiddleware_same (k : MockServer) (c : UI5Config) :
  findMockserverMiddleware c = Some k → updateMockserverMiddleware k c = c.
Proof. destruct c as [[[[p|] [k0|]]|]]; simpl; intros [=]; by subst. Qed.

Lemma fold_left_fmap {A B C : Type} (f : C → B → C) (g : A → B) (l : list A) (x : C) :
  fold_left (λ acc a, f acc (g a)) l x = fold_left f (g <$> l) x.
Proof. revert x. induction l as [|a l IH]; intros x; simpl; [done|]. apply IH. Qed.

Lemma refreshMockserver_idem (ds : list (string * DataSource)) (k : MockServer) :
  refreshMockserver ds (refreshMockserver ds k) = refreshMockserver ds k.
Proof.
  unfold refreshMockserver. cbn [k_services k_annotations]. f_equal.
  - set (g := λ e : string * DataSource, {| serviceName := e.1; servicePath := ds_uri e.2 |}).
    assert (∀ l x, fold_left (λ acc e, upsertService (g e) acc) l x
                   = fold_left (λ acc e, upsertBy serviceName e acc) (g <$> l) x) as Hfold.
    { intros l x. rewrite <- fold_left_fmap. revert x.
      induction l as [|e l IH]; intros x; simpl; [done|].
      by rewrite IH, upsertService_upsertBy. }
    rewrite !Hfold. apply fold_upsertBy_idem.
  - apply appendAbsent_idem.
Qed.

(** ** The merger and the enhancer, applied twice *)

Lemma lookupKey_find {V} (k : string) (v : V) (l : list (string * V)) :
  lookupKey k l = Some v → List.find (λ x, bool_decide (x.1 = k)) l = Some (k, v).
Proof.
  unfold lookupKey. induction l as [|[k0 v0] l IH]; simpl; [done|].
  case_bool_decide; simpl in *; [|done]. intros [= ->]. by subst.
Qed.

Lemma upsert_same {V} (k : string) (v : V) (l : list (string * V)) :
  lookupKey k l = Some v → upsert k v l = l.
Proof.
  intros Hl. rewrite upsert_upsertBy. apply upsertBy_same. by apply lookupKey_find.
Qed.

Lemma lookupKey_filter_isOData (k : string) (d : DataSource) (ds : list (string * DataSource)) :
  lookupKey k ds = Some d → ds_type d = OData → (k, d) ∈ filter (λ e, isOData e = true) ds.
Proof.
  intros Hl Ht. apply lookupKey_find in Hl. apply list_elem_of_filter. split.
  - unfold isOData. by apply bool_decide_eq_true.
  - clear Ht. induction ds as [|e ds IH]; simpl in Hl; [done|].
    case_bool_decide; [injection Hl as ->; by left|]. right. by apply IH.
Qed.

(** A service that the table holds already triggers no migration. *)
Lemma loneFlatService_known (ds : list (string * DataSource)) (name : string) (d : DataSource) :
  lookupKey name ds = Some d → ds_type d = OData → loneFlatService ds name = None.
Proof.
  intros Hl Ht. pose proof (lookupKey_filter_isOData _ _ _ Hl Ht) as Hin.
  unfold loneFlatService. destruct (filter _ ds) as [|e [|e' rest]]; try done.
  apply list_elem_of_singleton in Hin as <-. simpl.
  by rewrite bool_decide_eq_false_2 by (by intros Hne).
Qed.

Lemma serviceEntry_idem (s : OdataService) (old : option DataSource) :
  serviceEntry s (Some (serviceEntry s old)) = serviceEntry s old.
Proof. unfold serviceEntry. simpl. by rewrite appendAbsent_idem. Qed.

Lemma mergeDataSources_idem (s : OdataService) (ds : list (string * DataSource)) :
  Forall (λ a, annotationKey a ≠ serviceNameOf s) (s_annotations s) →
  mergeDataSources s (mergeDataSources s ds) = mergeDataSources s ds.
Proof.
  intros Hfresh. unfold mergeDataSources at 1. cbv zeta.
  rewrite lookupKey_mergeDataSources_name by done. rewrite serviceEntry_idem.
  rewrite upsert_same by (by apply lookupKey_mergeDataSources_name).
  unfold mergeDataSources. cbv zeta.
  set (g := λ a, (annotationKey a, annotationEntry (serviceNameOf s) a)).
  assert (∀ l x, fold_left (λ acc a, upsert (annotationKey a)
                                       (annotationEntry (serviceNameOf s) a) acc) l x
                 = fold_left (λ acc e, upsertBy fst e acc) (g <$> l) x) as Hfold.
  { intros l x. rewrite <- fold_left_fmap. revert x.
    induction l as [|a l IH]; intros x; simpl; [done|].
    by rewrite IH, upsert_upsertBy. }
  rewrite !Hfold. apply fold_upsertBy_idem.
Qed.

Lemma mergeManifest_idem (s : OdataService) (manifest : Manifest) :
  Forall (λ a, annotationKey a ≠ serviceNameOf s) (s_annotations s) →
  mergeManifest s (mergeManifest s manifest) = mergeManifest s manifest
  ∧ loneFlatService (m_dataSources (mergeManifest s manifest)) (serviceNameOf s) = None.
Proof.
  intros Hfresh.
  assert (loneFlatService (m_dataSources (mergeManifest s manifest)) (serviceNameOf s) = None)
    as Hlone.
  { eapply loneFlatService_known; [by apply lookupKey_mergeDataSources_name|done]. }
  split; [|done]. unfold mergeManifest at 1. unfold migratedDataSources. rewrite Hlone.
  unfold mergeManifest. cbn [m_id m_dataSources m_models].
  rewrite mergeDataSources_idem by done. unfold mergeModels.
  rewrite !upsert_upsertBy. by rewrite upsertBy_overwrite.
Qed.

Lemma withTrailingSep_idem (p : string) : withTrailingSep (withTrailingSep p) = withTrailingSep p.
Proof. unfold withTrailingSep at 1. by rewrite endsWithSep_withTrailingSep. Qed.

Lemma orElse_idem {A : Type} (x y : option A) : orElse (orElse x y) y = orElse x y.
Proof. by destruct x, y. Qed.

(** A descriptor that carries every default already is left as it is. *)
Lemma enhance_fixed (ds : list (string * DataSource)) (models : list (string * option string))
    (e : OdataService) :
  setDefaultServiceName ds e = e →
  setDefaultServicePath e = e →
  setDefaultPreviewSettings e = e →
  renameAnnotation ds (serviceNameOf e) <$> s_annotations e = s_annotations e →
  is_Some (s_model e) → is_Some (s_type e) →
  enhance ds models e = e.
Proof.
  intros Hname Hpath Hpreview Hann [model Hmodel] [type Htype]. unfold enhance. cbv zeta.
  rewrite Hname, Hpath, Hpreview.
  assert (setDefaultAnnotationsName ds e = e) as ->.
  { unfold setDefaultAnnotationsName. rewrite Hann. by destruct e. }
  unfold setDefaultServiceModel. rewrite Hmodel, Htype. destruct e. simpl in *. by subst.
Qed.

Lemma enhance_shape (ds : list (string * DataSource)) (models : list (string * option string))
    (s : OdataService) :
  let e := enhance ds models s in
  setDefaultServicePath e = e ∧ setDefaultPreviewSettings e = e
  ∧ is_Some (s_model e) ∧ is_Some (s_type e).
Proof.
  assert (∀ s0 models0,
            let s5 := setDefaultServiceModel models0
                        (setDefaultAnnotationsName ds
                           (setDefaultPreviewSettings (setDefaultServicePath s0))) in
            let e := set_type (Some (default EDMX (s_type s5))) s5 in
            setDefaultServicePath e = e ∧ setDefaultPreviewSettings e = e
            ∧ is_Some (s_model e) ∧ is_Some (s_type e)) as Hshape.
  { intros [name url path client version model metadata annotations lan dest ps ice type] models0.
    unfold setDefaultServiceModel, setDefaultAnnotationsName, setDefaultPreviewSettings,
      setDefaultServicePath.
    destruct model as [model|]; cbn.
    - split; [by rewrite withTrailingSep_idem|]. split; [by rewrite !orElse_idem|].
      split; by eexists.
    - split; [by rewrite withTrailingSep_idem|]. split; [by rewrite !orElse_idem|].
      split; by eexists. }
  intros e. unfold e, enhance. cbv zeta.
  exact (Hshape (setDefaultServiceName ds s) models).
Qed.

Lemma setDefaultServiceName_known (ds : list (string * DataSource)) (s : OdataService)
    (d : DataSource) :
  lookupKey (serviceNameOf s) ds = Some d → ds_type d = OData → setDefaultServiceName ds s = s.
Proof.
  intros Hl Ht. unfold setDefaultServiceName. rewrite bool_decide_eq_false_2; [done|].
  by eapply lookupKey_isOData.
Qed.

(** Enhancing the enhanced descriptor against the merged manifest returns it
    unchanged. *)
Lemma enhance_stable (ds : list (string * DataSource)) (models : list (string * option string))
    (service : OdataService) (manifest : Manifest) :
  let enhanced := enhance ds models service in
  let merged := mergeManifest enhanced manifest in
  Forall (λ a, annotationKey a ≠ serviceNameOf enhanced) (s_annotations enhanced) →
  enhance (m_dataSources merged) (m_models merged) enhanced = enhanced.
Proof.
  intros enhanced merged Hfresh.
  destruct (enhance_shape ds models service) as (Hpath & Hpreview & Hmodel & Htype).
  assert (setDefaultServiceName (m_dataSources merged) enhanced = enhanced) as Hname.
  { eapply setDefaultServiceName_known; [by apply lookupKey_mergeDataSources_name|done]. }
  apply enhance_fixed; try done.
  pose proof (enhance_annotations_stable ds models service manifest Hfresh) as Hann.
  transitivity (s_annotations (enhance (m_dataSources merged) (m_models merged) enhanced));
    [|exact Hann].
  symmetry. etrans; [apply enhance_annotations|]. by rewrite Hname.
Qed.

(** ** Levels of the base path *)

Lemma closestLevel_shape (fs : Editor) (rparts : list string) (name : string) (p : Path) :
  closestLevel fs rparts name = Some p →
  ∃ rest, rest ≠ [] ∧ rest `suffix_of` rparts ∧ p = join (rev rest) [name].
Proof.
  induction rparts as [|a rparts IH]; intros Hc; [done|].
  simpl in Hc. destruct (exists_in fs (join (rev rparts ++ [a]) [name])) eqn:He.
  - injection Hc as <-. by exists (a :: rparts).
  - destruct (IH Hc) as (rest & Hne & Hsuf & ->). exists rest. split; [done|]. split; [|done].
    by apply suffix_cons_r.
Qed.

Lemma level_atLevel (basePath name : string) (rest : list string) :
  rest ≠ [] → rest `suffix_of` rev (split basePath) → atLevel basePath name (join (rev rest) [name]).
Proof.
  intros Hne [k Hk]. split; [by apply last_join|].
  apply length_join_level; [intros Hr; apply Hne; by rewrite <- (rev_involutive rest), Hr|].
  exists (rev k). rewrite <- (rev_involutive (split basePath)), Hk, rev_app_distr. done.
Qed.

Lemma closestLevel_first (fs : Editor) (basePath name : string) :
  is_Some (fs !! join (split basePath) [name]) →
  closestLevel fs (rev (split basePath)) name = Some (join (split basePath) [name]).
Proof.
  intros Hex. pose proof (split_not_nil basePath) as Hne.
  destruct (rev (split basePath)) as [|a rest] eqn:Hrev.
  - exfalso. apply Hne. by rewrite <- (rev_involutive (split basePath)), Hrev.
  - cbn [closestLevel]. rewrite <- Hrev, rev_involutive.
    unfold exists_in. by rewrite bool_decide_eq_true_2.
Qed.

Lemma closestLevel_ext (fs fs' : Editor) (rparts : list string) (name : string) :
  (∀ rest, rest ≠ [] → rest `suffix_of` rparts →
           is_Some (fs' !! join (rev rest) [name]) ↔ is_Some (fs !! join (rev rest) [name])) →
  closestLevel fs' rparts name = closestLevel fs rparts name.
Proof.
  induction rparts as [|a rparts IH]; intros Hex; [done|].
  cbn [closestLevel]. unfold exists_in.
  assert (is_Some (fs' !! join (rev (a :: rparts)) [name])
          ↔ is_Some (fs !! join (rev (a :: rparts)) [name])) as Hfirst
    by (apply Hex; [done|reflexivity]).
  rewrite (bool_decide_ext _ _ Hfirst).
  rewrite IH; [done|]. intros rest Hne Hsuf. apply Hex; [done|]. by apply suffix_cons_r.
Qed.

Lemma mockYamlOf_level (parts : Path) :
  mockYamlOf (join parts ["ui5.yaml"]) = join parts ["ui5-mock.yaml"].
Proof.
  unfold mockYamlOf, dirname. destruct (decide (parts = [] ∨ parts = [""])) as [Hroot|Hroot].
  - assert (∀ name, join parts [name] = [name]) as Hjoin
      by (intros name; unfold join; by rewrite decide_True).
    rewrite !Hjoin. simpl. unfold join. by rewrite decide_True by (by left).
  - assert (∀ name, join parts [name] = parts ++ [name]) as Hjoin
      by (intros name; unfold join; by rewrite decide_False).
    by rewrite !Hjoin, removelast_last.
Qed.

(** The mock YAML next to a located [ui5.yaml] lies at a level too. *)
Lemma mockYamlOf_atLevel (basePath : string) (fs : Editor) (y : Path) :
  ui5Yaml (findProjectFiles basePath fs) = Some y → atLevel basePath "ui5-mock.yaml" (mockYamlOf y).
Proof.
  rewrite findProjectFiles_closest. cbv zeta. simpl. intros Hy.
  apply closestLevel_shape in Hy as (rest & Hne & Hsuf & ->).
  rewrite mockYamlOf_level. by apply level_atLevel.
Qed.

Lemma mockYamlOf_base (basePath : string) :
  mockYamlOf (join (split basePath) ["ui5.yaml"]) = join (split basePath) ["ui5-mock.yaml"].
Proof. apply mockYamlOf_level. Qed.

(** ** Rules for the steps of [writeEDMXServiceFiles] *)

Lemma hoare_extend (P : Editor → Prop) (s : OdataService) (c : UI5Config) (q : Path)
    (Q : UI5Config → Editor → Prop) (E : Editor → Prop) :
  (∀ fs, P fs → Q (extended s c) (<[q := FYaml (extended s c)]> fs)) →
  hoare P (extendBackendMiddleware s c q) Q E.
Proof. intros H fs HP. rewrite extendBackendMiddleware_run. by apply H. Qed.

(** Reading a file that is known to hold a YAML document does not throw. *)
Lemma hoare_readConfig_held (P : Editor → Prop) (p : Path) (Q : UI5Config → Editor → Prop)
    (E : Editor → Prop) :
  (∀ fs, P fs → ∃ c, fs !! p = Some (FYaml c) ∧ Q c fs) → hoare P (readConfig p) Q E.
Proof.
  intros H fs HP. destruct (H fs HP) as (c & Hc & HQ). by rewrite (readConfig_run _ _ _ Hc).
Qed.

Lemma hoare_generateMockserverConfig_base (P : Editor → Prop) (basePath : string)
    (Q : unit → Editor → Prop) (E : Editor → Prop) :
  (∀ fs base, P fs → mockBase basePath fs base →
     Q tt (<[join (split basePath) ["ui5-mock.yaml"] := FYaml (refreshed basePath fs base)]> fs)) →
  (∀ fs, P fs → E fs) →
  hoare P (generateMockserverConfig basePath (getWebappPath basePath)) Q E.
Proof.
  intros HQ HE fs HP. unfold generateMockserverConfig. rewrite run_bind. unfold get.
  cbv beta iota zeta. rewrite run_bind. unfold exists_in.
  case_bool_decide as Hmock.
  - pose proof (@readConfig_state (join (split basePath) ["ui5-mock.yaml"]) fs) as Hst.
    destruct (readConfig _ fs) as [st [e|base]] eqn:Hread; simpl in Hst; subst st; [by apply HE|].
    apply (HQ fs base HP). left. revert Hread. unfold readConfig, fs_read. rewrite run_bind.
    destruct (fs !! _) as [[]|]; try done. by intros [= ->].
  - apply eq_None_not_Some in Hmock. case_bool_decide as Hprimary.
    + pose proof (@readConfig_state (join (split basePath) ["ui5.yaml"]) fs) as Hst.
      destruct (readConfig _ fs) as [st [e|base]] eqn:Hread; simpl in Hst; subst st;
        [by apply HE|].
      apply (HQ fs base HP). right. left. split; [done|].
      revert Hread. unfold readConfig, fs_read. rewrite run_bind.
      destruct (fs !! join (split basePath) ["ui5.yaml"]) as [[]|]; try done. by intros [= ->].
    + apply eq_None_not_Some in Hprimary. apply (HQ fs emptyConfig HP). by right; right.
Qed.

(** With a mock YAML in the project folder it is refreshed, and nothing is
    thrown. *)
Lemma hoare_generateMockserverConfig_held (P : Editor → Prop) (basePath : string)
    (Q : unit → Editor → Prop) (E : Editor → Prop) :
  (∀ fs, P fs →
     ∃ base, fs !! join (split basePath) ["ui5-mock.yaml"] = Some (FYaml base)
             ∧ Q tt (<[join (split basePath) ["ui5-mock.yaml"]
                       := FYaml (refreshed basePath fs base)]> fs)) →
  hoare P (generateMockserverConfig basePath (getWebappPath basePath)) Q E.
Proof.
  intros H fs HP. destruct (H fs HP) as (base & Hbase & HQ).
  unfold generateMockserverConfig. rewrite run_bind. unfold get.
  cbv beta iota zeta. rewrite run_bind. unfold exists_in.
  rewrite bool_decide_eq_true_2 by (by rewrite Hbase).
  by rewrite (readConfig_run _ _ _ Hbase).
Qed.

Lemma generateMockserverMiddleware_run (y : Path) (l : option Path) (c : option UI5Config)
    (mockConfig : UI5Config) (fs : Editor) :
  fs !! mockYamlOf y = Some (FYaml mockConfig) →
  generateMockserverMiddlewareBasedOnUi5MockYaml y l c fs
  = (fs, inr (localFromMock fs l c mockConfig)).
Proof.
  intros Hread. unfold generateMockserverMiddlewareBasedOnUi5MockYaml. cbv zeta.
  rewrite run_bind. fold (mockYamlOf y). rewrite (readConfig_run _ _ _ Hread).
  rewrite run_bind. unfold get. cbv beta iota zeta. unfold localFromMock.
  destruct l as [lp|]; [|done]. destruct c as [lc|]; [|done].
  destruct (findMockserverMiddleware mockConfig) as [k|]; [|done].
  by destruct (exists_in fs lp).
Qed.

Lemma hoare_generateMockserverMiddleware_read (P : Editor → Prop) (y : Path) (l : option Path)
    (c : option UI5Config) (Q : option UI5Config → Editor → Prop) (E : Editor → Prop) :
  (∀ fs mockConfig, P fs → fs !! mockYamlOf y = Some (FYaml mockConfig) →
     Q (localFromMock fs l c mockConfig) fs) →
  (∀ fs, P fs → E fs) →
  hoare P (generateMockserverMiddlewareBasedOnUi5MockYaml y l c) Q E.
Proof.
  intros HQ HE fs HP.
  destruct (fs !! mockYamlOf y) as [[| mockConfig | | |]|] eqn:Hread;
    try (unfold generateMockserverMiddlewareBasedOnUi5MockYaml; cbv zeta; rewrite run_bind;
         fold (mockYamlOf y); unfold readConfig, fs_read; rewrite run_bind, Hread;
         by apply HE).
  rewrite (generateMockserverMiddleware_run _ _ _ mockConfig) by done. by apply HQ.
Qed.

Lemma hoare_generateMockserverMiddleware_held (P : Editor → Prop) (y : Path)
    (l : option Path) (c : option UI5Config) (Q : option UI5Config → Editor → Prop)
    (E : Editor → Prop) :
  (∀ fs, P fs → ∃ mockConfig, fs !! mockYamlOf y = Some (FYaml mockConfig)
                              ∧ Q (localFromMock fs l c mockConfig) fs) →
  hoare P (generateMockserverMiddlewareBasedOnUi5MockYaml y l c) Q E.
Proof.
  intros H fs HP. destruct (H fs HP) as (mockConfig & Hread & HQ).
  by rewrite (generateMockserverMiddleware_run _ _ _ mockConfig).
Qed.

Lemma hoare_updatePackageJson (P : Editor → Prop) (q : Path) (b : bool)
    (Q : unit → Editor → Prop) (E : Editor → Prop) :
  (∀ fs p, P fs → fs !! q = Some (FPackage p) →
     Q tt (<[q := FPackage {| ui5Tooling := true;
                              mockserverDependency := mockserverDependency p || b |}]> fs)) →
  (∀ fs, P fs → E fs) →
  hoare P (updatePackageJson q b) Q E.
Proof.
  intros HQ HE fs HP. unfold updatePackageJson, fs_read. rewrite run_bind.
  destruct (fs !! q) as [[]|] eqn:Hq; try (by apply HE). by apply HQ.
Qed.

Lemma hoare_updatePackageJson_held (P : Editor → Prop) (q : Path) (b : bool)
    (Q : unit → Editor → Prop) (E : Editor → Prop) :
  (∀ fs, P fs →
     ∃ p, fs !! q = Some (FPackage p)
          ∧ Q tt (<[q := FPackage {| ui5Tooling := true;
                                     mockserverDependency := mockserverDependency p || b |}]> fs)) →
  hoare P (updatePackageJson q b) Q E.
Proof.
  intros H fs HP. destruct (H fs HP) as (p & Hq & HQ).
  unfold updatePackageJson, fs_read. rewrite run_bind. by rewrite Hq.
Qed.

(** A computation that preserves a set of paths on both exits. *)
Lemma hoare_framed {A : Type} (K : Path → Prop) (c : M A) (P : Editor → Prop)
    (Q : A → Editor → Prop) (E : Editor → Prop) :
  (∀ p, K p → preserves p c) →
  (∀ fs fs' x, P fs → (∀ p, K p → fs' !! p = fs !! p) → Q x fs') →
  (∀ fs fs', P fs → (∀ p, K p → fs' !! p = fs !! p) → E fs') →
  hoare P c Q E.
Proof.
  intros Hc HQ HE fs HP.
  assert (∀ p, K p → (c fs).1 !! p = fs !! p) as Hsame by (intros p Hp; by apply Hc).
  destruct (c fs) as [fs' [e|x]]; simpl in Hsame; eauto.
Qed.

(** The same for a computation that does not throw. *)
Lemma hoare_framed_total {A : Type} (K : Path → Prop) (c : M A) (P : Editor → Prop)
    (Q : A → Editor → Prop) (E : Editor → Prop) :
  (∀ p, K p → preserves p c) → (∀ fs, ∃ x, (c fs).2 = inr x) →
  (∀ fs fs' x, P fs → (∀ p, K p → fs' !! p = fs !! p) → Q x fs') →
  hoare P c Q E.
Proof.
  intros Hc Htotal HQ fs HP.
  assert (∀ p, K p → (c fs).1 !! p = fs !! p) as Hsame by (intros p Hp; by apply Hc).
  destruct (Htotal fs) as [x Hx].
  destruct (c fs) as [fs' [e|x']]; simpl in *; [done|]. eauto.
Qed.

Lemma writeLocalServiceFiles_total (basePath : string) (webappPath tr : Path)
    (s : OdataService) (fs : Editor) :
  ∃ x, (writeLocalServiceFiles basePath webappPath tr s fs).2 = inr x.
Proof.
  unfold writeLocalServiceFiles. rewrite run_bind. cbn.
  destruct (s_localAnnotationsName s); by eexists.
Qed.

Lemma writeAnnotationXmlFiles_total (basePath name : string) (l : list EdmxAnnotationsInfo)
    (fs : Editor) :
  ∃ x, (writeAnnotationXmlFiles basePath name l fs).2 = inr x.
Proof.
  revert fs. induction l as [|a l IH]; intros fs; [by eexists|].
  cbn [writeAnnotationXmlFiles]. rewrite run_bind.
  destruct (a_xml a); cbn; apply IH.
Qed.

Lemma hoare_assume {A : Type} (P : Editor → Prop) (R : Prop) (c : M A)
    (Q : A → Editor → Prop) (E : Editor → Prop) :
  (∀ fs, P fs → R) → (R → hoare P c Q E) → hoare P c Q E.
Proof. intros HR H fs HP. by apply (H (HR fs HP)). Qed.

(** ** Documents *)

Lemma agree_refl (basePath : string) (fs : Editor) : agree basePath fs fs.
Proof. by intros p _. Qed.

Lemma agree_insert (basePath : string) (fs1 fs : Editor) (q : Path) (f : File) :
  agree basePath fs1 fs → fs1 !! q = Some f → agree basePath fs1 (<[q := f]> fs).
Proof.
  intros Hag Hq p Hp. destruct (decide (q = p)) as [->|Hne].
  - by rewrite lookup_insert_eq.
  - rewrite lookup_insert_ne by done. by apply Hag.
Qed.

Lemma agree_same (basePath : string) (fs1 fs fs' : Editor) :
  agree basePath fs1 fs → (∀ p, document basePath p → fs' !! p = fs !! p) →
  agree basePath fs1 fs'.
Proof. intros Hag Hsame p Hp. rewrite Hsame by done. by apply Hag. Qed.

Lemma document_level (basePath name : string) (p : Path) :
  name ∈ configNames → atLevel basePath name p → document basePath p.
Proof. intros Hn Hp. right. by exists name. Qed.

Lemma document_package (basePath : string) (p : Path) :
  atLevel basePath "package.json" p → document basePath p.
Proof. apply document_level. unfold configNames. by left. Qed.

Lemma document_primary (basePath : string) (p : Path) :
  atLevel basePath "ui5.yaml" p → document basePath p.
Proof. apply document_level. unfold configNames. right. by left. Qed.

Lemma document_local (basePath : string) (p : Path) :
  atLevel basePath "ui5-local.yaml" p → document basePath p.
Proof. apply document_level. unfold configNames. right. right. by left. Qed.

Lemma document_mock (basePath : string) (p : Path) :
  atLevel basePath "ui5-mock.yaml" p → document basePath p.
Proof. apply document_level. unfold configNames. right. right. right. by left. Qed.

Lemma document_not_payload (basePath : string) (p : Path) (a b : string) (rel : Path) :
  document basePath p → p ≠ getWebappPath basePath ++ a :: b :: rel.
Proof.
  intros [->|(name & _ & Hat)].
  - rewrite manifestPath_webapp. intros Heq. by apply app_inv_head in Heq.
  - by eapply atLevel_not_payload.
Qed.

(** What the payload writers leave of the documents, on the way through a
    call that keeps them. *)
Lemma hoare_agree_payload {A : Type} (basePath : string) (fs1 : Editor) (c : M A) (R : Prop)
    (E : Editor → Prop) :
  (∀ p, document basePath p → preserves p c) → (∀ fs, ∃ x, (c fs).2 = inr x) →
  hoare (λ fs, agree basePath fs1 fs ∧ R) c (λ _ fs, agree basePath fs1 fs ∧ R) E.
Proof.
  intros Hc Htotal. apply (hoare_framed_total (document basePath)); [done..|].
  intros fs fs' _ [Hag HR] Hsame. split; [|done]. by eapply agree_same.
Qed.

(** ** The second call: nothing left to do

    In a project where the service is in place every step of
    [writeEDMXServiceFiles] returns and writes what the document holds
    already. *)

Lemma settled_backendStep (basePath : string) (s : OdataService) (paths : ProjectPaths)
    (ds : list (string * DataSource)) (fs1 : Editor) :
  levelPaths basePath paths → inPlace basePath s paths ds fs1 →
  hoare (agree basePath fs1) (backendStep paths s)
    (λ configs fs, agree basePath fs1 fs ∧ pending paths fs1 configs.2
                   ∧ (is_Some (ui5Yaml paths) → is_Some configs.1))
    (λ _, False).
Proof.
  intros (Lpkg & Ly & Ll & Lk) ((Hprimary & Hlocal & Hmock & Hpkg) & Hclosest).
  unfold backendStep. destruct (ui5Yaml paths) as [y|] eqn:Hy.
  2: { apply hoare_ret. intros fs Hag. split; [done|]. split; [by intros l c _ [=]|].
       by intros [? [=]]. }
  destruct (Hprimary y eq_refl) as (cy & Hcy & Hfix).
  assert (document basePath y) as Hdy by (by apply document_primary, Ly).
  eapply hoare_bind with (R := λ c fs, agree basePath fs1 fs ∧ c = cy).
  { apply hoare_readConfig_held. intros fs Hag. exists cy. by rewrite (Hag y Hdy). }
  intros c. eapply hoare_bind with (R := λ _ fs, agree basePath fs1 fs).
  { apply hoare_extend. intros fs [Hag ->]. rewrite Hfix. by apply agree_insert. }
  intros c'. destruct (ui5LocalYaml paths) as [l|] eqn:Hl.
  - destruct (Hlocal y l eq_refl eq_refl) as (cl & Hcl & Hfixl & _).
    assert (document basePath l) as Hdl by (by apply document_local, Ll).
    eapply hoare_bind with (R := λ o fs, agree basePath fs1 fs ∧ o = Some cl).
    { eapply hoare_bind with (R := λ c fs, agree basePath fs1 fs ∧ c = cl).
      { apply hoare_readConfig_held. intros fs Hag. exists cl. by rewrite (Hag l Hdl). }
      intros c0. eapply hoare_bind with (R := λ c1 fs, agree basePath fs1 fs ∧ c1 = cl).
      { apply hoare_extend. intros fs [Hag ->]. rewrite Hfixl. split; [|done].
        by apply agree_insert. }
      intros c1. apply hoare_ret. intros fs [Hag ->]. done. }
    intros o. apply hoare_ret. intros fs [Hag ->]. split; [done|]. split; [|by eexists].
    intros l' c1 Hl' [= <-]. rewrite Hl in Hl'. by injection Hl' as <-.
  - eapply hoare_bind with (R := λ o fs, agree basePath fs1 fs ∧ o = None).
    { by apply hoare_ret. }
    intros o. apply hoare_ret. intros fs [Hag ->]. split; [done|]. split; [|by eexists].
    by intros l c1 _ [=].
Qed.

Lemma settled_mockserverStep (basePath : string) (s : OdataService) (paths : ProjectPaths)
    (m : Manifest) (fs1 : Editor) (configs : option UI5Config * option UI5Config) :
  levelPaths basePath paths → inPlace basePath s paths (m_dataSources m) fs1 →
  fs1 !! manifestPath basePath = Some (FManifest m) → is_Some (s_metadata s) →
  (∀ y, ui5Yaml paths = Some y → atLevel basePath "ui5-mock.yaml" (mockYamlOf y)) →
  pending paths fs1 configs.2 →
  hoare (agree basePath fs1) (mockserverStep basePath paths configs s)
    (λ o fs, agree basePath fs1 fs ∧ pending paths fs1 o) (λ _, False).
Proof.
  intros (Lpkg & Ly & Ll & Lk) ((Hprimary & Hlocal & Hmock & Hpkg) & Hclosest) Hm Hmeta Hnext
    Hpending.
  unfold mockserverStep. destruct (ui5Yaml paths) as [y|] eqn:Hy; [|by apply hoare_ret].
  destruct configs.1 as [primary|]; [|by apply hoare_ret].
  destruct (Hmock y eq_refl Hmeta) as ((cm & k & Hcm & Hfixm & Hk & Hrefresh) & cR & HcR).
  pose proof (Hclosest y eq_refl Hmeta) as Hmp.
  assert (document basePath (join (split basePath) ["ui5-mock.yaml"])) as Hdm
    by apply document_mock, atLevel_base.
  assert (document basePath (mockYamlOf y)) as HdR by (by apply document_mock, Hnext).
  eapply hoare_bind with (R := λ _ fs, agree basePath fs1 fs).
  { apply hoare_generateMockserverConfig_held. intros fs Hag. exists cm.
    split; [by rewrite (Hag _ Hdm)|].
    assert (refreshed basePath fs cm = cm) as ->; [|by apply agree_insert].
    unfold refreshed, dataSourcesOf, readManifest.
    rewrite (Hag (manifestPath basePath)) by (by left). rewrite Hm, Hk. simpl.
    rewrite Hrefresh. by apply updateMockserverMiddleware_same. }
  intros _. eapply hoare_bind with (R := λ o fs, agree basePath fs1 fs ∧ pending paths fs1 o).
  { apply hoare_generateMockserverMiddleware_held. intros fs Hag. exists cR.
    split; [by rewrite (Hag _ HdR)|]. split; [done|]. unfold localFromMock.
    destruct (ui5LocalYaml paths) as [l|] eqn:Hl; [|done].
    destruct configs.2 as [lc|] eqn:Hlc; [|done].
    destruct (findMockserverMiddleware cR) as [k'|] eqn:Hk'; [|done].
    destruct (exists_in fs l); [|done].
    intros l' c Hl' [= <-]. rewrite Hl in Hl'. injection Hl' as <-.
    destruct (Hlocal y l eq_refl eq_refl) as (cl & Hcl & _ & Hblock).
    rewrite (Hpending l lc Hl eq_refl) in Hcl. injection Hcl as <-.
    rewrite updateMockserverMiddleware_same; [by apply Hpending|].
    by apply (Hblock Hmeta cR). }
  intros o. eapply hoare_bind with (R := λ _ fs, agree basePath fs1 fs ∧ pending paths fs1 o).
  { rewrite Hmp.
    eapply hoare_bind with (R := λ c fs, (agree basePath fs1 fs ∧ pending paths fs1 o) ∧ c = cm).
    { apply hoare_readConfig_held. intros fs [Hag Hp]. exists cm. by rewrite (Hag _ Hdm). }
    intros c. eapply hoare_bind with (R := λ _ fs, agree basePath fs1 fs ∧ pending paths fs1 o).
    { apply hoare_extend. intros fs [[Hag Hp] ->]. rewrite Hfixm. split; [|done].
      by apply agree_insert. }
    intros _. by apply hoare_ret. }
  intros _. by apply hoare_ret.
Qed.

Lemma settled_closingWrites (basePath : string) (s : OdataService) (paths : ProjectPaths)
    (ds : list (string * DataSource)) (fs1 : Editor) (o : option UI5Config) :
  levelPaths basePath paths → inPlace basePath s paths ds fs1 → pending paths fs1 o →
  hoare (agree basePath fs1) (closingWrites basePath paths s o)
    (λ _, agree basePath fs1) (λ _, False).
Proof.
  intros (Lpkg & Ly & Ll & Lk) ((Hprimary & Hlocal & Hmock & Hpkg) & Hclosest) Hpending.
  unfold closingWrites.
  eapply hoare_bind with (R := λ _, agree basePath fs1).
  { destruct (packageJson paths) as [pkg|] eqn:Hpk; [|by apply hoare_ret].
    destruct (ui5Yaml paths) as [y|] eqn:Hy; [|by apply hoare_ret].
    destruct (Hpkg y pkg eq_refl eq_refl) as (p & Hp & Htooling & Hdep).
    apply hoare_updatePackageJson_held. intros fs Hag. exists p.
    split; [rewrite <- Hp; by apply Hag, document_package, Lpkg|].
    apply agree_insert; [done|]. rewrite Hp. do 2 f_equal. destruct p as [tooling dep].
    simpl in *. subst tooling. f_equal. case_bool_decide as Hmeta.
    - by rewrite Hdep.
    - by rewrite orb_false_r. }
  intros _. eapply hoare_bind with (R := λ _, agree basePath fs1).
  { destruct (ui5LocalYaml paths) as [l|] eqn:Hl; [|by apply hoare_ret].
    destruct o as [c|]; [|by apply hoare_ret].
    apply hoare_write. intros fs Hag. apply agree_insert; [done|]. by apply Hpending. }
  intros _. apply (hoare_framed_total (document basePath)).
  - intros p Hp. apply preserves_writeAnnotationXmlFiles. intros x.
    by apply document_not_payload.
  - apply writeAnnotationXmlFiles_total.
  - intros fs fs' _ Hag Hsame. by eapply agree_same.
Qed.

Lemma settled_writeEDMXServiceFiles (basePath : string) (s : OdataService) (paths : ProjectPaths)
    (m : Manifest) (tr : Path) (fs1 : Editor) :
  levelPaths basePath paths → inPlace basePath s paths (m_dataSources m) fs1 →
  fs1 !! manifestPath basePath = Some (FManifest m) →
  (∀ y, ui5Yaml paths = Some y → atLevel basePath "ui5-mock.yaml" (mockYamlOf y)) →
  hoare (agree basePath fs1) (writeEDMXServiceFiles basePath paths tr s)
    (λ _, agree basePath fs1) (λ _, False).
Proof.
  intros Hlevels Hin Hm Hnext. rewrite writeEDMXServiceFiles_blocks.
  eapply hoare_bind; [by eapply settled_backendStep|]. intros configs. cbv beta.
  eapply hoare_bind with (R := λ o fs, agree basePath fs1 fs ∧ pending paths fs1 o).
  - destruct (s_metadata s) as [metadata|] eqn:Hmeta;
      [|apply hoare_ret; by intros fs (Hag & Hpending & _)].
    apply (hoare_assume _ (pending paths fs1 configs.2)); [by intros fs (_ & ? & _)|].
    intros Hpending. eapply hoare_bind.
    { eapply hoare_conseq;
        [eapply settled_mockserverStep; try done; try (rewrite Hmeta; by eexists)
        |by intros fs (Hag & _)|done|done]. }
    intros o. cbv beta.
    eapply hoare_bind with (R := λ _ fs, agree basePath fs1 fs ∧ pending paths fs1 o).
    { apply hoare_agree_payload; [|apply writeLocalServiceFiles_total].
      intros p Hp. apply preserves_writeLocalServiceFiles; intros x;
        by apply document_not_payload. }
    intros _. by apply hoare_ret.
  - intros o. apply (hoare_assume _ (pending paths fs1 o)); [by intros fs [_ ?]|].
    intros Hpending. eapply hoare_conseq; [by eapply settled_closingWrites| |done|done].
    by intros fs [Hag _].
Qed.

(** A second call in a settled project returns the descriptor as it is and
    keeps every document. *)
Lemma settled_generate (basePath : string) (s : OdataService) (fs1 : Editor) :
  settled basePath s fs1 → s_type s ≠ Some CDS →
  (generate basePath s fs1).2 = inr s ∧ agree basePath fs1 (generate basePath s fs1).1.
Proof.
  intros (m & Hm & Hid & Henh & Hmerge & Hlone & Hin) Ht.
  rewrite (generate_edmx _ _ _ m) by done. cbv zeta. rewrite Henh.
  assert (mergedEditor basePath s m fs1 = fs1) as ->.
  { unfold mergedEditor, migratedEditor. rewrite Hlone, Hmerge. by apply insert_id. }
  pose proof (settled_writeEDMXServiceFiles basePath s (findProjectFiles basePath fs1) m
                templateRoot fs1 (findProjectFiles_levelPaths _ _) Hin Hm
                (mockYamlOf_atLevel basePath fs1) fs1 (agree_refl _ _)) as Hrun.
  rewrite run_bind. by destruct (writeEDMXServiceFiles _ _ _ _ fs1) as [fs2 [e|x]].
Qed.

(** ** The first call: what it leaves *)

Ltac level_neq :=
  first [ eapply atLevel_neq; [eassumption|eassumption|discriminate]
        | eapply atLevel_not_manifest; eassumption
        | apply not_eq_sym; eapply atLevel_not_manifest; eassumption ].

Lemma merged_insert (basePath : string) (paths : ProjectPaths) (m : Manifest) (fs : Editor)
    (name : string) (q : Path) (f : File) :
  atLevel basePath name q → name ≠ "ui5-mock.yaml" →
  merged basePath paths m fs → merged basePath paths m (<[q := f]> fs).
Proof.
  intros Hq Hname [Hm Hmock].
  pose proof (atLevel_base basePath "ui5-mock.yaml") as Hbase. split.
  - rewrite lookup_insert_ne by level_neq. done.
  - intros Hne. rewrite lookup_insert_ne by (eapply atLevel_neq; eassumption). by apply Hmock.
Qed.

Lemma first_backendStep (basePath : string) (s : OdataService) (paths : ProjectPaths)
    (m : Manifest) (y : Path) :
  levelPaths basePath paths → ui5Yaml paths = Some y →
  hoare (merged basePath paths m) (backendStep paths s)
    (λ configs fs, merged basePath paths m fs ∧ is_Some configs.1
                   ∧ (∃ c, fs !! y = Some (FYaml c) ∧ extended s c = c)
                   ∧ (∀ l, ui5LocalYaml paths = Some l →
                        ∃ c, configs.2 = Some c ∧ fs !! l = Some (FYaml c) ∧ extended s c = c))
    (λ _, True).
Proof.
  intros (Lpkg & Ly & Ll & Lk) Hy. unfold backendStep. rewrite Hy.
  pose proof (Ly y Hy) as Hat.
  eapply hoare_bind with (R := λ _ fs, merged basePath paths m fs); [by apply hoare_readConfig|].
  intros c0.
  eapply hoare_bind
    with (R := λ _ fs, merged basePath paths m fs
                       ∧ ∃ c, fs !! y = Some (FYaml c) ∧ extended s c = c).
  { apply hoare_extend. intros fs Hm. split; [by eapply merged_insert|].
    eexists. rewrite lookup_insert_eq. split; [done|]. apply extended_idem. }
  intros c1. destruct (ui5LocalYaml paths) as [l|] eqn:Hl.
  - pose proof (Ll l eq_refl) as Hatl.
    eapply hoare_bind
      with (R := λ o fs, merged basePath paths m fs
                         ∧ (∃ c, fs !! y = Some (FYaml c) ∧ extended s c = c)
                         ∧ ∃ c, o = Some c ∧ fs !! l = Some (FYaml c) ∧ extended s c = c).
    { eapply hoare_bind
        with (R := λ _ fs, merged basePath paths m fs
                           ∧ ∃ c, fs !! y = Some (FYaml c) ∧ extended s c = c);
        [by apply hoare_readConfig|].
      intros cl.
      eapply hoare_bind
        with (R := λ x fs, merged basePath paths m fs
                           ∧ (∃ c, fs !! y = Some (FYaml c) ∧ extended s c = c)
                           ∧ fs !! l = Some (FYaml x) ∧ extended s x = x).
      { apply hoare_extend. intros fs [Hm Hprimary]. split; [by eapply merged_insert|].
        split; [by rewrite lookup_insert_ne by level_neq|].
        rewrite lookup_insert_eq. split; [done|]. apply extended_idem. }
      intros x. apply hoare_ret. intros fs (Hm & Hprimary & Hx & Hfix). by eauto 10. }
    intros o. apply hoare_ret. intros fs (Hm & Hprimary & c & -> & Hc & Hfix).
    split; [done|]. split; [by eexists|]. split; [done|]. intros l' [= <-]. by eauto.
  - eapply hoare_bind
      with (R := λ _ fs, merged basePath paths m fs
                         ∧ ∃ c, fs !! y = Some (FYaml c) ∧ extended s c = c);
      [by apply hoare_ret|].
    intros o. apply hoare_ret. intros fs [Hm Hprimary].
    split; [done|]. split; [by eexists|]. split; [done|]. by intros l' [=].
Qed.

Lemma first_mockserverStep (basePath : string) (s : OdataService) (paths : ProjectPaths)
    (m : Manifest) (y : Path) (configs : option UI5Config * option UI5Config) :
  levelPaths basePath paths → ui5Yaml paths = Some y → is_Some (s_metadata s) →
  atLevel basePath "ui5-mock.yaml" (mockYamlOf y) →
  (ui5MockYaml paths ≠ Some (join (split basePath) ["ui5-mock.yaml"]) →
   y = join (split basePath) ["ui5.yaml"]) →
  is_Some configs.1 →
  hoare (λ fs, merged basePath paths m fs
               ∧ (∃ c, fs !! y = Some (FYaml c) ∧ extended s c = c)
               ∧ (∀ l, ui5LocalYaml paths = Some l →
                    ∃ c, configs.2 = Some c ∧ fs !! l = Some (FYaml c) ∧ extended s c = c))
    (mockserverStep basePath paths configs s)
    (λ o fs, beforeClosing basePath s paths (m_dataSources m) y fs o)
    (λ _, True).
Proof.
  intros (Lpkg & Ly & Ll & Lk) Hy Hmeta Hnext Hlayout [primary Hprimary].
  pose proof (Ly y Hy) as Hat.
  pose proof (atLevel_base basePath "ui5-mock.yaml") as Hbase.
  set (mockPath := join (split basePath) ["ui5-mock.yaml"]) in *.
  unfold mockserverStep. rewrite Hy, Hprimary.
  (* the mock YAML of the project folder *)
  eapply hoare_bind
    with (R := λ _ fs,
            (∃ c, fs !! y = Some (FYaml c) ∧ extended s c = c)
            ∧ (∀ l, ui5LocalYaml paths = Some l →
                 ∃ c, configs.2 = Some c ∧ fs !! l = Some (FYaml c) ∧ extended s c = c)
            ∧ ∃ c k, fs !! mockPath = Some (FYaml c)
                     ∧ findMockserverMiddleware c = Some k
                     ∧ refreshMockserver (m_dataSources m) k = k
                     ∧ (ui5MockYaml paths ≠ Some mockPath → extended s c = c)).
  { apply hoare_generateMockserverConfig_base; [|done].
    intros fs base ([Hm Habsent] & (cy & Hcy & Hfix) & Hlocal) Hb. fold mockPath.
    split; [exists cy; by rewrite lookup_insert_ne by level_neq|].
    split.
    { intros l Hl. destruct (Hlocal l Hl) as (c & Hc & Hlc & Hfixl). exists c.
      pose proof (Ll l Hl) as Hatl. by rewrite lookup_insert_ne by level_neq. }
    rewrite lookup_insert_eq. unfold refreshed, dataSourcesOf, readManifest. rewrite Hm. simpl.
    eexists _, _. split; [done|]. split; [apply findMockserver_updated|].
    split; [apply refreshMockserver_idem|].
    intros Hne. rewrite extended_updateMockserverMiddleware. f_equal.
    specialize (Habsent Hne). specialize (Hlayout Hne). subst y.
    unfold mockBase, mockPath in *. destruct Hb as [Hb|[[_ Hb]|[_ [Hb _]]]]; congruence. }
  intros _.
  (* the mock-server block for the local YAML *)
  eapply hoare_bind
    with (R := λ o fs,
            (∃ c, fs !! y = Some (FYaml c) ∧ extended s c = c)
            ∧ (∃ c k, fs !! mockPath = Some (FYaml c)
                      ∧ findMockserverMiddleware c = Some k
                      ∧ refreshMockserver (m_dataSources m) k = k
                      ∧ (ui5MockYaml paths ≠ Some mockPath → extended s c = c))
            ∧ (∃ c, fs !! mockYamlOf y = Some (FYaml c))
            ∧ (∀ l, ui5LocalYaml paths = Some l →
                 ∃ x, o = Some x ∧ extended s x = x ∧ blockTaken fs y x)).
  { apply hoare_generateMockserverMiddleware_read; [|done].
    intros fs cR (Hcy & Hlocal & Hmock) HR. split; [done|]. split; [done|].
    split; [by exists cR|].
    intros l Hl. destruct (Hlocal l Hl) as (c & Hc & Hlc & Hfixl).
    unfold localFromMock. rewrite Hl, Hc. unfold exists_in.
    rewrite bool_decide_eq_true_2 by (by rewrite Hlc).
    destruct (findMockserverMiddleware cR) as [k|] eqn:Hk.
    - eexists. split; [done|].
      split; [by rewrite extended_updateMockserverMiddleware, Hfixl|].
      intros cR' k' HR' Hk'. rewrite HR in HR'. injection HR' as <-.
      rewrite Hk in Hk'. injection Hk' as <-. apply findMockserver_updated.
    - exists c. split; [done|]. split; [done|].
      intros cR' k' HR' Hk'. rewrite HR in HR'. injection HR' as <-. congruence. }
  intros o.
  (* the backend entry of the located mock YAML *)
  eapply hoare_bind
    with (R := λ _ fs, beforeClosing basePath s paths (m_dataSources m) y fs o);
    [|intros _; by apply hoare_ret].
  destruct (ui5MockYaml paths) as [mp|] eqn:Hmp.
  - pose proof (Lk mp eq_refl) as Hatm.
    eapply hoare_bind
      with (R := λ c0 fs,
              ((∃ c, fs !! y = Some (FYaml c) ∧ extended s c = c)
               ∧ (∃ c k, fs !! mockPath = Some (FYaml c)
                         ∧ findMockserverMiddleware c = Some k
                         ∧ refreshMockserver (m_dataSources m) k = k
                         ∧ (Some mp ≠ Some mockPath → extended s c = c))
               ∧ (∃ c, fs !! mockYamlOf y = Some (FYaml c))
               ∧ (∀ l, ui5LocalYaml paths = Some l →
                    ∃ x, o = Some x ∧ extended s x = x ∧ blockTaken fs y x))
              ∧ fs !! mp = Some (FYaml c0)).
    { by apply hoare_readConfig. }
    intros c0.
    eapply hoare_bind
      with (R := λ _ fs, beforeClosing basePath s paths (m_dataSources m) y fs o);
      [|intros _; by apply hoare_ret].
    apply hoare_extend.
    intros fs (((cy & Hcy & Hfix) & (cm & k & Hcm & Hk & Hrefresh & Hfixm) & (cR & HcR)
                & Hlocal) & Hc0).
    split; [exists cy; by rewrite lookup_insert_ne by level_neq|]. split.
    + intros _. unfold mockHeld. fold mockPath. split.
      * destruct (decide (mp = mockPath)) as [->|Hne].
        -- rewrite lookup_insert_eq. rewrite Hcm in Hc0. injection Hc0 as <-.
           eexists _, k. split; [done|]. split; [apply extended_idem|].
           by rewrite mockserver_of_extended.
        -- rewrite lookup_insert_ne by done. exists cm, k. split; [done|].
           split; [apply Hfixm; congruence|done].
      * destruct (decide (mp = mockYamlOf y)) as [->|Hne].
        -- rewrite lookup_insert_eq. by eexists.
        -- rewrite lookup_insert_ne by done. by exists cR.
    + intros l Hl. destruct (Hlocal l Hl) as (x & Hx & Hfixx & Hblock).
      exists x. split; [done|]. split; [done|]. intros _ cR' k' HR' Hk'.
      destruct (decide (mp = mockYamlOf y)) as [->|Hne].
      * rewrite lookup_insert_eq in HR'. injection HR' as <-.
        rewrite mockserver_of_extended in Hk'. by eapply Hblock.
      * rewrite lookup_insert_ne in HR' by done. by eapply Hblock.
  - apply hoare_ret.
    intros fs ((cy & Hcy & Hfix) & (cm & k & Hcm & Hk & Hrefresh & Hfixm) & HcR & Hlocal).
    split; [by exists cy|]. split.
    + intros _. split; [|done]. exists cm, k. split; [done|]. split; [by apply Hfixm|done].
    + intros l Hl. destruct (Hlocal l Hl) as (x & Hx & Hfixx & Hblock). by exists x.
Qed.

Lemma beforeClosing_same (basePath : string) (s : OdataService) (paths : ProjectPaths)
    (ds : list (string * DataSource)) (y : Path) (fs fs' : Editor) (o : option UI5Config) :
  fs' !! y = fs !! y →
  fs' !! join (split basePath) ["ui5-mock.yaml"] = fs !! join (split basePath) ["ui5-mock.yaml"] →
  fs' !! mockYamlOf y = fs !! mockYamlOf y →
  beforeClosing basePath s paths ds y fs o → beforeClosing basePath s paths ds y fs' o.
Proof.
  intros Hy Hmock Hnext. unfold beforeClosing, mockHeld, blockTaken.
  by rewrite Hy, Hmock, Hnext.
Qed.

Lemma beforeClosing_documents (basePath : string) (s : OdataService) (paths : ProjectPaths)
    (ds : list (string * DataSource)) (y : Path) (fs fs' : Editor) (o : option UI5Config) :
  atLevel basePath "ui5.yaml" y → atLevel basePath "ui5-mock.yaml" (mockYamlOf y) →
  (∀ p, document basePath p → fs' !! p = fs !! p) →
  beforeClosing basePath s paths ds y fs o → beforeClosing basePath s paths ds y fs' o.
Proof.
  intros Hat Hnext Hsame. apply beforeClosing_same; apply Hsame.
  - by apply document_primary.
  - apply document_mock, atLevel_base.
  - by apply document_mock.
Qed.

Lemma written_same (basePath : string) (s : OdataService) (paths : ProjectPaths)
    (ds : list (string * DataSource)) (fs fs' : Editor) :
  levelPaths basePath paths →
  (∀ y, ui5Yaml paths = Some y → atLevel basePath "ui5-mock.yaml" (mockYamlOf y)) →
  (∀ p, document basePath p → fs' !! p = fs !! p) →
  written basePath s paths ds fs → written basePath s paths ds fs'.
Proof.
  intros (Lpkg & Ly & Ll & Lk) Hnext Hsame (Hprimary & Hlocal & Hmock & Hpkg).
  split; [|split; [|split]].
  - intros y Hy. rewrite (Hsame y) by (by apply document_primary, Ly). by apply Hprimary.
  - intros y l Hy Hl. unfold blockTaken.
    rewrite (Hsame l) by (by apply document_local, Ll).
    rewrite (Hsame (mockYamlOf y)) by (by apply document_mock, Hnext). by apply Hlocal.
  - intros y Hy Hmeta. unfold mockHeld.
    rewrite (Hsame (join (split basePath) ["ui5-mock.yaml"]))
      by apply document_mock, atLevel_base.
    rewrite (Hsame (mockYamlOf y)) by (by apply document_mock, Hnext).
    by eapply Hmock.
  - intros y pkg Hy Hpk. unfold marked.
    rewrite (Hsame pkg) by (by apply document_package, Lpkg). by eapply Hpkg.
Qed.

Lemma first_closingWrites (basePath : string) (s : OdataService) (paths : ProjectPaths)
    (ds : list (string * DataSource)) (y : Path) (o : option UI5Config) :
  levelPaths basePath paths → ui5Yaml paths = Some y →
  atLevel basePath "ui5-mock.yaml" (mockYamlOf y) →
  hoare (λ fs, beforeClosing basePath s paths ds y fs o) (closingWrites basePath paths s o)
    (λ _ fs, written basePath s paths ds fs) (λ _, True).
Proof.
  intros Hlevels Hy Hnext. pose proof Hlevels as (Lpkg & Ly & Ll & Lk).
  pose proof (Ly y Hy) as Hat.
  pose proof (atLevel_base basePath "ui5-mock.yaml") as Hbase.
  unfold closingWrites.
  eapply hoare_bind
    with (R := λ _ fs, beforeClosing basePath s paths ds y fs o
                       ∧ ∀ pkg, packageJson paths = Some pkg → marked s fs pkg).
  { destruct (packageJson paths) as [pkg|] eqn:Hpkg;
      [|apply hoare_ret; intros fs Hb; split; [done|]; by intros pkg [=]].
    pose proof (Lpkg pkg eq_refl) as Hatp. rewrite Hy.
    apply hoare_updatePackageJson; [|done]. intros fs p Hb Hp. split.
    - revert Hb. apply beforeClosing_same; by rewrite lookup_insert_ne by level_neq.
    - intros pkg' [= <-]. eexists. rewrite lookup_insert_eq. split; [done|]. split; [done|].
      intros Hmeta. simpl. rewrite bool_decide_eq_true_2 by done. apply orb_true_r. }
  intros _. eapply hoare_bind with (R := λ _ fs, written basePath s paths ds fs).
  - destruct (ui5LocalYaml paths) as [l|] eqn:Hl.
    + pose proof (Ll l eq_refl) as Hatl. destruct o as [x|].
      * apply hoare_write. intros fs (((cy & Hcy & Hfix) & Hmock & Hlocal) & Hpkg).
        destruct (Hlocal l Hl) as (x' & [= <-] & Hfixx & Hblock).
        split; [|split; [|split]].
        -- intros y' Hy'. rewrite Hy in Hy'. injection Hy' as <-.
           exists cy. by rewrite lookup_insert_ne by level_neq.
        -- intros y' l' Hy' Hl'. rewrite Hy in Hy'. injection Hy' as <-.
           rewrite Hl in Hl'. injection Hl' as <-.
           exists x. rewrite lookup_insert_eq. split; [done|]. split; [done|].
           intros Hmeta cR k. rewrite lookup_insert_ne by level_neq. by apply Hblock.
        -- intros y' Hy' Hmeta. rewrite Hy in Hy'. injection Hy' as <-. unfold mockHeld.
           rewrite !lookup_insert_ne by level_neq. by apply Hmock.
        -- intros y' pkg _ Hpk. pose proof (Lpkg pkg Hpk) as Hatp. unfold marked.
           rewrite lookup_insert_ne by level_neq. by apply Hpkg.
      * intros fs ((_ & _ & Hlocal) & _). by destruct (Hlocal l Hl) as (x' & [=] & _).
    + apply hoare_ret. intros fs (((cy & Hcy & Hfix) & Hmock & Hlocal) & Hpkg).
      split; [|split; [|split]].
      * intros y' Hy'. rewrite Hy in Hy'. injection Hy' as <-. by exists cy.
      * intros y' l' _ Hl'. by rewrite Hl in Hl'.
      * intros y' Hy' Hmeta. rewrite Hy in Hy'. injection Hy' as <-. by apply Hmock.
      * intros y' pkg _ Hpk. by apply Hpkg.
  - intros _. apply (hoare_framed (document basePath)); [| |done].
    + intros p Hp. apply preserves_writeAnnotationXmlFiles. intros x.
      by apply document_not_payload.
    + intros fs fs' _ Hw Hsame. eapply written_same; try done.
      intros y' Hy'. rewrite Hy in Hy'. by injection Hy' as <-.
Qed.

(** The configuration files after the body of [writeEDMXServiceFiles] has run
    to its end. *)
Lemma first_writeEDMXServiceFiles (basePath : string) (s : OdataService) (paths : ProjectPaths)
    (m : Manifest) (tr : Path) :
  levelPaths basePath paths →
  (∀ y, ui5Yaml paths = Some y → atLevel basePath "ui5-mock.yaml" (mockYamlOf y)) →
  (∀ y, ui5Yaml paths = Some y → is_Some (s_metadata s) →
        ui5MockYaml paths ≠ Some (join (split basePath) ["ui5-mock.yaml"]) →
        y = join (split basePath) ["ui5.yaml"]) →
  hoare (merged basePath paths m) (writeEDMXServiceFiles basePath paths tr s)
    (λ _ fs, written basePath s paths (m_dataSources m) fs) (λ _, True).
Proof.
  intros Hlevels Hnext Hlayout. pose proof Hlevels as (Lpkg & Ly & Ll & Lk).
  destruct (ui5Yaml paths) as [y|] eqn:Hy.
  - rewrite writeEDMXServiceFiles_blocks.
    eapply hoare_bind; [by eapply first_backendStep|]. intros configs. cbv beta.
    eapply hoare_bind
      with (R := λ o fs, beforeClosing basePath s paths (m_dataSources m) y fs o);
      [|intros o; eapply first_closingWrites; by eauto].
    destruct (s_metadata s) as [metadata|] eqn:Hmeta.
    + apply (hoare_assume _ (is_Some configs.1)); [by intros fs (_ & ? & _)|].
      intros Hconfigs. eapply hoare_bind.
      { eapply hoare_conseq;
          [eapply (first_mockserverStep basePath s paths m y configs); try done| |done|done].
        - by apply Hnext.
        - intros Hne. apply Hlayout; by rewrite ?Hmeta.
        - by intros fs (Hm & _ & Hprimary & Hlocal). }
      intros o. cbv beta.
      eapply hoare_bind
        with (R := λ _ fs, beforeClosing basePath s paths (m_dataSources m) y fs o);
        [|intros _; by apply hoare_ret].
      apply (hoare_framed (document basePath));
        [|intros fs fs' _ Hb Hsame; eapply beforeClosing_documents; by eauto|done].
      intros p Hp. apply preserves_writeLocalServiceFiles; intros x;
        by apply document_not_payload.
    + apply hoare_ret. intros fs (_ & _ & Hprimary & Hlocal). split; [done|].
      rewrite Hmeta. split; [by intros [? [=]]|].
      intros l Hl. destruct (Hlocal l Hl) as (c & Hc & _ & Hfix). exists c.
      split; [done|]. split; [done|]. by intros [? [=]].
  - eapply hoare_conseq; [apply hoare_any|done| |done].
    intros _ fs _. unfold written. rewrite Hy. split; [|split; [|split]]; by intros.
Qed.

(** ** From the first call to the second *)

Lemma generate_returns_manifest (basePath : string) (s s1 : OdataService) (fs fs1 : Editor) :
  generate basePath s fs = (fs1, inr s1) →
  ∃ m, fs !! manifestPath basePath = Some (FManifest m) ∧ is_Some (m_id m).
Proof.
  intros Hrun. destruct (fs !! manifestPath basePath) as [f|] eqn:Hm;
    [|by rewrite generate_without_manifest in Hrun].
  rewrite generate_with_manifest in Hrun by (by rewrite Hm). cbv zeta in Hrun.
  rewrite run_bind in Hrun.
  destruct f as [m| | | |];
    try (unfold updateManifest in Hrun; rewrite run_bind in Hrun; unfold get in Hrun;
         cbv beta iota zeta in Hrun; by rewrite Hm in Hrun).
  destruct (m_id m) as [appid|] eqn:Hid; [by eauto|].
  by rewrite (updateManifest_without_id _ _ _ m) in Hrun.
Qed.

(** The run of [generate] for an EDMX service, cut after the merger. *)
Lemma generate_returns_edmx (basePath : string) (s s1 : OdataService) (fs fs1 : Editor)
    (m : Manifest) :
  fs !! manifestPath basePath = Some (FManifest m) → is_Some (m_id m) →
  s_type s ≠ Some CDS →
  generate basePath s fs = (fs1, inr s1) →
  s1 = enhance (m_dataSources m) (m_models m) s
  ∧ writeEDMXServiceFiles basePath (findProjectFiles basePath fs) templateRoot s1
      (mergedEditor basePath s1 m fs) = (fs1, inr tt).
Proof.
  intros Hm Hid Ht Hrun. rewrite (generate_edmx _ _ _ m) in Hrun by done. cbv zeta in Hrun.
  rewrite run_bind in Hrun.
  destruct (writeEDMXServiceFiles _ _ _ _ _) as [fs' [e|[]]] eqn:Hw; [done|].
  injection Hrun as -> <-. done.
Qed.

(** A file at a level that the body of [writeEDMXServiceFiles] does not
    write is as the first call found it. *)
Lemma level_unwritten (basePath name : string) (s : OdataService) (paths : ProjectPaths)
    (m : Manifest) (fs fs1 : Editor) (p : Path) :
  atLevel basePath name p → name ≠ "ui5-mock.yaml" →
  packageJson paths ≠ Some p → ui5Yaml paths ≠ Some p → ui5LocalYaml paths ≠ Some p →
  levelPaths basePath paths →
  writeEDMXServiceFiles basePath paths templateRoot s (mergedEditor basePath s m fs)
  = (fs1, inr tt) →
  fs1 !! p = fs !! p.
Proof.
  intros Hat Hmock Hpkg Hy Hl (Lpkg & Ly & Ll & Lk) Hrun.
  rewrite <- (mergedEditor_level basePath name s m fs p Hat).
  change fs1 with (fs1, @inr Error unit tt).1. rewrite <- Hrun.
  apply preserves_writeEDMXServiceFiles; try done.
  - intros Heq. apply Lk in Heq. by eapply (atLevel_neq _ "ui5-mock.yaml" name).
  - eapply atLevel_neq; [done|apply atLevel_base|done].
  - intros x. by eapply atLevel_not_payload.
  - intros x. by eapply atLevel_not_payload.
Qed.

(** After a call of [generate] that returns, the service is in place. *)
Lemma generate_settles (basePath : string) (s s1 : OdataService) (fs fs1 : Editor) :
  generate basePath s fs = (fs1, inr s1) →
  s_type s ≠ Some CDS →
  Forall (λ a, annotationKey a ≠ serviceNameOf s1) (s_annotations s1) →
  (is_Some (s_metadata s) → is_Some (ui5Yaml (findProjectFiles basePath fs)) →
   is_Some (fs !! join (split basePath) ["ui5.yaml"])
   ∨ is_Some (fs !! join (split basePath) ["ui5-mock.yaml"])) →
  settled basePath s1 fs1.
Proof.
  intros Hrun Ht Hfresh Hlayout.
  destruct (generate_returns_manifest _ _ _ _ _ Hrun) as (m & Hm & Hid).
  destruct (generate_returns_edmx _ _ _ _ _ m Hm Hid Ht Hrun) as (Hs1 & Hw).
  assert (enhance (m_dataSources (mergeManifest s1 m)) (m_models (mergeManifest s1 m)) s1 = s1)
    as Hstable.
  { revert Hfresh. rewrite Hs1. apply enhance_stable. }
  pose proof (generate_manifest basePath s fs m Hm Hid) as Hm1.
  rewrite Hrun, <- Hs1 in Hm1. simpl in Hm1.
  pose proof (findProjectFiles_levelPaths basePath fs) as Hlevels.
  pose proof (findProjectFiles_atLevel basePath fs) as (Fpkg & Fy & Fl & _).
  cbv zeta in Fpkg, Fy, Fl.
  pose proof (mockYamlOf_atLevel basePath fs) as Hnext.
  pose proof Hlevels as (Lpkg & Ly & Ll & Lk).
  set (paths := findProjectFiles basePath fs) in *.
  set (mockPath := join (split basePath) ["ui5-mock.yaml"]) in *.
  set (m1 := mergeManifest s1 m) in *.
  assert (s_metadata s1 = s_metadata s) as Hmeta by (rewrite Hs1; apply enhance_metadata).
  assert (is_Some (fs !! mockPath) → ui5MockYaml paths = Some mockPath) as Hclosest.
  { intros Hex. unfold paths. rewrite findProjectFiles_closest. simpl.
    by apply closestLevel_first. }
  (* the YAML files as the first call leaves them *)
  assert (written basePath s1 paths (m_dataSources m1) fs1) as Hwritten.
  { pose proof (first_writeEDMXServiceFiles basePath s1 paths m1 templateRoot Hlevels Hnext)
      as Hfirst.
    assert (∀ y, ui5Yaml paths = Some y → is_Some (s_metadata s1) →
                 ui5MockYaml paths ≠ Some mockPath → y = join (split basePath) ["ui5.yaml"])
      as Hprimary.
    { intros y Hy Hsome Hne. rewrite Hmeta in Hsome.
      destruct (Hlayout Hsome ltac:(by rewrite Hy)) as [Hex|Hex];
        [|exfalso; by apply Hne, Hclosest].
      assert (ui5Yaml paths = Some (join (split basePath) ["ui5.yaml"])) as Hfound.
      { unfold paths. rewrite findProjectFiles_closest. simpl. by apply closestLevel_first. }
      congruence. }
    specialize (Hfirst Hprimary (mergedEditor basePath s1 m fs)).
    rewrite Hw in Hfirst. apply Hfirst. split.
    - unfold mergedEditor. by rewrite lookup_insert_eq.
    - intros Hne. rewrite (mergedEditor_level _ "ui5-mock.yaml") by apply atLevel_base.
      destruct (fs !! mockPath) as [f|] eqn:Hex; [|done]. exfalso. by apply Hne, Hclosest. }
  destruct Hwritten as (Wy & Wl & Wk & Wpkg).
  (* the files that the second call locates *)
  assert (ui5Yaml (findProjectFiles basePath fs1) = ui5Yaml paths) as Py.
  { unfold paths. rewrite !findProjectFiles_closest. simpl. apply closestLevel_ext.
    intros rest Hne Hsuf. pose proof (level_atLevel basePath "ui5.yaml" rest Hne Hsuf) as Hat.
    destruct (decide (ui5Yaml paths = Some (join (rev rest) ["ui5.yaml"]))) as [Hy|Hy].
    - destruct (Wy _ Hy) as (c & -> & _). destruct (Fy _ Hy) as [_ Hex]. split; by eauto.
    - rewrite (level_unwritten basePath "ui5.yaml" s1 paths m fs fs1); try done.
      + intros Heq. apply Lpkg in Heq. by eapply (atLevel_neq _ "package.json" "ui5.yaml").
      + intros Heq. apply Ll in Heq. by eapply (atLevel_neq _ "ui5-local.yaml" "ui5.yaml"). }
  assert (is_Some (ui5Yaml paths) →
          ui5LocalYaml (findProjectFiles basePath fs1) = ui5LocalYaml paths) as Pl.
  { intros [y Hy]. unfold paths. rewrite !findProjectFiles_closest. simpl.
    apply closestLevel_ext. intros rest Hne Hsuf.
    pose proof (level_atLevel basePath "ui5-local.yaml" rest Hne Hsuf) as Hat.
    destruct (decide (ui5LocalYaml paths = Some (join (rev rest) ["ui5-local.yaml"])))
      as [Hl|Hl].
    - destruct (Wl _ _ Hy Hl) as (c & -> & _). destruct (Fl _ Hl) as [_ Hex]. split; by eauto.
    - rewrite (level_unwritten basePath "ui5-local.yaml" s1 paths m fs fs1); try done.
      + intros Heq. apply Lpkg in Heq.
        by eapply (atLevel_neq _ "package.json" "ui5-local.yaml").
      + intros Heq. apply Ly in Heq. by eapply (atLevel_neq _ "ui5.yaml" "ui5-local.yaml"). }
  assert (is_Some (ui5Yaml paths) →
          packageJson (findProjectFiles basePath fs1) = packageJson paths) as Ppkg.
  { intros [y Hy]. unfold paths. rewrite !findProjectFiles_closest. simpl.
    apply closestLevel_ext. intros rest Hne Hsuf.
    pose proof (level_atLevel basePath "package.json" rest Hne Hsuf) as Hat.
    destruct (decide (packageJson paths = Some (join (rev rest) ["package.json"])))
      as [Hpk|Hpk].
    - destruct (Wpkg _ _ Hy Hpk) as (p & -> & _). destruct (Fpkg _ Hpk) as [_ Hex].
      split; by eauto.
    - rewrite (level_unwritten basePath "package.json" s1 paths m fs fs1); try done.
      + intros Heq. apply Ly in Heq. by eapply (atLevel_neq _ "ui5.yaml" "package.json").
      + intros Heq. apply Ll in Heq.
        by eapply (atLevel_neq _ "ui5-local.yaml" "package.json"). }
  destruct (mergeManifest_idem s1 m Hfresh) as [Hidem Hlone].
  exists m1. split; [done|]. split; [done|]. split; [done|]. split; [done|]. split; [done|].
  split; [split; [|split; [|split]]|].
  - intros y. rewrite Py. apply Wy.
  - intros y l. rewrite Py. intros Hy. rewrite Pl by (by rewrite Hy). by apply Wl.
  - intros y. rewrite Py. apply Wk.
  - intros y pkg. rewrite Py. intros Hy. rewrite Ppkg by (by rewrite Hy). by apply (Wpkg y).
  - intros y. rewrite Py. intros Hy Hsome.
    destruct (Wk y Hy Hsome) as ((c & k & Hc & _) & _).
    rewrite findProjectFiles_closest. simpl. apply closestLevel_first. by rewrite Hc.
Qed.

(** ** Calling [generate] twice *)




(** * Further properties of [index.ts] *)

(** ** [ensureExists] over a list of files *)

(** [ensureExists] never changes the editor; it returns when every listed
    file exists under the base path and otherwise throws the
    required-project-file error for the first file of the list, in order,
    that does not exist. *)
Theorem ensureExists_first_missing (basePath : string) (files : list string) (fs : Editor) :
  ensureExists basePath files fs
  = (fs, match List.find (λ path, negb (exists_in fs (join (split basePath) (split path)))) files with
         | Some path => inl (RequiredProjectFileNotFound path)
         | None => inr tt
         end).
Proof.
  induction files as [|path rest IH]; [done|].
  cbn [ensureExists List.find]. rewrite run_bind. unfold fs_exists, exists_in in *.
  by destruct (bool_decide (is_Some (fs !! join (split basePath) (split path)))).
Qed.

(** ** [findProjectFiles], level by level *)

Lemma closestLevel_take (fs : Editor) (parts : Path) (name : string) :
  match closestLevel fs (rev parts) name with
  | Some p =>
      ∃ k, (0 < k ≤ List.length parts)%nat ∧ p = join (take k parts) [name]
           ∧ is_Some (fs !! p)
           ∧ ∀ k', (k < k' ≤ List.length parts)%nat → fs !! join (take k' parts) [name] = None
  | None => ∀ k, (0 < k ≤ List.length parts)%nat → fs !! join (take k parts) [name] = None
  end.
Proof.
  induction parts as [|a init IH] using rev_ind; [simpl; intros k Hk; lia|].
  rewrite rev_app_distr. cbn [rev app closestLevel]. rewrite rev_involutive.
  rewrite length_app. cbn [List.length].
  assert (∀ k, (k ≤ List.length init)%nat → take k (init ++ [a]) = take k init) as Htake
      by (intros k Hk; by apply take_app_le).
  assert (take (List.length init + 1) (init ++ [a]) = init ++ [a]) as Hall
      by (apply take_ge; rewrite length_app; simpl; lia).
  unfold exists_in. case_bool_decide as Hex.
  - exists (List.length init + 1)%nat. split; [lia|].
    rewrite Hall. split; [done|]. split; [done|]. intros k' Hk'. lia.
  - apply eq_None_not_Some in Hex.
    destruct (closestLevel fs (rev init) name) as [p|].
    + destruct IH as (k & Hk & -> & Hp & Hcloser). exists k. split; [lia|].
      rewrite Htake by lia. split; [done|]. split; [done|].
      intros k' Hk'. destruct (decide (k' = List.length init + 1)%nat) as [->|Hne].
      * by rewrite Hall.
      * rewrite Htake by lia. apply Hcloser. lia.
    + intros k Hk. destruct (decide (k = List.length init + 1)%nat) as [->|Hne].
      * by rewrite Hall.
      * rewrite Htake by lia. apply IH. lia.
Qed.

Lemma fileNamed_closestLevel (basePath name : string) (fs : Editor) :
  name ∈ configNames →
  fileNamed name (findProjectFiles basePath fs) = closestLevel fs (rev (split basePath)) name.
Proof.
  intros Hname. rewrite findProjectFiles_closest. cbv zeta. unfold configNames in Hname.
  repeat (apply elem_of_cons in Hname as [->|Hname]; [reflexivity|]).
  by apply elem_of_nil in Hname.
Qed.

(** A located file exists, lies in the folder made of the first [k] segments
    of the base path for some [k], and no folder closer to the base path
    holds a file of that name; when nothing is located, no folder on the way
    up holds one.  The folders are those of [basePath.split(sep)] with
    segments popped: the base path itself down to its first segment. *)
Theorem findProjectFiles_closest_level (basePath name : string) (fs : Editor) :
  name ∈ configNames →
  let parts := split basePath in
  match fileNamed name (findProjectFiles basePath fs) with
  | Some p =>
      ∃ k, (0 < k ≤ List.length parts)%nat ∧ p = join (take k parts) [name]
           ∧ is_Some (fs !! p)
           ∧ ∀ k', (k < k' ≤ List.length parts)%nat → fs !! join (take k' parts) [name] = None
  | None => ∀ k, (0 < k ≤ List.length parts)%nat → fs !! join (take k parts) [name] = None
  end.
Proof.
  intros Hname parts. rewrite fileNamed_closestLevel by done. apply closestLevel_take.
Qed.

(** [ui5.yaml] one level above the project folder, none in it; no
    [ui5-mock.yaml] anywhere. *)
Lemma findProjectFiles_closest_level_witness :
  let fs : Editor := <[ ["";"proj";"ui5.yaml"] := FYaml emptyConfig ]>
                     {[ ["";"ui5.yaml"] := FYaml emptyConfig ]} in
  (∃ k, (0 < k ≤ 3)%nat ∧ ["";"proj";"ui5.yaml"] = join (take k ["";"proj";"app"]) ["ui5.yaml"]
        ∧ is_Some (fs !! ["";"proj";"ui5.yaml"])
        ∧ ∀ k', (k < k' ≤ 3)%nat → fs !! join (take k' ["";"proj";"app"]) ["ui5.yaml"] = None)
  ∧ ∀ k, (0 < k ≤ 3)%nat → fs !! join (take k ["";"proj";"app"]) ["ui5-mock.yaml"] = None.
Proof.
  intros fs. split.
  - apply (findProjectFiles_closest_level "/proj/app" "ui5.yaml" fs).
    unfold configNames. right. by left.
  - apply (findProjectFiles_closest_level "/proj/app" "ui5-mock.yaml" fs).
    unfold configNames. right. right. right. by left.
Defined.

(** The search looks at the existence of files only: two editors in which
    the same paths exist locate the same files, whatever the files hold. *)
Theorem findProjectFiles_existence_only (basePath : string) (fs fs' : Editor) :
  (∀ p, is_Some (fs' !! p) ↔ is_Some (fs !! p)) →
  findProjectFiles basePath fs' = findProjectFiles basePath fs.
Proof.
  intros Hsame. rewrite !findProjectFiles_closest. cbv zeta.
  f_equal; apply closestLevel_ext; intros rest _ _; apply Hsame.
Qed.

(** Overwriting a file that exists, as every YAML update of [generate] and
    [remove] does, moves no located file. *)
Lemma findProjectFiles_existence_only_witness :
  let fs : Editor := <[ ["";"proj";"ui5.yaml"] := FYaml emptyConfig ]>
                     {[ ["";"proj";"app";"package.json"]
                        := FPackage {| ui5Tooling := false; mockserverDependency := false |} ]} in
  findProjectFiles "/proj/app" (<[ ["";"proj";"ui5.yaml"] := FYaml (proxyOnly []) ]> fs)
  = findProjectFiles "/proj/app" fs.
Proof.
  intros fs. apply findProjectFiles_existence_only. intros p.
  destruct (decide (p = ["";"proj";"ui5.yaml"])) as [->|Hne].
  - rewrite lookup_insert_eq. unfold fs. rewrite lookup_insert_eq. split; by eexists.
  - by rewrite lookup_insert_ne.
Defined.

(** ** [extendBackendMiddleware]: the one file it writes *)

(** Whatever the document model does: when it adds the backend the updated
    document is written to the given path; every other path is left as it is
    in every outcome; and an error comes out only if the document model
    threw it and it is not one of the two recovered kinds, the editor being
    then as it was. *)
Theorem extendBackendMiddleware_writes_one_file
    (addBackend : ProxyBackend → UI5Config → Error + UI5Config)
    (service : OdataService) (ui5Config : UI5Config) (ui5ConfigPath : Path) (fs : Editor) :
  let run := extendBackendMiddlewareVia addBackend service ui5Config ui5ConfigPath fs in
  (∀ updated, addBackend (previewSettingsOf service) ui5Config = inr updated →
     run = (<[ui5ConfigPath := FYaml updated]> fs, inr updated))
  ∧ (∀ p, p ≠ ui5ConfigPath → run.1 !! p = fs !! p)
  ∧ (∀ written, run.2 = inr written → run.1 !! ui5ConfigPath = Some (FYaml written))
  ∧ (∀ error, run.2 = inl error →
       run.1 = fs ∧ addBackend (previewSettingsOf service) ui5Config = inl error
       ∧ middlewareNotFound error = false).
Proof.
  intros run. unfold run, extendBackendMiddlewareVia.
  destruct (addBackend (previewSettingsOf service) ui5Config) as [error|updated].
  - destruct (middlewareNotFound error) eqn:Hkind.
    + change ((fs_write ui5ConfigPath
                 (FYaml (addFioriToolsProxydMiddleware [previewSettingsOf service]
                           (s_ignoreCertError service) ui5Config));;
               mret (addFioriToolsProxydMiddleware [previewSettingsOf service]
                       (s_ignoreCertError service) ui5Config)) fs)
        with (<[ui5ConfigPath
                := FYaml (addFioriToolsProxydMiddleware [previewSettingsOf service]
                            (s_ignoreCertError service) ui5Config)]> fs,
              @inr Error UI5Config
                (addFioriToolsProxydMiddleware [previewSettingsOf service]
                   (s_ignoreCertError service) ui5Config)).
      cbn [fst snd]. split; [done|]. split; [by intros p Hp; rewrite lookup_insert_ne|].
      split; [|done]. intros written [= <-]. by rewrite lookup_insert_eq.
    + split; [done|]. split; [done|]. split; [done|]. by intros error' [= <-].
  - change ((fs_write ui5ConfigPath (FYaml updated);; mret updated) fs)
      with (<[ui5ConfigPath := FYaml updated]> fs, @inr Error UI5Config updated).
    cbn [fst snd]. split; [by intros updated' [= <-]|].
    split; [by intros p Hp; rewrite lookup_insert_ne|].
    split; [|done]. intros written [= <-]. by rewrite lookup_insert_eq.
Qed.

(** A document model that updates the document, and one that fails with a
    parsing error. *)
Lemma extendBackendMiddleware_writes_one_file_witness :
  let adding : ProxyBackend → UI5Config → Error + UI5Config :=
    λ b _, inr (proxyOnly [b]) in
  let failing : ProxyBackend → UI5Config → Error + UI5Config :=
    λ _ _, inl (YAMLError "bad indentation" yamlParsing) in
  let fs : Editor := {[ ["ui5-local.yaml"] := FYaml emptyConfig ]} in
  extendBackendMiddlewareVia adding northwind emptyConfig ["ui5.yaml"] fs
  = (<[ ["ui5.yaml"] := FYaml (proxyOnly [noPreviewSettings]) ]> fs,
     inr (proxyOnly [noPreviewSettings]))
  ∧ (extendBackendMiddlewareVia adding northwind emptyConfig ["ui5.yaml"] fs).1
      !! ["ui5-local.yaml"] = fs !! ["ui5-local.yaml"]
  ∧ (extendBackendMiddlewareVia failing northwind emptyConfig ["ui5.yaml"] fs).1 = fs.
Proof.
  intros adding failing fs.
  destruct (extendBackendMiddleware_writes_one_file adding northwind emptyConfig ["ui5.yaml"] fs)
    as (Hwrite & Hother & _ & _).
  destruct (extendBackendMiddleware_writes_one_file failing northwind emptyConfig ["ui5.yaml"] fs)
    as (_ & _ & _ & Herror).
  split; [by apply Hwrite|]. split; [by apply Hother|].
  by apply (Herror (YAMLError "bad indentation" yamlParsing)).
Defined.

(** ** [getEDMXAnnotationPaths]: one path per technical name *)

Lemma hexDigit_inj (a b : N) : (a < 16)%N → (b < 16)%N → hexDigit a = hexDigit b → a = b.
Proof.
  intros Ha Hb. unfold hexDigit. rewrite !nth_lookup.
  assert (NoDup (list_ascii_of_string "0123456789ABCDEF")) as Hdistinct
    by (by apply (bool_decide_unpack _)).
  destruct (lookup_lt_is_Some_2 (list_ascii_of_string "0123456789ABCDEF") (N.to_nat a))
    as [x Hx]; [simpl; lia|].
  destruct (lookup_lt_is_Some_2 (list_ascii_of_string "0123456789ABCDEF") (N.to_nat b))
    as [y Hy]; [simpl; lia|].
  rewrite Hx, Hy. simpl. intros ->.
  pose proof (NoDup_lookup _ _ _ _ Hdistinct Hx Hy). lia.
Qed.

Lemma escaped_inj (c d : ascii) :
  hexDigit (N_of_ascii c / 16) = hexDigit (N_of_ascii d / 16) →
  hexDigit (N_of_ascii c mod 16) = hexDigit (N_of_ascii d mod 16) →
  c = d.
Proof.
  intros Hhigh Hlow.
  pose proof (N_ascii_bounded c) as Hc. pose proof (N_ascii_bounded d) as Hd.
  apply hexDigit_inj in Hhigh; [|apply N.Div0.div_lt_upper_bound; lia..].
  apply hexDigit_inj in Hlow; [|apply N.mod_lt; lia..].
  rewrite <- (ascii_N_embedding c), <- (ascii_N_embedding d). f_equal.
  rewrite (N.div_mod (N_of_ascii c) 16), (N.div_mod (N_of_ascii d) 16) by lia. congruence.
Qed.

Lemma encodeURIComponent_inj (s t : string) :
  encodeURIComponent s = encodeURIComponent t → s = t.
Proof.
  revert t. induction s as [|c r IH]; intros [|d u]; cbn [encodeURIComponent].
  - done.
  - by destruct (isUnreserved d).
  - by destruct (isUnreserved c).
  - destruct (isUnreserved c) eqn:Hc, (isUnreserved d) eqn:Hd; intros Heq.
    + injection Heq as -> Heq. f_equal. by apply IH.
    + injection Heq as -> _. by vm_compute in Hc.
    + injection Heq as <- _. by vm_compute in Hd.
    + injection Heq as Hhigh Hlow Heq. f_equal; [by apply escaped_inj|by apply IH].
Qed.

Lemma string_length_app (s t : string) :
  String.length (s +:+ t) = (String.length s + String.length t)%nat.
Proof. induction s as [|c s IH]; simpl; [done|]. by rewrite IH. Qed.

Lemma string_app_inv_head (s t u : string) : s +:+ t = s +:+ u → t = u.
Proof. induction s as [|c s IH]; simpl; [done|]. intros [= H]. by apply IH. Qed.

Lemma string_app_inv_tail (s t u : string) : s +:+ u = t +:+ u → s = t.
Proof.
  revert t. induction s as [|c s IH]; intros [|d t]; simpl; intros Heq.
  - done.
  - apply (f_equal String.length) in Heq. simpl in Heq. rewrite !string_length_app in Heq.
    simpl in Heq. lia.
  - apply (f_equal String.length) in Heq. simpl in Heq. rewrite !string_length_app in Heq.
    simpl in Heq. lia.
  - injection Heq as -> Heq. f_equal. by apply IH.
Qed.

Lemma annotationPath_inj (s t : string) : annotationPath s = annotationPath t → s = t.
Proof.
  unfold annotationPath. intros Heq. apply string_app_inv_head in Heq.
  apply string_app_inv_tail in Heq. by apply encodeURIComponent_inj.
Qed.

(** Two lists of annotations give the same list of paths exactly when they
    carry the same technical names in the same order: the encoding of the
    technical name loses nothing, so no two technical names share a path. *)
Theorem getEDMXAnnotationPaths_injective (l1 l2 : list EdmxAnnotationsInfo) :
  getEDMXAnnotationPaths l1 = getEDMXAnnotationPaths l2
  ↔ a_technicalName <$> l1 = a_technicalName <$> l2.
Proof.
  assert (∀ (x y : string) (l k : list string), x :: l = y :: k → x = y ∧ l = k) as Hcons
    by (by intros x y l k [= ]).
  unfold getEDMXAnnotationPaths. split.
  - revert l2. induction l1 as [|a l1 IH]; intros [|b l2]; simpl; try done.
    intros Heq. apply Hcons in Heq as [Hpath Hrest].
    f_equal; [by apply annotationPath_inj|by apply IH].
  - revert l2. induction l1 as [|a l1 IH]; intros [|b l2]; simpl; try done.
    intros Heq. apply Hcons in Heq as [Hname Hrest]. rewrite Hname. f_equal. by apply IH.
Qed.

(** A technical name made of letters, digits and the marks
    [- _ . ! ~ * ' ( )] only, the empty one included, stands in the path as
    it is. *)
Theorem getEDMXAnnotationPaths_verbatim (l : list EdmxAnnotationsInfo) :
  Forall (λ a, Forall (λ c, isUnreserved c = true) (list_ascii_of_string (a_technicalName a))) l →
  getEDMXAnnotationPaths l
  = (λ a, "/sap/opu/odata/IWFND/CATALOGSERVICE;v=2/Annotations(TechnicalName='"
          +:+ a_technicalName a +:+ "',Version='0001')/$value/") <$> l.
Proof.
  assert (∀ s, Forall (λ c, isUnreserved c = true) (list_ascii_of_string s) →
               encodeURIComponent s = s) as Hplain.
  { induction s as [|c s IH]; simpl; [done|]. intros Hs. apply Forall_cons in Hs as [Hc Hs].
    rewrite Hc. f_equal. by apply IH. }
  intros Hl. unfold getEDMXAnnotationPaths. apply Forall_fmap_ext_1.
  eapply Forall_impl; [exact Hl|]. intros a Ha. simpl. unfold annotationPath.
  by rewrite (Hplain _ Ha).
Qed.

(** The annotation of the unit tests, and one with no technical name. *)
Lemma getEDMXAnnotationPaths_verbatim_witness :
  getEDMXAnnotationPaths
    [ {| a_name := None; a_technicalName := "SEPMRA_PROD_MAN"; a_xml := None |};
      {| a_name := None; a_technicalName := ""; a_xml := None |} ]
  = [ "/sap/opu/odata/IWFND/CATALOGSERVICE;v=2/Annotations(TechnicalName='SEPMRA_PROD_MAN',Version='0001')/$value/";
      "/sap/opu/odata/IWFND/CATALOGSERVICE;v=2/Annotations(TechnicalName='',Version='0001')/$value/" ].
Proof.
  apply (getEDMXAnnotationPaths_verbatim
           [ {| a_name := None; a_technicalName := "SEPMRA_PROD_MAN"; a_xml := None |};
             {| a_name := None; a_technicalName := ""; a_xml := None |} ]).
  apply Forall_cons. split; [|apply Forall_cons; split; [apply Forall_nil_2|apply Forall_nil_2]].
  simpl. repeat (apply Forall_cons; split; [reflexivity|]). apply Forall_nil_2.
Defined.

(** ** [generateMockserverMiddlewareBasedOnUi5MockYaml] *)

(** The function only reads: the editor comes back as it was in every
    outcome.  It reads the [ui5-mock.yaml] beside the given [ui5.yaml] and
    throws when that file is missing or holds no YAML document, also when
    there is no local configuration to update.  When it returns, the local
    configuration is the one passed in unless a local path is given, the
    local file exists, a local configuration is given and the mock YAML has a
    mock-server block; then it is the local configuration with that block,
    its proxy block as before. *)
Theorem generateMockserverMiddleware_reads_sibling (ui5YamlPath : Path)
    (ui5LocalConfigPath : option Path) (ui5LocalConfig : option UI5Config) (fs : Editor) :
  let sibling := join (dirname ui5YamlPath) ["ui5-mock.yaml"] in
  let run := generateMockserverMiddlewareBasedOnUi5MockYaml ui5YamlPath ui5LocalConfigPath
               ui5LocalConfig fs in
  run.1 = fs
  ∧ ((∀ mockConfig, fs !! sibling ≠ Some (FYaml mockConfig)) → ∃ error, run.2 = inl error)
  ∧ (∀ mockConfig, fs !! sibling = Some (FYaml mockConfig) →
       ∃ result, run.2 = inr result
         ∧ match ui5LocalConfigPath, ui5LocalConfig, findMockserverMiddleware mockConfig with
           | Some localPath, Some localConfig, Some block =>
               if exists_in fs localPath
               then ∃ updated, result = Some updated
                      ∧ findMockserverMiddleware updated = Some block
                      ∧ customMiddleware updated ≫= fioriToolsProxy
                        = customMiddleware localConfig ≫= fioriToolsProxy
               else result = ui5LocalConfig
           | _, _, _ => result = ui5LocalConfig
           end).
Proof.
  intros sibling run. split; [|split].
  - unfold run, generateMockserverMiddlewareBasedOnUi5MockYaml. cbv zeta. rewrite run_bind_fst.
    pose proof (@readConfig_state sibling fs) as Hstate. fold sibling.
    destruct (readConfig sibling fs) as [fs' [error|mockConfig]]; simpl in Hstate; subst fs';
      [done|].
    rewrite run_bind_fst. unfold get. cbv beta iota.
    destruct ui5LocalConfigPath as [localPath|]; [|done].
    destruct ui5LocalConfig as [localConfig|]; [|done].
    destruct (findMockserverMiddleware mockConfig) as [block|]; [|done].
    by destruct (exists_in fs localPath).
  - intros Hmissing. unfold run, generateMockserverMiddlewareBasedOnUi5MockYaml. cbv zeta.
    rewrite run_bind. fold sibling. unfold readConfig, fs_read. rewrite run_bind.
    destruct (fs !! sibling) as [[| mockConfig | | |]|] eqn:Hread; try (by eexists).
    by destruct (Hmissing mockConfig).
  - intros mockConfig Hread. unfold run.
    rewrite (generateMockserverMiddleware_run _ _ _ mockConfig) by done.
    eexists. split; [done|]. unfold localFromMock.
    destruct ui5LocalConfigPath as [localPath|]; [|done].
    destruct ui5LocalConfig as [localConfig|]; [|done].
    destruct (findMockserverMiddleware mockConfig) as [block|]; [|done].
    destruct (exists_in fs localPath); [|done].
    eexists. split; [done|]. split; [done|]. by destruct localConfig as [[[? ?]|]].
Qed.

(** The mock YAML of the unit tests beside [ui5.yaml], with and without a
    local YAML in the editor; and no mock YAML at all. *)
Lemma generateMockserverMiddleware_reads_sibling_witness :
  let mock := {| customMiddleware :=
                   Some {| fioriToolsProxy := None; sapFeMockserver := mainMockserver |} |} in
  let fs : Editor := <[ ["";"tmp";"ui5-mock.yaml"] := FYaml mock ]>
                     {[ ["";"tmp";"ui5-local.yaml"] := FYaml (proxyOnly []) ]} in
  (∃ error, (generateMockserverMiddlewareBasedOnUi5MockYaml ["";"tmp";"ui5.yaml"] None None ∅).2
            = inl error)
  ∧ ∃ result,
      (generateMockserverMiddlewareBasedOnUi5MockYaml ["";"tmp";"ui5.yaml"]
         (Some ["";"tmp";"ui5-local.yaml"]) (Some (proxyOnly [])) fs).2 = inr result
      ∧ ∃ updated, result = Some updated
          ∧ findMockserverMiddleware updated = mainMockserver
          ∧ customMiddleware updated ≫= fioriToolsProxy
            = customMiddleware (proxyOnly []) ≫= fioriToolsProxy.
Proof.
  intros mock fs. split.
  - apply (generateMockserverMiddleware_reads_sibling ["";"tmp";"ui5.yaml"] None None ∅).
    intros mockConfig. rewrite lookup_empty. discriminate.
  - destruct (generateMockserverMiddleware_reads_sibling ["";"tmp";"ui5.yaml"]
                (Some ["";"tmp";"ui5-local.yaml"]) (Some (proxyOnly [])) fs)
      as (_ & _ & Hread).
    destruct (Hread mock) as (result & Hresult & Hupdated); [reflexivity|].
    exists result. split; [exact Hresult|]. exact Hupdated.
Defined.

(** ** [writeEDMXServiceFiles]: what needs [ui5.yaml], and what a broken YAML
    file leaves behind *)



Lemma readConfig_broken (p : Path) (fs : Editor) :
  (∀ c, fs !! p ≠ Some (FYaml c)) → ∃ error, readConfig p fs = (fs, inl error).
Proof.
  intros Hbroken. unfold readConfig, fs_read. rewrite run_bind.
  destruct (fs !! p) as [[| c | | |]|]; try (by eexists). by destruct (Hbroken c).
Qed.

(** The YAML files are read and written one after the other, so a file that
    cannot be read stops the body half way: with an unreadable [ui5.yaml]
    nothing is written; with a readable [ui5.yaml] and an unreadable
    [ui5-local.yaml] the body throws after [extendBackendMiddleware] has
    written [ui5.yaml], which stays written. *)
Theorem writeEDMXServiceFiles_broken_yaml (basePath : string) (paths : ProjectPaths)
    (tr : Path) (service : OdataService) (fs : Editor) (ui5YamlPath : Path) :
  ui5Yaml paths = Some ui5YamlPath →
  ((∀ c, fs !! ui5YamlPath ≠ Some (FYaml c)) →
   ∃ error, writeEDMXServiceFiles basePath paths tr service fs = (fs, inl error))
  ∧ (∀ ui5Config ui5LocalYamlPath,
       fs !! ui5YamlPath = Some (FYaml ui5Config) →
       ui5LocalYaml paths = Some ui5LocalYamlPath → ui5LocalYamlPath ≠ ui5YamlPath →
       (∀ c, fs !! ui5LocalYamlPath ≠ Some (FYaml c)) →
       ∃ error written,
         extendBackendMiddleware service ui5Config ui5YamlPath fs
         = (<[ui5YamlPath := FYaml written]> fs, inr written)
         ∧ writeEDMXServiceFiles basePath paths tr service fs
           = (<[ui5YamlPath := FYaml written]> fs, inl error)).
Proof.
  intros Hy. rewrite writeEDMXServiceFiles_blocks. unfold backendStep. rewrite Hy. split.
  - intros Hbroken. destruct (readConfig_broken _ _ Hbroken) as [error Hread].
    exists error. by rewrite !run_bind, Hread.
  - intros ui5Config l Hread Hl Hne Hbroken. rewrite Hl.
    rewrite !run_bind, (readConfig_run _ _ _ Hread). rewrite !run_bind.
    rewrite extendBackendMiddleware_run. cbn [fst].
    destruct (readConfig_broken l (<[ui5YamlPath := FYaml (extended service ui5Config)]> fs))
      as [error Hlocal]; [intros c; by rewrite lookup_insert_ne|].
    exists error, (extended service ui5Config). split; [done|]. by rewrite !run_bind, Hlocal.
Qed.

(** A [ui5.yaml] without middleware and a [ui5-local.yaml] that is no YAML
    document: the proxy block is in [ui5.yaml] when the body throws. *)
Lemma writeEDMXServiceFiles_broken_yaml_witness :
  let paths := {| packageJson := None; ui5Yaml := Some ["";"tmp";"ui5.yaml"];
                  ui5LocalYaml := Some ["";"tmp";"ui5-local.yaml"]; ui5MockYaml := None |} in
  let fs : Editor := <[ ["";"tmp";"ui5.yaml"] := FYaml emptyConfig ]>
                     {[ ["";"tmp";"ui5-local.yaml"] := FText "{" ]} in
  ∃ error written,
    extendBackendMiddleware northwind emptyConfig ["";"tmp";"ui5.yaml"] fs
    = (<[ ["";"tmp";"ui5.yaml"] := FYaml written ]> fs, inr written)
    ∧ writeEDMXServiceFiles "/tmp" paths templateRoot northwind fs
      = (<[ ["";"tmp";"ui5.yaml"] := FYaml written ]> fs, inl error).
Proof.
  intros paths fs.
  destruct (writeEDMXServiceFiles_broken_yaml "/tmp" paths templateRoot northwind fs
              ["";"tmp";"ui5.yaml"] eq_refl) as [_ Hlocal].
  apply (Hlocal emptyConfig ["";"tmp";"ui5-local.yaml"]); [reflexivity|reflexivity|discriminate|].
  intros c. vm_compute. discriminate.
Defined.

(** ** [remove]: YAML files for EDMX services only *)

(** [remove] compares the type with [EDMX] as the caller gave it: for any
    other type, and for a descriptor without type, it comes down to the
    manifest deletion and the CDS annotation removal, and no YAML file is read
    or written.  For an EDMX service the YAML files are edited after the
    manifest deletion, one after the other: when the located [ui5.yaml]
    cannot be read [remove] throws, and the editor is the one that the
    manifest deletion left. *)
Theorem remove_yaml_only_for_edmx (basePath : string) (service : OdataService) (fs : Editor) :
  (s_type service ≠ Some EDMX →
   remove basePath service fs
   = (deleteServiceFromManifest basePath (s_name service);;
      removeAnnotationsFromCDSFiles (s_annotations service)) fs)
  ∧ (∀ ui5YamlPath staged,
       s_type service = Some EDMX →
       ui5Yaml (findProjectFiles basePath fs) = Some ui5YamlPath →
       deleteServiceFromManifest basePath (s_name service) fs = (staged, inr tt) →
       (∀ c, staged !! ui5YamlPath ≠ Some (FYaml c)) →
       ∃ error, remove basePath service fs = (staged, inl error)).
Proof.
  rewrite remove_unfold. split.
  - intros Htype. by rewrite bool_decide_eq_false_2.
  - intros y staged Htype Hy Hdelete Hbroken.
    rewrite bool_decide_eq_true_2 by done. rewrite Hy.
    destruct (readConfig_broken _ _ Hbroken) as [error Hread]. exists error.
    rewrite run_bind, Hdelete. unfold editConfig. by rewrite !run_bind, Hread.
Qed.

(** The descriptor of the unit test without its type, on the project of the
    unit tests; and the same project with a [ui5.yaml] that is no YAML
    document. *)
Lemma remove_yaml_only_for_edmx_witness :
  let untyped := set_type None (dummyService "https://localhost") in
  let broken : Editor := <[ ["";"tmp";"ui5.yaml"] := FText "{" ]> removeProject in
  remove "/tmp" untyped removeProject
  = (deleteServiceFromManifest "/tmp" (s_name untyped);;
     removeAnnotationsFromCDSFiles (s_annotations untyped)) removeProject
  ∧ ∃ error, remove "/tmp" (dummyService "https://localhost") broken = (broken, inl error).
Proof.
  intros untyped broken. split.
  - apply (remove_yaml_only_for_edmx "/tmp" untyped removeProject). discriminate.
  - apply (proj2 (remove_yaml_only_for_edmx "/tmp" (dummyService "https://localhost") broken)
             ["";"tmp";"ui5.yaml"] broken).
    + reflexivity.
    + reflexivity.
    + reflexivity.
    + intros c. vm_compute. discriminate.
Defined.

(** ** [writeLocalServiceFiles]: the two files *)



(** ** [generate]: the manifest first, the YAML files after *)


